(** * gdstk: GDSII and OASIS library input/output

    A shallow embedding of [src/library.cpp] (namespace [gdstk]): the
    writers [Library::write_gds] and [Library::write_oas], the readers
    [read_gds] and [read_oas], and the properties the specification states
    about them.

    Conventions.
    - A byte, and every fixed-width C integer, is a [Z]; wrap-around is
      written out where the source relies on it.
    - A [double] is a primitive binary64 float.
    - A [char*] is a byte list without its terminator, [None] when null;
      [c_str] gives what the C string functions see (up to the first NUL).
    - Heap objects live in a [Store]; a pointer is an index into it.
    - A run that dereferences a null or dangling pointer, or reads outside
      an object, has no defined result: the functions return [None] there. *)

From Stdlib Require Import ZArith Lia List String Floats Bool.
From stdpp Require Import base option list gmap sorting.

Open Scope Z_scope.

(** ** Basic types *)

Abbreviation double := float (only parsing).
Abbreviation bytes := (list Z) (only parsing).
Abbreviation ptr := nat (only parsing).

Definition M_PI : double := 0x1.921fb54442d18p+1%float.

(** The literal [1e-6]. *)
Definition micro : double := 0x1.0c6f7a0b5ed8dp-20%float.

Definition uint8 (z : Z) : Z := z mod 256.
Definition uint16 (z : Z) : Z := z mod 65536.
Definition uint32 (z : Z) : Z := z mod 4294967296.
Definition uint64 (z : Z) : Z := z mod 18446744073709551616.

(** Conversion of an integer to [double] (round to nearest even). *)
Definition double_of_Z (z : Z) : double :=
  SF2Prim (binary_normalize prec emax z 0 false).

(** What [strlen], [strcmp] and the hash of [Map] see of a byte buffer. *)
Fixpoint c_str (s : bytes) : bytes :=
  match s with
  | [] => []
  | c :: s' => if c =? 0 then [] else c :: c_str s'
  end.

Definition strlen (s : bytes) : Z := Z.of_nat (length (c_str s)).

(** ** In-memory model (section 3 of the specification) *)

Record Vec2 := mkVec2 { vx : double; vy : double }.

Definition Vec2_zero : Vec2 := mkVec2 0%float 0%float.

Inductive ReferenceType := ReferenceType_Cell | ReferenceType_RawCell | ReferenceType_Name.

#[global] Instance ReferenceType_eq_dec : EqDecision ReferenceType.
Proof. solve_decision. Defined.

(** The anonymous union of [Reference]: a cell pointer, a raw cell pointer
    or a name.  [read_oas] also parks a reference number in the pointer. *)
Inductive ReferenceUnion :=
| RU_null
| RU_cell (c : ptr)
| RU_number (n : Z)
| RU_rawcell (r : Z)
| RU_name (s : bytes).

Inductive RepetitionType :=
| RepetitionType_None
| RepetitionType_Rectangular
| RepetitionType_Regular
| RepetitionType_Explicit.

Record Repetition := mkRepetition {
  rep_type : RepetitionType;
  rep_columns : Z;
  rep_rows : Z;
  rep_spacing : Vec2;
  rep_v1 : Vec2;
  rep_v2 : Vec2;
  rep_offsets : list Vec2
}.

Definition Repetition_zero : Repetition :=
  mkRepetition RepetitionType_None 0 0 Vec2_zero Vec2_zero Vec2_zero [].

Inductive PropertyValue :=
| PropertyValue_Real (r : double)
| PropertyValue_UnsignedInteger (u : Z)
| PropertyValue_Integer (i : Z)
| PropertyValue_String (b : bytes).

Record Property := mkProperty { prop_name : bytes; prop_value : list PropertyValue }.

(** A property list; the null pointer is the empty list. *)
Definition Properties := list Property.

(** [Array<Vec2>] of a polygon.  [pa_size] is the [size] field; [pa_items]
    is the storage read as doubles (two per point), [None] where nothing
    was written yet. *)
Record PointArray := mkPointArray { pa_size : Z; pa_items : list (option double) }.

Record Polygon := mkPolygon {
  poly_layer : Z;
  poly_datatype : Z;
  poly_point_array : PointArray;
  poly_repetition : Repetition;
  poly_properties : Properties
}.

Definition Polygon_zero : Polygon :=
  mkPolygon 0 0 (mkPointArray 0 []) Repetition_zero [].

Inductive EndType := EndType_Flush | EndType_Round | EndType_HalfWidth | EndType_Extended.

Record FlexPathElement := mkFlexPathElement {
  fpe_layer : Z;
  fpe_datatype : Z;
  fpe_half_width_and_offset : list Vec2;
  fpe_end_type : EndType;
  fpe_end_extensions : Vec2
}.

Definition FlexPathElement_zero : FlexPathElement :=
  mkFlexPathElement 0 0 [] EndType_Flush Vec2_zero.

Record Curve := mkCurve { curve_tolerance : double; curve_point_array : list Vec2 }.

Record FlexPath := mkFlexPath {
  fp_spine : Curve;
  fp_elements : list FlexPathElement;
  fp_num_elements : Z;
  fp_gdsii_path : bool;
  fp_scale_width : bool;
  fp_repetition : Repetition;
  fp_properties : Properties
}.

Definition FlexPath_zero : FlexPath :=
  mkFlexPath (mkCurve 0%float []) [] 0 false false Repetition_zero [].

(** A robust path has the data of a flexible path (specification, section
    3); [write_oas] only reads its [gdsii_path] flag. *)
Record RobustPath := mkRobustPath { rp_path : FlexPath }.

Definition rp_gdsii_path (p : RobustPath) : bool := fp_gdsii_path (rp_path p).

Record Reference := mkReference {
  ref_type : ReferenceType;
  ref_union : ReferenceUnion;
  ref_origin : Vec2;
  ref_rotation : double;
  ref_magnification : double;
  ref_x_reflection : bool;
  ref_repetition : Repetition;
  ref_properties : Properties
}.

Definition Reference_zero : Reference :=
  mkReference ReferenceType_Cell RU_null Vec2_zero 0%float 0%float false Repetition_zero [].

Record Label := mkLabel {
  label_text : option bytes;
  label_layer : Z;
  label_texttype : Z;
  label_origin : Vec2;
  label_anchor : Z;
  label_rotation : double;
  label_magnification : double;
  label_x_reflection : bool;
  label_repetition : Repetition;
  label_properties : Properties;
  label_owner : Z
}.

Definition Label_zero : Label :=
  mkLabel None 0 0 Vec2_zero 0 0%float 0%float false Repetition_zero [] 0.

Record Cell := mkCell {
  cell_name : option bytes;
  cell_polygon_array : list ptr;
  cell_flexpath_array : list ptr;
  cell_robustpath_array : list RobustPath;
  cell_reference_array : list ptr;
  cell_label_array : list ptr;
  cell_properties : Properties;
  cell_owner : Z
}.

Definition Cell_zero : Cell := mkCell None [] [] [] [] [] [] 0.

Record Library := mkLibrary {
  lib_name : option bytes;
  lib_unit : double;
  lib_precision : double;
  lib_cell_array : list ptr;
  lib_rawcell_array : list bytes;
  lib_properties : Properties
}.

(** [Library{0}]. *)
Definition Library_zero : Library := mkLibrary None 0%float 0%float [] [] [].

(** The heap: every object made by [allocate_clear], by kind, in the order
    of allocation. *)
Record Store := mkStore {
  cells : list Cell;
  polygons : list Polygon;
  flexpaths : list FlexPath;
  references : list Reference;
  labels : list Label
}.

Definition Store_empty : Store := mkStore [] [] [] [] [].

(** ** Numbering of the records

    [OasisRecord] (oasis.h is not among the sources): the record numbers of
    the OASIS standard; [START = 1] is also what the header literal of
    [read_oas] spells out. *)
Inductive OasisRecord :=
| PAD | START | END | CELLNAME_IMPLICIT | CELLNAME | TEXTSTRING_IMPLICIT
| TEXTSTRING | PROPNAME_IMPLICIT | PROPNAME | PROPSTRING_IMPLICIT | PROPSTRING
| LAYERNAME_DATA | LAYERNAME_TEXT | CELL_REF_NUM | CELL | XYABSOLUTE
| XYRELATIVE | PLACEMENT | PLACEMENT_TRANSFORM | TEXT | RECTANGLE | POLYGON
| PATH | TRAPEZOID_AB | TRAPEZOID_A | TRAPEZOID_B | CTRAPEZOID | CIRCLE
| PROPERTY | LAST_PROPERTY | XNAME_IMPLICIT | XNAME | XELEMENT | XGEOMETRY
| CBLOCK.

Definition OasisRecord_all : list OasisRecord :=
  [PAD; START; END; CELLNAME_IMPLICIT; CELLNAME; TEXTSTRING_IMPLICIT;
   TEXTSTRING; PROPNAME_IMPLICIT; PROPNAME; PROPSTRING_IMPLICIT; PROPSTRING;
   LAYERNAME_DATA; LAYERNAME_TEXT; CELL_REF_NUM; CELL; XYABSOLUTE;
   XYRELATIVE; PLACEMENT; PLACEMENT_TRANSFORM; TEXT; RECTANGLE; POLYGON;
   PATH; TRAPEZOID_AB; TRAPEZOID_A; TRAPEZOID_B; CTRAPEZOID; CIRCLE;
   PROPERTY; LAST_PROPERTY; XNAME_IMPLICIT; XNAME; XELEMENT; XGEOMETRY;
   CBLOCK].

#[global] Instance OasisRecord_eq_dec : EqDecision OasisRecord.
Proof. solve_decision. Defined.

(** The byte of a record: its position in the enumeration. *)
Fixpoint index_of {A : Type} `{EqDecision A} (r : A) (l : list A) (i : Z) : Z :=
  match l with
  | [] => i
  | r' :: l' => if decide (r = r') then i else index_of r l' (i + 1)
  end.

Definition OasisRecord_code (r : OasisRecord) : Z := index_of r OasisRecord_all 0.

Definition OasisRecord_of_code (b : Z) : option OasisRecord :=
  if (0 <=? b) then OasisRecord_all !! Z.to_nat b else None.

(** ** External collaborators

    Functions the translation unit calls but does not define (section 6 of
    the specification, the C library and zlib).  Those that write take the
    place of the stream argument by returning the bytes they emit. *)

(** [OasisState]: what the OASIS writer shares with its collaborators.
    [property_name_map] lists the items in the order [Map::next] yields
    them. *)
Record OasisState := mkOasisState {
  config_flags : Z;
  scaling : double;
  property_name_map : list (bytes * Z);
  property_value_array : list bytes
}.

Class Externals := {
  (* utils *)
  is_multiple_of_pi_over_2 : double -> option Z;
  llround : double -> Z;
  (* repetition *)
  Repetition_get_size : Repetition -> Z;
  (* oasis *)
  OASIS_CONFIG_USE_CBLOCK : Z;
  oasis_write_integer : Z -> bytes;
  oasis_write_real : double -> bytes;
  oasis_write_repetition : Repetition -> double -> bytes;
  properties_to_oas : Properties -> OasisState -> bytes * OasisState;
  Polygon_to_oas : Polygon -> OasisState -> bytes * OasisState;
  FlexPath_to_oas : FlexPath -> OasisState -> bytes * OasisState;
  RobustPath_to_oas : RobustPath -> OasisState -> bytes * OasisState;
  FlexPath_to_polygons : FlexPath -> list Polygon;
  RobustPath_to_polygons : RobustPath -> list Polygon;
  (* zlib: [deflateInit2] succeeded, [deflate] gave [Z_STREAM_END], output *)
  zlib_deflate : Z -> bytes -> bool * bool * bytes;
  (* gdsii *)
  gdsii_real_to_double : Z -> double;
  gdsii_real_from_double : double -> Z;
  set_gds_property : Properties -> Z -> bytes -> Properties;
  FlexPath_segment : FlexPath -> list Vec2 -> bool -> FlexPath;
  Cell_to_gds : Store -> Cell -> double -> Z -> double -> list Z -> bytes;
  RawCell_to_gds : bytes -> bytes;
  (* map: the entries of a [Map<uint64_t>] in the order in which
     [Map::next] goes through them, each entry once *)
  Map_items : gmap bytes Z -> list (bytes * Z);
  Map_items_perm : forall m, Map_items m ≡ₚ map_to_list m
}.

(** ** Primitive codec *)

(** Modelled from the spec: [oasis_write_unsigned_integer] (oasis.cpp is
    not among the sources).  "Unsigned integer: 7-bit little-endian varint,
    continuation bit in MSB." *)
Fixpoint varint (fuel : nat) (v : Z) : bytes :=
  match fuel with
  | O => [v]
  | S fuel' =>
      if v <? 128 then [v]
      else Z.lor (v mod 128) 128 :: varint fuel' (v / 128)
  end.

Definition oasis_write_unsigned_integer (v : Z) : bytes := varint 9 (uint64 v).

(** ** The output stream

    [OasisStream] on the writing side: [file] is what reached the file so
    far, [cursor] is [None] when null and otherwise the bytes written to
    the memory buffer since the cursor was set to its start. *)
Record OasisStream := mkOasisStream { file : bytes; cursor : option bytes }.

(** [fputc(c, out.file)] and [fwrite(..., out.file)]. *)
Definition fwrite (b : bytes) (out : OasisStream) : OasisStream :=
  mkOasisStream (file out ++ b) (cursor out).

Definition fputc (c : Z) (out : OasisStream) : OasisStream := fwrite [uint8 c] out.

(** Modelled from the spec: [oasis_putc] and [oasis_write] (section 4.2).
    "When the cursor is null, all writes go to the file; when the cursor is
    set to the buffer's start, writes append to the buffer." *)
Definition oasis_write (b : bytes) (out : OasisStream) : OasisStream :=
  match cursor out with
  | None => mkOasisStream (file out ++ b) None
  | Some buf => mkOasisStream (file out) (Some (buf ++ b))
  end.

Definition oasis_putc (c : Z) (out : OasisStream) : OasisStream := oasis_write [uint8 c] out.

Definition ftell (out : OasisStream) : Z := Z.of_nat (length (file out)).

(** ** [Library::write_oas] *)

(** The locals of [write_oas] that the loops update. *)
Record Writer := mkWriter {
  w_out : OasisStream;
  w_state : OasisState;
  w_text_string_map : gmap bytes Z;
  w_stderr : list string
}.

Definition with_out (f : OasisStream -> OasisStream) (w : Writer) : Writer :=
  mkWriter (f (w_out w)) (w_state w) (w_text_string_map w) (w_stderr w).

Definition fputs_stderr (msg : string) (w : Writer) : Writer :=
  mkWriter (w_out w) (w_state w) (w_text_string_map w) (w_stderr w ++ [msg]).

(** A collaborator called with [(out, state)]. *)
Definition call (f : OasisState -> bytes * OasisState) (w : Writer) : Writer :=
  let '(b, s) := f (w_state w) in
  mkWriter (oasis_write b (w_out w)) s (w_text_string_map w) (w_stderr w).

(** [Map<T>::get]: the zero value when the key is absent, as the test
    [if (cp)] after [map.get] in [read_gds] shows. *)
Definition Map_get_uint64 (m : gmap bytes Z) (key : bytes) : Z :=
  default 0 (m !! c_str key).

Section Write_oas.
Context {E : Externals}.

(** [ref->type == ReferenceType::Cell ? ref->cell->name : ref->name]. *)
Definition reference_name (st : Store) (ref : Reference) : option bytes :=
  match ref_type ref with
  | ReferenceType_Cell =>
      match ref_union ref with
      | RU_cell c => cl ← cells st !! c; cell_name cl
      | _ => None
      end
  | _ =>
      match ref_union ref with
      | RU_name s => Some s
      | _ => None
      end
  end.

(** The rotation bits of a PLACEMENT: C's [%] truncates towards zero. *)
Definition placement_rotation_bits (m : Z) : Z :=
  if m <? 0 then Z.shiftl (uint8 (Z.land 3 (Z.rem m 4 + 4))) 1
  else Z.shiftl (uint8 (Z.land 3 (Z.rem m 4))) 1.

Definition reference_info_base (ref : Reference) : Z :=
  let info := 240 in
  let info := if 1 <? Repetition_get_size (ref_repetition ref)
              then uint8 (Z.lor info 8) else info in
  if ref_x_reflection ref then uint8 (Z.lor info 1) else info.

(** What follows the cell index in either record. *)
Definition reference_tail (ref : Reference) (w : Writer) : Writer :=
  let sc := scaling (w_state w) in
  let w := with_out (oasis_write (oasis_write_integer
             (llround (PrimFloat.mul (vx (ref_origin ref)) sc)))) w in
  let w := with_out (oasis_write (oasis_write_integer
             (llround (PrimFloat.mul (vy (ref_origin ref)) sc)))) w in
  let w := if 1 <? Repetition_get_size (ref_repetition ref)
           then with_out (oasis_write (oasis_write_repetition (ref_repetition ref) sc)) w
           else w in
  call (properties_to_oas (ref_properties ref)) w.

(** Body of the loop over [cell->reference_array]. *)
Definition write_oas_reference (st : Store) (cell_name_map : gmap bytes Z)
    (ref : Reference) (w : Writer) : option Writer :=
  match ref_type ref with
  | ReferenceType_RawCell =>
      Some (fputs_stderr
              "[GDSTK] Reference to a RawCell cannot be used in a OASIS file." w)
  | _ =>
      let info := reference_info_base ref in
      match (if PrimFloat.eqb (ref_magnification ref) 1%float
             then is_multiple_of_pi_over_2 (ref_rotation ref) else None) with
      | Some m =>
          let info := uint8 (Z.lor info (placement_rotation_bits m)) in
          let w := with_out (oasis_putc (OasisRecord_code PLACEMENT)) w in
          let w := with_out (oasis_putc info) w in
          name ← reference_name st ref;
          let index := Map_get_uint64 cell_name_map name in
          let w := with_out (oasis_write (oasis_write_unsigned_integer index)) w in
          Some (reference_tail ref w)
      | None =>
          let mag_ne := negb (PrimFloat.eqb (ref_magnification ref) 1%float) in
          let rot_ne := negb (PrimFloat.eqb (ref_rotation ref) 0%float) in
          let info := if mag_ne then uint8 (Z.lor info 4) else info in
          let info := if rot_ne then uint8 (Z.lor info 2) else info in
          let w := with_out (oasis_putc (OasisRecord_code PLACEMENT_TRANSFORM)) w in
          let w := with_out (oasis_putc info) w in
          name ← reference_name st ref;
          let index := Map_get_uint64 cell_name_map name in
          let w := with_out (oasis_write (oasis_write_unsigned_integer index)) w in
          let w := if mag_ne
                   then with_out (oasis_write (oasis_write_real (ref_magnification ref))) w
                   else w in
          let w := if rot_ne
                   then with_out (oasis_write (oasis_write_real
                          (PrimFloat.mul (ref_rotation ref)
                             (PrimFloat.div 180%float M_PI)))) w
                   else w in
          Some (reference_tail ref w)
      end
  end.

(** Body of the loop over [cell->label_array]. *)
Definition write_oas_label (label : Label) (w : Writer) : option Writer :=
  let info := 123 in
  let has_repetition := 1 <? Repetition_get_size (label_repetition label) in
  let info := if has_repetition then uint8 (Z.lor info 4) else info in
  let w := with_out (oasis_putc (OasisRecord_code TEXT)) w in
  let w := with_out (oasis_putc info) w in
  text ← label_text label;
  let '(index, w) :=
    match w_text_string_map w !! c_str text with
    | Some i => (i, w)
    | None =>
        let i := Z.of_nat (size (w_text_string_map w)) in
        (i, mkWriter (w_out w) (w_state w)
              (<[c_str text := i]> (w_text_string_map w)) (w_stderr w))
    end in
  let sc := scaling (w_state w) in
  let w := with_out (oasis_write (oasis_write_unsigned_integer index)) w in
  let w := with_out (oasis_write (oasis_write_unsigned_integer (label_layer label))) w in
  let w := with_out (oasis_write (oasis_write_unsigned_integer (label_texttype label))) w in
  let w := with_out (oasis_write (oasis_write_integer
             (llround (PrimFloat.mul (vx (label_origin label)) sc)))) w in
  let w := with_out (oasis_write (oasis_write_integer
             (llround (PrimFloat.mul (vy (label_origin label)) sc)))) w in
  let w := if has_repetition
           then with_out (oasis_write (oasis_write_repetition (label_repetition label) sc)) w
           else w in
  Some (call (properties_to_oas (label_properties label)) w).

End Write_oas.

(** A loop whose body may have no defined result. *)
Fixpoint for_each {A S : Type} (body : A -> S -> option S) (l : list A) (s : S) : option S :=
  match l with
  | [] => Some s
  | a :: l' => s' ← body a s; for_each body l' s'
  end.

Section Write_oas_cells.
Context {E : Externals}.

Definition write_oas_polygons (polys : list Polygon) (w : Writer) : Writer :=
  fold_left (fun w poly => call (Polygon_to_oas poly) w) polys w.

Definition write_oas_flexpath (path : FlexPath) (w : Writer) : Writer :=
  if fp_gdsii_path path then call (FlexPath_to_oas path) w
  else write_oas_polygons (FlexPath_to_polygons path) w.

Definition write_oas_robustpath (path : RobustPath) (w : Writer) : Writer :=
  if rp_gdsii_path path then call (RobustPath_to_oas path) w
  else write_oas_polygons (RobustPath_to_polygons path) w.

(** The [if (use_cblock)] block that closes a cell. *)
Definition write_oas_cblock (deflate_level : Z) (w : Writer) : option Writer :=
  buf ← cursor (w_out w);
  let uncompressed_size := Z.of_nat (length buf) in
  let w := with_out (fun o => mkOasisStream (file o) None) w in
  let '(init_ok, stream_end, buffer) := zlib_deflate deflate_level buf in
  let w := if init_ok then w else fputs_stderr "[GDSTK] Unable to initialize zlib." w in
  let w := if stream_end then w else fputs_stderr "[GDSTK] Unable to compress CBLOCK." w in
  let total_out := Z.of_nat (length buffer) in
  let w := with_out (fputc (OasisRecord_code CBLOCK)) w in
  let w := with_out (fputc 0) w in
  let w := with_out (oasis_write (oasis_write_unsigned_integer uncompressed_size)) w in
  let w := with_out (oasis_write (oasis_write_unsigned_integer total_out)) w in
  Some (with_out (fwrite buffer) w).

(** Body of the loop over the cells. *)
Definition write_oas_cell (st : Store) (cell_name_map : gmap bytes Z)
    (use_cblock : bool) (deflate_level : Z) (c : ptr) (w : Writer) : option Writer :=
  cell ← cells st !! c;
  name ← cell_name cell;
  let w := with_out (fputc (OasisRecord_code CELL_REF_NUM)) w in
  let w := with_out (oasis_write
             (oasis_write_unsigned_integer (Map_get_uint64 cell_name_map name))) w in
  let w := if use_cblock
           then with_out (fun o => mkOasisStream (file o) (Some [])) w else w in
  w ← for_each (fun p w => poly ← polygons st !! p; Some (call (Polygon_to_oas poly) w))
        (cell_polygon_array cell) w;
  w ← for_each (fun p w => path ← flexpaths st !! p; Some (write_oas_flexpath path w))
        (cell_flexpath_array cell) w;
  let w := fold_left (fun w path => write_oas_robustpath path w)
             (cell_robustpath_array cell) w in
  w ← for_each (fun r w => ref ← references st !! r;
                           write_oas_reference st cell_name_map ref w)
        (cell_reference_array cell) w;
  w ← for_each (fun l w => label ← labels st !! l; write_oas_label label w)
        (cell_label_array cell) w;
  if use_cblock then write_oas_cblock deflate_level w else Some w.

(** "Build cell name map": [set] of a later cell replaces an earlier one
    of the same name. *)
Fixpoint build_cell_maps (st : Store) (cs : list ptr) (i : Z)
    (m : gmap bytes Z * gmap bytes Properties)
    : option (gmap bytes Z * gmap bytes Properties) :=
  match cs with
  | [] => Some m
  | c :: cs' =>
      cell ← cells st !! c;
      name ← cell_name cell;
      build_cell_maps st cs' (i + 1)
        (<[c_str name := i]> (fst m), <[c_str name := cell_properties cell]> (snd m))
  end.

Definition write_oas_cellname (st : Store) (cell_property_map : gmap bytes Properties)
    (c : ptr) (w : Writer) : option Writer :=
  cell ← cells st !! c;
  name_ ← cell_name cell;
  let w := with_out (fputc (OasisRecord_code CELLNAME_IMPLICIT)) w in
  let w := with_out (oasis_write (oasis_write_unsigned_integer (strlen name_))) w in
  let w := with_out (fwrite (c_str name_)) w in
  Some (call (properties_to_oas (default [] (cell_property_map !! c_str name_))) w).

Definition write_oas_name_item (record : OasisRecord) (item : bytes * Z)
    (out : OasisStream) : OasisStream :=
  let out := fputc (OasisRecord_code record) out in
  let out := oasis_write (oasis_write_unsigned_integer (strlen (fst item))) out in
  let out := fwrite (c_str (fst item)) out in
  oasis_write (oasis_write_unsigned_integer (snd item)) out.

Definition write_oas_propstring (value : bytes) (out : OasisStream) : OasisStream :=
  let out := fputc (OasisRecord_code PROPSTRING_IMPLICIT) out in
  let out := oasis_write (oasis_write_unsigned_integer (Z.of_nat (length value))) out in
  fwrite value out.

(** The four offsets recorded before the name tables. *)
Record TableOffsets := mkTableOffsets {
  cell_name_offset : Z;
  text_string_offset : Z;
  prop_name_offset : Z;
  prop_string_offset : Z
}.

(** From the END record to the end of the file. *)
Definition write_oas_end (t : TableOffsets) (out : OasisStream) : OasisStream :=
  let out := fputc (OasisRecord_code END) out in
  let pad_len := uint64 (252 + ftell out) in
  let out := fputc 1 out in
  let out := oasis_write (oasis_write_unsigned_integer (cell_name_offset t)) out in
  let out := fputc 1 out in
  let out := oasis_write (oasis_write_unsigned_integer (text_string_offset t)) out in
  let out := fputc 1 out in
  let out := oasis_write (oasis_write_unsigned_integer (prop_name_offset t)) out in
  let out := fputc 1 out in
  let out := oasis_write (oasis_write_unsigned_integer (prop_string_offset t)) out in
  let out := fputc 1 out in
  let out := fputc 0 out in
  let out := fputc 1 out in
  let out := fputc 0 out in
  let pad_len := uint64 (pad_len - ftell out) in
  let out := oasis_write (oasis_write_unsigned_integer pad_len) out in
  let out := fwrite (repeat 0 (Z.to_nat pad_len)) out in
  fputc 0 out.

Definition oasis_header : bytes :=
  [37; 83; 69; 77; 73; 45; 79; 65; 83; 73; 83; 13; 10; OasisRecord_code START;
   3; 49; 46; 48].

(** Everything [write_oas] does between opening the file and the END
    record: the stream, the offsets and what went to standard error. *)
Definition write_oas_body (st : Store) (lib : Library) (deflate_level : Z)
    (config_flags_ : Z) : option (Writer * TableOffsets) :=
  let state := mkOasisState config_flags_
                 (PrimFloat.div (lib_unit lib) (lib_precision lib)) [] [] in
  let w := mkWriter (mkOasisStream [] None) state ∅ [] in
  let w := with_out (fwrite oasis_header) w in
  let w := with_out (oasis_write
             (oasis_write_real (PrimFloat.div micro (lib_precision lib)))) w in
  let w := with_out (fputc 1) w in
  let w := call (properties_to_oas (lib_properties lib)) w in
  let c_size := Z.of_nat (length (lib_cell_array lib)) in
  '(cell_name_map, cell_property_map) ← build_cell_maps st (lib_cell_array lib) 0 (∅, ∅);
  let use_cblock := negb (Z.land config_flags_ OASIS_CONFIG_USE_CBLOCK =? 0) in
  w ← for_each (write_oas_cell st cell_name_map use_cblock deflate_level)
        (lib_cell_array lib) w;
  let cell_name_offset := if 0 <? c_size then uint64 (ftell (w_out w)) else 0 in
  w ← for_each (write_oas_cellname st cell_property_map) (lib_cell_array lib) w;
  let text_string_offset :=
    if 0 <? Z.of_nat (size (w_text_string_map w)) then uint64 (ftell (w_out w)) else 0 in
  let w := with_out (fun out => fold_left (fun out item => write_oas_name_item TEXTSTRING item out)
                                  (Map_items (w_text_string_map w)) out) w in
  let prop_name_offset :=
    if 0 <? Z.of_nat (length (property_name_map (w_state w)))
    then uint64 (ftell (w_out w)) else 0 in
  let w := with_out (fun out => fold_left (fun out item => write_oas_name_item PROPNAME item out)
                                  (property_name_map (w_state w)) out) w in
  let prop_string_offset :=
    if 0 <? Z.of_nat (length (property_value_array (w_state w)))
    then uint64 (ftell (w_out w)) else 0 in
  let w := with_out (fun out => fold_left (fun out value => write_oas_propstring value out)
                                  (property_value_array (w_state w)) out) w in
  Some (w, mkTableOffsets cell_name_offset text_string_offset
             prop_name_offset prop_string_offset).

(** [Library::write_oas].  [opened] tells whether [fopen] gave a stream.
    The result is the content of the file ([None] when nothing was
    written) and the lines sent to standard error, without their final
    newline. *)
Definition write_oas (st : Store) (lib : Library) (opened : bool)
    (tolerance : double) (deflate_level : Z) (config_flags_ : Z)
    : option (option bytes * list string) :=
  if opened then
    '(w, t) ← write_oas_body st lib deflate_level config_flags_;
    Some (Some (file (write_oas_end t (w_out w))), w_stderr w)
  else Some (None, ["[GDSTK] Unable to open OASIS file for output."%string]).

End Write_oas_cells.

(** ** [Library::write_gds] *)

(** Big-endian bytes of an [n]-byte word. *)
Fixpoint be_bytes (n : nat) (v : Z) : bytes :=
  match n with
  | O => []
  | S n' => (v / 256 ^ Z.of_nat n') mod 256 :: be_bytes n' v
  end.

(** [std::tm], the fields [write_gds] reads. *)
Record tm := mktm {
  tm_year : Z; tm_mon : Z; tm_mday : Z; tm_hour : Z; tm_min : Z; tm_sec : Z
}.

Definition tm_words (t : tm) : list Z :=
  [uint16 (tm_year t + 1900); uint16 (tm_mon t + 1); uint16 (tm_mday t);
   uint16 (tm_hour t); uint16 (tm_min t); uint16 (tm_sec t)].

Section Write_gds.
Context {E : Externals}.

(** [Library::write_gds].  [opened] tells whether [fopen] gave a stream;
    [now] is what [localtime] answers when [timestamp] is null. *)
Definition write_gds (st : Store) (lib : Library) (opened : bool)
    (max_points : Z) (timestamp : option tm) (now : tm)
    : option (option bytes * list string) :=
  if opened then
    name ← lib_name lib;
    let len := strlen name in
    let padded := negb (len mod 2 =? 0) in
    let len := if padded then len + 1 else len in
    let timestamp := default now timestamp in
    let buffer_start :=
      [6; 2; 600; 28; 258] ++ tm_words timestamp ++ tm_words timestamp
        ++ [uint16 (4 + len); 518] in
    let out := flat_map (be_bytes 2) buffer_start in
    let out := out ++ c_str name ++ (if padded then [0] else []) in
    let out := out ++ flat_map (be_bytes 2) [20; 773] in
    let units := [gdsii_real_from_double (PrimFloat.div (lib_precision lib) (lib_unit lib));
                  gdsii_real_from_double (lib_precision lib)] in
    let out := out ++ flat_map (be_bytes 8) units in
    let scaling_ := PrimFloat.div (lib_unit lib) (lib_precision lib) in
    out ← for_each (fun c out =>
                      cell ← cells st !! c;
                      Some (out ++ Cell_to_gds st cell scaling_ max_points
                                     (lib_precision lib) (tm_words timestamp)))
             (lib_cell_array lib) out;
    let out := fold_left (fun out rawcell => out ++ RawCell_to_gds rawcell)
                 (lib_rawcell_array lib) out in
    let out := out ++ flat_map (be_bytes 2) [4; 1024] in
    Some (Some out, [])
  else Some (None, ["[GDSTK] Unable to open GDSII file for output."%string]).

End Write_gds.

(** ** [read_gds] *)

(** [GdsiiRecord] (gdsii.h is not among the sources): a record's number is
    its position in the table [gdsii_record_names] of [read_gds]. *)
Inductive GdsiiRecord :=
| HEADER | BGNLIB | LIBNAME | UNITS | ENDLIB | BGNSTR | STRNAME | ENDSTR
| BOUNDARY | GPATH | SREF | AREF | GTEXT | LAYER | DATATYPE | WIDTH | XY
| ENDEL | SNAME | COLROW | TEXTNODE | NODE | TEXTTYPE | PRESENTATION
| SPACING | STRING | STRANS | MAG | ANGLE | UINTEGER | USTRING | REFLIBS
| FONTS | PATHTYPE | GENERATIONS | ATTRTABLE | STYPTABLE | STRTYPE | ELFLAGS
| ELKEY | LINKTYPE | LINKKEYS | NODETYPE | PROPATTR | PROPVALUE | BOX
| BOXTYPE | PLEX | BGNEXTN | ENDEXTN | TAPENUM | TAPECODE | STRCLASS
| RESERVED | FORMAT | MASK | ENDMASKS | LIBDIRSIZE | SRFNAME | LIBSECUR.

Definition gdsii_records_table : list (GdsiiRecord * string) :=
  [(HEADER, "HEADER"); (BGNLIB, "BGNLIB"); (LIBNAME, "LIBNAME"); (UNITS, "UNITS");
   (ENDLIB, "ENDLIB"); (BGNSTR, "BGNSTR"); (STRNAME, "STRNAME"); (ENDSTR, "ENDSTR");
   (BOUNDARY, "BOUNDARY"); (GPATH, "PATH"); (SREF, "SREF"); (AREF, "AREF");
   (GTEXT, "TEXT"); (LAYER, "LAYER"); (DATATYPE, "DATATYPE"); (WIDTH, "WIDTH");
   (XY, "XY"); (ENDEL, "ENDEL"); (SNAME, "SNAME"); (COLROW, "COLROW");
   (TEXTNODE, "TEXTNODE"); (NODE, "NODE"); (TEXTTYPE, "TEXTTYPE");
   (PRESENTATION, "PRESENTATION"); (SPACING, "SPACING"); (STRING, "STRING");
   (STRANS, "STRANS"); (MAG, "MAG"); (ANGLE, "ANGLE"); (UINTEGER, "UINTEGER");
   (USTRING, "USTRING"); (REFLIBS, "REFLIBS"); (FONTS, "FONTS");
   (PATHTYPE, "PATHTYPE"); (GENERATIONS, "GENERATIONS"); (ATTRTABLE, "ATTRTABLE");
   (STYPTABLE, "STYPTABLE"); (STRTYPE, "STRTYPE"); (ELFLAGS, "ELFLAGS");
   (ELKEY, "ELKEY"); (LINKTYPE, "LINKTYPE"); (LINKKEYS, "LINKKEYS");
   (NODETYPE, "NODETYPE"); (PROPATTR, "PROPATTR"); (PROPVALUE, "PROPVALUE");
   (BOX, "BOX"); (BOXTYPE, "BOXTYPE"); (PLEX, "PLEX"); (BGNEXTN, "BGNEXTN");
   (ENDEXTN, "ENDEXTN"); (TAPENUM, "TAPENUM"); (TAPECODE, "TAPECODE");
   (STRCLASS, "STRCLASS"); (RESERVED, "RESERVED"); (FORMAT, "FORMAT");
   (MASK, "MASK"); (ENDMASKS, "ENDMASKS"); (LIBDIRSIZE, "LIBDIRSIZE");
   (SRFNAME, "SRFNAME"); (LIBSECUR, "LIBSECUR")]%string.

#[global] Instance GdsiiRecord_eq_dec : EqDecision GdsiiRecord.
Proof. solve_decision. Defined.

Definition GdsiiRecord_code (r : GdsiiRecord) : Z :=
  index_of r (map fst gdsii_records_table) 0.

(** [(GdsiiRecord)(buffer[2])]; [None] for a byte past the table. *)
Definition GdsiiRecord_of_code (b : Z) : option (GdsiiRecord * string) :=
  if 0 <=? b then gdsii_records_table !! Z.to_nat b else None.

(** [GdsiiDataType] (gdsii.h is not among the sources): the data type
    numbers of the GDSII stream format. *)
Inductive GdsiiDataType :=
| NoData | BitArray | TwoByteSignedInteger | FourByteSignedInteger
| FourByteReal | EightByteReal | AsciiString.

Definition GdsiiDataType_of_code (b : Z) : option GdsiiDataType :=
  if 0 <=? b then
    [NoData; BitArray; TwoByteSignedInteger; FourByteSignedInteger;
     FourByteReal; EightByteReal; AsciiString] !! Z.to_nat b
  else None.

(** Two upper-case hexadecimal digits, as [%02X] prints a byte. *)
Definition hex_digit (d : Z) : string :=
  match [ "0"; "1"; "2"; "3"; "4"; "5"; "6"; "7"; "8"; "9";
          "A"; "B"; "C"; "D"; "E"; "F" ]%string !! Z.to_nat d with
  | Some c => c
  | None => EmptyString
  end.

Definition hex2 (b : Z) : string := (hex_digit (b / 16) ++ hex_digit (b mod 16))%string.

(** *** The record buffer

    [buffer] is reused from one record to the next: a handler that reads
    past the record at hand finds what earlier records left there, and
    before that the initial content of the array. *)

Definition buf_get (buf : bytes) (i : nat) : Z := nth i buf 0.

Definition buf_read (buf : bytes) (i n : nat) : bytes :=
  map (fun k => buf_get buf (i + k)) (seq 0 n).

(** A read of a record into the start of the buffer. *)
Definition buf_load (record : bytes) (buf : bytes) : bytes :=
  record ++ drop (length record) buf.

(** Modelled from the spec: [big_endian_swap16/32/64] (utils.cpp is not
    among the sources).  "Big-endian swap routines operate in-place on
    arrays of 16/32/64-bit words"; the host is little-endian, so every
    word has its bytes reversed. *)
Fixpoint big_endian_swap (w : nat) (n : nat) (data : bytes) : bytes :=
  match n with
  | O => data
  | S n' => rev (buf_read data 0 w) ++ big_endian_swap w n' (drop w data)
  end.

Definition le_unsigned (b : bytes) : Z :=
  fold_right (fun x acc => x + 256 * acc) 0 b.

Definition signed (bits : Z) (v : Z) : Z :=
  if v <? 2 ^ (bits - 1) then v else v - 2 ^ bits.

(** [data16[i]], [data32[i]], [data64[i]] and [str[i]]: the buffer from
    its fifth byte on, read in host order. *)
Definition data16 (buf : bytes) (i : nat) : Z :=
  signed 16 (le_unsigned (buf_read buf (4 + 2 * i) 2)).
Definition data32 (buf : bytes) (i : nat) : Z :=
  signed 32 (le_unsigned (buf_read buf (4 + 4 * i) 4)).
Definition data64 (buf : bytes) (i : nat) : Z :=
  le_unsigned (buf_read buf (4 + 8 * i) 8).
Definition str (buf : bytes) (i : nat) : Z := buf_get buf (4 + i).

(** Modelled from the spec: [gdsii_read_record] (gdsii.cpp is not among
    the sources).  "Each record has a 4-byte header: big-endian length
    (inclusive of header), one-byte record-type tag, one-byte data-type
    tag ... the body is length-4 bytes."  The result is the record and the
    rest of the file; [None] stands for the return value 0 (end of file,
    a length below 4, or a body cut short), which ends the loop of
    [read_gds]. *)
Definition gdsii_read_record (input : bytes) : option (bytes * bytes) :=
  match input with
  | b0 :: b1 :: b2 :: b3 :: body =>
      let record_length := 256 * b0 + b1 in
      if record_length <? 4 then None
      else if Z.of_nat (length body) <? record_length - 4 then None
      else Some (b0 :: b1 :: b2 :: b3 :: take (Z.to_nat (record_length - 4)) body,
                 drop (Z.to_nat (record_length - 4)) body)
  | _ => None
  end.

(** The records the loop of [read_gds] sees, in order. *)
Fixpoint gdsii_records_fuel (fuel : nat) (input : bytes) : list bytes :=
  match fuel with
  | O => []
  | S fuel' =>
      match gdsii_read_record input with
      | Some (record, rest) => record :: gdsii_records_fuel fuel' rest
      | None => []
      end
  end.

Definition gdsii_records (input : bytes) : list bytes :=
  gdsii_records_fuel (length input) input.

(** *** The locals of [read_gds] *)

Record GdsState := mkGdsState {
  g_library : Library;
  g_store : Store;
  g_cell : option ptr;
  g_polygon : option ptr;
  g_path : option ptr;
  g_reference : option ptr;
  g_label : option ptr;
  g_factor : double;
  g_width : double;
  g_key : Z;
  g_buffer : bytes;
  g_stderr : list string
}.

Definition with_library (f : Library -> Library) (s : GdsState) : GdsState :=
  mkGdsState (f (g_library s)) (g_store s) (g_cell s) (g_polygon s) (g_path s)
    (g_reference s) (g_label s) (g_factor s) (g_width s) (g_key s) (g_buffer s) (g_stderr s).
Definition with_store (f : Store -> Store) (s : GdsState) : GdsState :=
  mkGdsState (g_library s) (f (g_store s)) (g_cell s) (g_polygon s) (g_path s)
    (g_reference s) (g_label s) (g_factor s) (g_width s) (g_key s) (g_buffer s) (g_stderr s).
Definition set_cell (c : option ptr) (s : GdsState) : GdsState :=
  mkGdsState (g_library s) (g_store s) c (g_polygon s) (g_path s)
    (g_reference s) (g_label s) (g_factor s) (g_width s) (g_key s) (g_buffer s) (g_stderr s).
Definition set_polygon (p : option ptr) (s : GdsState) : GdsState :=
  mkGdsState (g_library s) (g_store s) (g_cell s) p (g_path s)
    (g_reference s) (g_label s) (g_factor s) (g_width s) (g_key s) (g_buffer s) (g_stderr s).
Definition set_path (p : option ptr) (s : GdsState) : GdsState :=
  mkGdsState (g_library s) (g_store s) (g_cell s) (g_polygon s) p
    (g_reference s) (g_label s) (g_factor s) (g_width s) (g_key s) (g_buffer s) (g_stderr s).
Definition set_reference (r : option ptr) (s : GdsState) : GdsState :=
  mkGdsState (g_library s) (g_store s) (g_cell s) (g_polygon s) (g_path s)
    r (g_label s) (g_factor s) (g_width s) (g_key s) (g_buffer s) (g_stderr s).
Definition set_label (l : option ptr) (s : GdsState) : GdsState :=
  mkGdsState (g_library s) (g_store s) (g_cell s) (g_polygon s) (g_path s)
    (g_reference s) l (g_factor s) (g_width s) (g_key s) (g_buffer s) (g_stderr s).
Definition set_factor (f : double) (s : GdsState) : GdsState :=
  mkGdsState (g_library s) (g_store s) (g_cell s) (g_polygon s) (g_path s)
    (g_reference s) (g_label s) f (g_width s) (g_key s) (g_buffer s) (g_stderr s).
Definition set_width (w : double) (s : GdsState) : GdsState :=
  mkGdsState (g_library s) (g_store s) (g_cell s) (g_polygon s) (g_path s)
    (g_reference s) (g_label s) (g_factor s) w (g_key s) (g_buffer s) (g_stderr s).
Definition set_key (k : Z) (s : GdsState) : GdsState :=
  mkGdsState (g_library s) (g_store s) (g_cell s) (g_polygon s) (g_path s)
    (g_reference s) (g_label s) (g_factor s) (g_width s) k (g_buffer s) (g_stderr s).
Definition set_buffer (b : bytes) (s : GdsState) : GdsState :=
  mkGdsState (g_library s) (g_store s) (g_cell s) (g_polygon s) (g_path s)
    (g_reference s) (g_label s) (g_factor s) (g_width s) (g_key s) b (g_stderr s).
Definition gds_log (msg : string) (s : GdsState) : GdsState :=
  mkGdsState (g_library s) (g_store s) (g_cell s) (g_polygon s) (g_path s)
    (g_reference s) (g_label s) (g_factor s) (g_width s) (g_key s) (g_buffer s)
    (g_stderr s ++ [msg]).

(** Writes through a pointer. *)
Definition alter_cell (f : Cell -> Cell) (p : ptr) (st : Store) : Store :=
  mkStore (alter f p (cells st)) (polygons st) (flexpaths st) (references st) (labels st).
Definition alter_polygon (f : Polygon -> Polygon) (p : ptr) (st : Store) : Store :=
  mkStore (cells st) (alter f p (polygons st)) (flexpaths st) (references st) (labels st).
Definition alter_flexpath (f : FlexPath -> FlexPath) (p : ptr) (st : Store) : Store :=
  mkStore (cells st) (polygons st) (alter f p (flexpaths st)) (references st) (labels st).
Definition alter_reference (f : Reference -> Reference) (p : ptr) (st : Store) : Store :=
  mkStore (cells st) (polygons st) (flexpaths st) (alter f p (references st)) (labels st).
Definition alter_label (f : Label -> Label) (p : ptr) (st : Store) : Store :=
  mkStore (cells st) (polygons st) (flexpaths st) (references st) (alter f p (labels st)).

(** [allocate_clear]: a new zeroed object at the end of its table. *)
Definition new_cell (st : Store) : ptr * Store :=
  (length (cells st),
   mkStore (cells st ++ [Cell_zero]) (polygons st) (flexpaths st) (references st) (labels st)).
Definition new_polygon (st : Store) : ptr * Store :=
  (length (polygons st),
   mkStore (cells st) (polygons st ++ [Polygon_zero]) (flexpaths st) (references st) (labels st)).
Definition new_flexpath (st : Store) : ptr * Store :=
  (length (flexpaths st),
   mkStore (cells st) (polygons st) (flexpaths st ++ [FlexPath_zero]) (references st) (labels st)).
Definition new_reference (st : Store) : ptr * Store :=
  (length (references st),
   mkStore (cells st) (polygons st) (flexpaths st) (references st ++ [Reference_zero]) (labels st)).
Definition new_label (st : Store) : ptr * Store :=
  (length (labels st),
   mkStore (cells st) (polygons st) (flexpaths st) (references st) (labels st ++ [Label_zero])).

(** *** Field updates *)

Definition poly_set_layer (v : Z) (p : Polygon) : Polygon :=
  mkPolygon v (poly_datatype p) (poly_point_array p) (poly_repetition p) (poly_properties p).
Definition poly_set_datatype (v : Z) (p : Polygon) : Polygon :=
  mkPolygon (poly_layer p) v (poly_point_array p) (poly_repetition p) (poly_properties p).
Definition poly_set_point_array (a : PointArray) (p : Polygon) : Polygon :=
  mkPolygon (poly_layer p) (poly_datatype p) a (poly_repetition p) (poly_properties p).
Definition poly_set_properties (v : Properties) (p : Polygon) : Polygon :=
  mkPolygon (poly_layer p) (poly_datatype p) (poly_point_array p) (poly_repetition p) v.

(** [path->elements[0].field = ...]. *)
Definition fp_alter_element0 (f : FlexPathElement -> FlexPathElement) (p : FlexPath) : FlexPath :=
  mkFlexPath (fp_spine p) (alter f 0%nat (fp_elements p)) (fp_num_elements p)
    (fp_gdsii_path p) (fp_scale_width p) (fp_repetition p) (fp_properties p).
Definition fp_set_spine (c : Curve) (p : FlexPath) : FlexPath :=
  mkFlexPath c (fp_elements p) (fp_num_elements p)
    (fp_gdsii_path p) (fp_scale_width p) (fp_repetition p) (fp_properties p).
Definition fp_set_scale_width (b : bool) (p : FlexPath) : FlexPath :=
  mkFlexPath (fp_spine p) (fp_elements p) (fp_num_elements p)
    (fp_gdsii_path p) b (fp_repetition p) (fp_properties p).
Definition fp_set_properties (v : Properties) (p : FlexPath) : FlexPath :=
  mkFlexPath (fp_spine p) (fp_elements p) (fp_num_elements p)
    (fp_gdsii_path p) (fp_scale_width p) (fp_repetition p) v.
Definition fpe_set_layer (v : Z) (e : FlexPathElement) : FlexPathElement :=
  mkFlexPathElement v (fpe_datatype e) (fpe_half_width_and_offset e) (fpe_end_type e)
    (fpe_end_extensions e).
Definition fpe_set_datatype (v : Z) (e : FlexPathElement) : FlexPathElement :=
  mkFlexPathElement (fpe_layer e) v (fpe_half_width_and_offset e) (fpe_end_type e)
    (fpe_end_extensions e).
Definition fpe_append_half_width_and_offset (v : Vec2) (e : FlexPathElement) : FlexPathElement :=
  mkFlexPathElement (fpe_layer e) (fpe_datatype e) (fpe_half_width_and_offset e ++ [v])
    (fpe_end_type e) (fpe_end_extensions e).
Definition fpe_set_end_type (v : EndType) (e : FlexPathElement) : FlexPathElement :=
  mkFlexPathElement (fpe_layer e) (fpe_datatype e) (fpe_half_width_and_offset e) v
    (fpe_end_extensions e).
Definition fpe_set_end_extensions (v : Vec2) (e : FlexPathElement) : FlexPathElement :=
  mkFlexPathElement (fpe_layer e) (fpe_datatype e) (fpe_half_width_and_offset e)
    (fpe_end_type e) v.

Definition ref_set_target (t : ReferenceType) (u : ReferenceUnion) (r : Reference) : Reference :=
  mkReference t u (ref_origin r) (ref_rotation r) (ref_magnification r)
    (ref_x_reflection r) (ref_repetition r) (ref_properties r).
Definition ref_set_origin (v : Vec2) (r : Reference) : Reference :=
  mkReference (ref_type r) (ref_union r) v (ref_rotation r) (ref_magnification r)
    (ref_x_reflection r) (ref_repetition r) (ref_properties r).
Definition ref_set_rotation (v : double) (r : Reference) : Reference :=
  mkReference (ref_type r) (ref_union r) (ref_origin r) v (ref_magnification r)
    (ref_x_reflection r) (ref_repetition r) (ref_properties r).
Definition ref_set_magnification (v : double) (r : Reference) : Reference :=
  mkReference (ref_type r) (ref_union r) (ref_origin r) (ref_rotation r) v
    (ref_x_reflection r) (ref_repetition r) (ref_properties r).
Definition ref_set_x_reflection (v : bool) (r : Reference) : Reference :=
  mkReference (ref_type r) (ref_union r) (ref_origin r) (ref_rotation r) (ref_magnification r)
    v (ref_repetition r) (ref_properties r).
Definition ref_set_repetition (v : Repetition) (r : Reference) : Reference :=
  mkReference (ref_type r) (ref_union r) (ref_origin r) (ref_rotation r) (ref_magnification r)
    (ref_x_reflection r) v (ref_properties r).
Definition ref_set_properties (v : Properties) (r : Reference) : Reference :=
  mkReference (ref_type r) (ref_union r) (ref_origin r) (ref_rotation r) (ref_magnification r)
    (ref_x_reflection r) (ref_repetition r) v.

Definition label_set_text (v : option bytes) (l : Label) : Label :=
  mkLabel v (label_layer l) (label_texttype l) (label_origin l) (label_anchor l)
    (label_rotation l) (label_magnification l) (label_x_reflection l)
    (label_repetition l) (label_properties l) (label_owner l).
Definition label_set_layer (v : Z) (l : Label) : Label :=
  mkLabel (label_text l) v (label_texttype l) (label_origin l) (label_anchor l)
    (label_rotation l) (label_magnification l) (label_x_reflection l)
    (label_repetition l) (label_properties l) (label_owner l).
Definition label_set_texttype (v : Z) (l : Label) : Label :=
  mkLabel (label_text l) (label_layer l) v (label_origin l) (label_anchor l)
    (label_rotation l) (label_magnification l) (label_x_reflection l)
    (label_repetition l) (label_properties l) (label_owner l).
Definition label_set_origin (v : Vec2) (l : Label) : Label :=
  mkLabel (label_text l) (label_layer l) (label_texttype l) v (label_anchor l)
    (label_rotation l) (label_magnification l) (label_x_reflection l)
    (label_repetition l) (label_properties l) (label_owner l).
Definition label_set_anchor (v : Z) (l : Label) : Label :=
  mkLabel (label_text l) (label_layer l) (label_texttype l) (label_origin l) v
    (label_rotation l) (label_magnification l) (label_x_reflection l)
    (label_repetition l) (label_properties l) (label_owner l).
Definition label_set_rotation (v : double) (l : Label) : Label :=
  mkLabel (label_text l) (label_layer l) (label_texttype l) (label_origin l) (label_anchor l)
    v (label_magnification l) (label_x_reflection l)
    (label_repetition l) (label_properties l) (label_owner l).
Definition label_set_magnification (v : double) (l : Label) : Label :=
  mkLabel (label_text l) (label_layer l) (label_texttype l) (label_origin l) (label_anchor l)
    (label_rotation l) v (label_x_reflection l)
    (label_repetition l) (label_properties l) (label_owner l).
Definition label_set_x_reflection (v : bool) (l : Label) : Label :=
  mkLabel (label_text l) (label_layer l) (label_texttype l) (label_origin l) (label_anchor l)
    (label_rotation l) (label_magnification l) v
    (label_repetition l) (label_properties l) (label_owner l).
Definition label_set_repetition (v : Repetition) (l : Label) : Label :=
  mkLabel (label_text l) (label_layer l) (label_texttype l) (label_origin l) (label_anchor l)
    (label_rotation l) (label_magnification l) (label_x_reflection l)
    v (label_properties l) (label_owner l).
Definition label_set_properties (v : Properties) (l : Label) : Label :=
  mkLabel (label_text l) (label_layer l) (label_texttype l) (label_origin l) (label_anchor l)
    (label_rotation l) (label_magnification l) (label_x_reflection l)
    (label_repetition l) v (label_owner l).
Definition label_set_owner (v : Z) (l : Label) : Label :=
  mkLabel (label_text l) (label_layer l) (label_texttype l) (label_origin l) (label_anchor l)
    (label_rotation l) (label_magnification l) (label_x_reflection l)
    (label_repetition l) (label_properties l) v.

Definition cell_set_name (v : option bytes) (c : Cell) : Cell :=
  mkCell v (cell_polygon_array c) (cell_flexpath_array c) (cell_robustpath_array c)
    (cell_reference_array c) (cell_label_array c) (cell_properties c) (cell_owner c).
Definition cell_set_owner (v : Z) (c : Cell) : Cell :=
  mkCell (cell_name c) (cell_polygon_array c) (cell_flexpath_array c) (cell_robustpath_array c)
    (cell_reference_array c) (cell_label_array c) (cell_properties c) v.
Definition cell_append_polygon (p : ptr) (c : Cell) : Cell :=
  mkCell (cell_name c) (cell_polygon_array c ++ [p]) (cell_flexpath_array c)
    (cell_robustpath_array c) (cell_reference_array c) (cell_label_array c)
    (cell_properties c) (cell_owner c).
Definition cell_append_flexpath (p : ptr) (c : Cell) : Cell :=
  mkCell (cell_name c) (cell_polygon_array c) (cell_flexpath_array c ++ [p])
    (cell_robustpath_array c) (cell_reference_array c) (cell_label_array c)
    (cell_properties c) (cell_owner c).
Definition cell_append_reference (p : ptr) (c : Cell) : Cell :=
  mkCell (cell_name c) (cell_polygon_array c) (cell_flexpath_array c)
    (cell_robustpath_array c) (cell_reference_array c ++ [p]) (cell_label_array c)
    (cell_properties c) (cell_owner c).
Definition cell_append_label (p : ptr) (c : Cell) : Cell :=
  mkCell (cell_name c) (cell_polygon_array c) (cell_flexpath_array c)
    (cell_robustpath_array c) (cell_reference_array c) (cell_label_array c ++ [p])
    (cell_properties c) (cell_owner c).

Definition lib_set_name (v : option bytes) (l : Library) : Library :=
  mkLibrary v (lib_unit l) (lib_precision l) (lib_cell_array l) (lib_rawcell_array l)
    (lib_properties l).
Definition lib_set_units (u p : double) (l : Library) : Library :=
  mkLibrary (lib_name l) u p (lib_cell_array l) (lib_rawcell_array l) (lib_properties l).
Definition lib_append_cell (c : ptr) (l : Library) : Library :=
  mkLibrary (lib_name l) (lib_unit l) (lib_precision l) (lib_cell_array l ++ [c])
    (lib_rawcell_array l) (lib_properties l).

Definition rep_set_colrow (c r : Z) (p : Repetition) : Repetition :=
  mkRepetition RepetitionType_Rectangular c r (rep_spacing p) (rep_v1 p) (rep_v2 p)
    (rep_offsets p).
Definition rep_set_spacing (v : Vec2) (p : Repetition) : Repetition :=
  mkRepetition (rep_type p) (rep_columns p) (rep_rows p) v (rep_v1 p) (rep_v2 p)
    (rep_offsets p).
Definition rep_set_regular (a b : Vec2) (p : Repetition) : Repetition :=
  mkRepetition RepetitionType_Regular (rep_columns p) (rep_rows p) (rep_spacing p) a b
    (rep_offsets p).

(** *** The record handlers of [read_gds] *)

(** [data_length] and the byte swap chosen by [buffer[3]]. *)
Definition gds_decode (record_length : Z) (buf : bytes) : Z * bytes :=
  let swapped w :=
    let n := (record_length - 4) / Z.of_nat w in
    (n, take 4 buf ++ big_endian_swap w (Z.to_nat n) (drop 4 buf)) in
  match GdsiiDataType_of_code (buf_get buf 3) with
  | Some BitArray | Some TwoByteSignedInteger => swapped 2%nat
  | Some FourByteSignedInteger | Some FourByteReal => swapped 4%nat
  | Some EightByteReal => swapped 8%nat
  | _ => (record_length - 4, buf)
  end.

(** [if (str[data_length - 1] == 0) data_length--;] and the copy that
    follows.  With no payload the index wraps to [0xFFFFFFFF]. *)
Definition gds_string (buf : bytes) (data_length : Z) : option bytes :=
  if data_length =? 0 then None
  else
    let data_length :=
      if str buf (Z.to_nat (data_length - 1)) =? 0 then data_length - 1 else data_length in
    Some (buf_read buf 4 (Z.to_nat data_length)).

(** [factor * data32[i]]. *)
Definition scaled (factor : double) (v : Z) : double :=
  PrimFloat.mul factor (double_of_Z v).

(** Doubles written from index [start] on. *)
Definition pa_write (start : nat) (vals : list double) (items : list (option double))
    : list (option double) :=
  take start (items ++ repeat None (start - length items))
    ++ map Some vals ++ drop (start + length vals) items.

(** XY on a polygon.  The destination is [(double* )items + size]: [size]
    doubles, not [size] points, past the start.  The slots ensured hold
    [2 * (size + data_length / 2)] doubles; a write past them has no
    defined result. *)
Definition gds_xy_polygon (factor : double) (buf : bytes) (data_length : Z)
    (poly : Polygon) : option Polygon :=
  let a := poly_point_array poly in
  if data_length mod 2 <=? pa_size a then
    let vals := map (fun i => scaled factor (data32 buf i)) (seq 0 (Z.to_nat data_length)) in
    Some (poly_set_point_array
            (mkPointArray (uint64 (pa_size a + data_length / 2))
               (pa_write (Z.to_nat (pa_size a)) vals (pa_items a))) poly)
  else None.

(** The points [data32[first], data32[first + 1]], ... as [count] pairs. *)
Definition gds_points (factor : double) (buf : bytes) (first count : nat) : list Vec2 :=
  map (fun k => mkVec2 (scaled factor (data32 buf (first + 2 * k)))
                       (scaled factor (data32 buf (first + 2 * k + 1))))
      (seq 0 count).

Section Read_gds.
Context {E : Externals}.

Definition gds_xy_path (tolerance factor width : double) (buf : bytes) (data_length : Z)
    (path : FlexPath) : option FlexPath :=
  match curve_point_array (fp_spine path) with
  | [] =>
      if (2 <=? data_length) && (data_length mod 2 =? 0) then
        let spine := mkCurve tolerance
                       [mkVec2 (scaled factor (data32 buf 0)) (scaled factor (data32 buf 1))] in
        let path := fp_set_spine spine path in
        let path := fp_alter_element0
                      (fpe_append_half_width_and_offset
                         (mkVec2 (PrimFloat.div width 2%float) 0%float)) path in
        Some (FlexPath_segment path
                (gds_points factor buf 2 (Z.to_nat (data_length / 2 - 1))) false)
      else None
  | _ :: _ =>
      if data_length mod 2 =? 0 then
        Some (FlexPath_segment path
                (gds_points factor buf 0 (Z.to_nat (data_length / 2))) false)
      else None
  end.

Definition gds_xy_reference (factor : double) (buf : bytes) (ref : Reference) : Reference :=
  let origin := mkVec2 (scaled factor (data32 buf 0)) (scaled factor (data32 buf 1)) in
  let ref := ref_set_origin origin ref in
  let rep := ref_repetition ref in
  let dx i := PrimFloat.sub (scaled factor (data32 buf i)) (vx origin) in
  let dy i := PrimFloat.sub (scaled factor (data32 buf i)) (vy origin) in
  let columns := double_of_Z (rep_columns rep) in
  let rows := double_of_Z (rep_rows rep) in
  match rep_type rep with
  | RepetitionType_None => ref
  | _ =>
      if PrimFloat.eqb (ref_rotation ref) 0%float && negb (ref_x_reflection ref) then
        ref_set_repetition
          (rep_set_spacing (mkVec2 (PrimFloat.div (dx 2%nat) columns)
                                   (PrimFloat.div (dy 5%nat) rows)) rep) ref
      else
        ref_set_repetition
          (rep_set_regular
             (mkVec2 (PrimFloat.div (dx 2%nat) columns) (PrimFloat.div (dy 3%nat) columns))
             (mkVec2 (PrimFloat.div (dx 4%nat) rows) (PrimFloat.div (dy 5%nat) rows)) rep) ref
  end.

(** One turn of the [switch] on [buffer[2]], for every record but ENDLIB. *)
Definition read_gds_record (unit tolerance : double) (data_length : Z) (s : GdsState)
    : option GdsState :=
  let buf := g_buffer s in
  let st := g_store s in
  let code := buf_get buf 2 in
  let unsupported :=
    match GdsiiRecord_of_code code with
    | Some (_, name) =>
        Some (gds_log ("[GDSTK] Record type " ++ name ++ " (0x" ++ hex2 code
                         ++ ") is not supported.")%string s)
    | None => Some (gds_log ("[GDSTK] Unknown record type 0x" ++ hex2 code ++ ".")%string s)
    end in
  match fst <$> GdsiiRecord_of_code code with
  | Some HEADER | Some BGNLIB | Some ENDSTR => Some s
  | Some LIBNAME =>
      name ← gds_string buf data_length;
      Some (with_library (lib_set_name (Some name)) s)
  | Some UNITS =>
      let db_in_user := gdsii_real_to_double (data64 buf 0) in
      let db_in_meters := gdsii_real_to_double (data64 buf 1) in
      if PrimFloat.ltb 0%float unit then
        Some (with_library (lib_set_units unit db_in_meters)
                (set_factor (PrimFloat.div db_in_meters unit) s))
      else
        Some (with_library (lib_set_units (PrimFloat.div db_in_meters db_in_user) db_in_meters)
                (set_factor db_in_user s))
  | Some BGNSTR =>
      let '(c, st) := new_cell st in
      Some (set_cell (Some c) (with_store (fun _ => st) s))
  | Some STRNAME =>
      match g_cell s with
      | Some c =>
          name ← gds_string buf data_length;
          Some (with_library (lib_append_cell c)
                  (with_store (alter_cell (cell_set_name (Some name)) c) s))
      | None => Some s
      end
  | Some BOUNDARY | Some BOX =>
      let '(p, st) := new_polygon st in
      let st := match g_cell s with
                | Some c => alter_cell (cell_append_polygon p) c st
                | None => st
                end in
      Some (set_polygon (Some p) (with_store (fun _ => st) s))
  | Some GPATH =>
      let '(p, st) := new_flexpath st in
      let st := alter_flexpath
                  (fun _ => mkFlexPath (mkCurve 0%float []) [FlexPathElement_zero] 1
                              true false Repetition_zero []) p st in
      let st := match g_cell s with
                | Some c => alter_cell (cell_append_flexpath p) c st
                | None => st
                end in
      Some (set_path (Some p) (with_store (fun _ => st) s))
  | Some SREF | Some AREF =>
      let '(r, st) := new_reference st in
      let st := alter_reference (ref_set_magnification 1%float) r st in
      let st := match g_cell s with
                | Some c => alter_cell (cell_append_reference r) c st
                | None => st
                end in
      Some (set_reference (Some r) (with_store (fun _ => st) s))
  | Some GTEXT =>
      let '(l, st) := new_label st in
      let st := match g_cell s with
                | Some c => alter_cell (cell_append_label l) c st
                | None => st
                end in
      Some (set_label (Some l) (with_store (fun _ => st) s))
  | Some LAYER =>
      match g_polygon s, g_path s, g_label s with
      | Some p, _, _ => Some (with_store (alter_polygon (poly_set_layer (data16 buf 0)) p) s)
      | None, Some p, _ =>
          Some (with_store
                  (alter_flexpath (fp_alter_element0 (fpe_set_layer (data16 buf 0))) p) s)
      | None, None, Some l =>
          Some (with_store (alter_label (label_set_layer (data16 buf 0)) l) s)
      | None, None, None => Some s
      end
  | Some DATATYPE | Some BOXTYPE =>
      match g_polygon s, g_path s with
      | Some p, _ => Some (with_store (alter_polygon (poly_set_datatype (data16 buf 0)) p) s)
      | None, Some p =>
          Some (with_store
                  (alter_flexpath (fp_alter_element0 (fpe_set_datatype (data16 buf 0))) p) s)
      | None, None => Some s
      end
  | Some WIDTH =>
      let v := data32 buf 0 in
      if v <? 0 then
        if v =? - 2 ^ 31 then None
        else
          let s := set_width (scaled (g_factor s) (- v)) s in
          Some (match g_path s with
                | Some p => with_store (alter_flexpath (fp_set_scale_width false) p) s
                | None => s
                end)
      else
        let s := set_width (scaled (g_factor s) v) s in
        Some (match g_path s with
              | Some p => with_store (alter_flexpath (fp_set_scale_width true) p) s
              | None => s
              end)
  | Some XY =>
      match g_polygon s, g_path s, g_reference s, g_label s with
      | Some p, _, _, _ =>
          poly ← polygons st !! p;
          poly ← gds_xy_polygon (g_factor s) buf data_length poly;
          Some (with_store (alter_polygon (fun _ => poly) p) s)
      | None, Some p, _, _ =>
          path ← flexpaths st !! p;
          path ← gds_xy_path tolerance (g_factor s) (g_width s) buf data_length path;
          Some (with_store (alter_flexpath (fun _ => path) p) s)
      | None, None, Some r, _ =>
          Some (with_store (alter_reference (gds_xy_reference (g_factor s) buf) r) s)
      | None, None, None, Some l =>
          Some (with_store
                  (alter_label
                     (label_set_origin (mkVec2 (scaled (g_factor s) (data32 buf 0))
                                               (scaled (g_factor s) (data32 buf 1)))) l) s)
      | None, None, None, None => Some s
      end
  | Some ENDEL =>
      let s := match g_polygon s with
               | Some p =>
                   set_polygon None
                     (with_store
                        (alter_polygon
                           (fun poly =>
                              poly_set_point_array
                                (mkPointArray (uint64 (pa_size (poly_point_array poly) - 1))
                                   (pa_items (poly_point_array poly))) poly) p) s)
               | None => s
               end in
      Some (set_label None (set_reference None (set_path None s)))
  | Some SNAME =>
      match g_reference s with
      | Some r =>
          name ← gds_string buf data_length;
          Some (with_store
                  (alter_reference (ref_set_target ReferenceType_Name (RU_name name)) r) s)
      | None => Some s
      end
  | Some COLROW =>
      match g_reference s with
      | Some r =>
          Some (with_store
                  (alter_reference
                     (fun ref =>
                        ref_set_repetition
                          (rep_set_colrow (uint64 (data16 buf 0)) (uint64 (data16 buf 1))
                             (ref_repetition ref)) ref) r) s)
      | None => Some s
      end
  | Some TEXTTYPE =>
      match g_label s with
      | Some l => Some (with_store (alter_label (label_set_texttype (data16 buf 0)) l) s)
      | None => Some s
      end
  | Some PRESENTATION =>
      match g_label s with
      | Some l =>
          Some (with_store (alter_label (label_set_anchor (Z.land (data16 buf 0) 15)) l) s)
      | None => Some s
      end
  | Some STRING =>
      match g_label s with
      | Some l =>
          text ← gds_string buf data_length;
          Some (with_store (alter_label (label_set_text (Some text)) l) s)
      | None => Some s
      end
  | Some STRANS =>
      let flag := negb (Z.land (data16 buf 0) 32768 =? 0) in
      let s' := match g_reference s, g_label s with
                | Some r, _ => with_store (alter_reference (ref_set_x_reflection flag) r) s
                | None, Some l => with_store (alter_label (label_set_x_reflection flag) l) s
                | None, None => s
                end in
      if Z.land (data16 buf 0) 6 =? 0 then Some s'
      else Some (gds_log
                   "[GDSTK] Absolute magnification and rotation of references is not supported."
                   s')
  | Some MAG =>
      let v := gdsii_real_to_double (data64 buf 0) in
      match g_reference s, g_label s with
      | Some r, _ => Some (with_store (alter_reference (ref_set_magnification v) r) s)
      | None, Some l => Some (with_store (alter_label (label_set_magnification v) l) s)
      | None, None => Some s
      end
  | Some ANGLE =>
      let v := PrimFloat.mul (PrimFloat.div M_PI 180%float)
                 (gdsii_real_to_double (data64 buf 0)) in
      match g_reference s, g_label s with
      | Some r, _ => Some (with_store (alter_reference (ref_set_rotation v) r) s)
      | None, Some l => Some (with_store (alter_label (label_set_rotation v) l) s)
      | None, None => Some s
      end
  | Some PATHTYPE =>
      match g_path s with
      | Some p =>
          let end_type :=
            match data16 buf 0 with
            | 0 => EndType_Flush
            | 1 => EndType_Round
            | 2 => EndType_HalfWidth
            | _ => EndType_Extended
            end in
          Some (with_store (alter_flexpath (fp_alter_element0 (fpe_set_end_type end_type)) p) s)
      | None => Some s
      end
  | Some PROPATTR => Some (set_key (data16 buf 0) s)
  | Some PROPVALUE =>
      if data_length =? 0 then None
      else
        let terminated := str buf (Z.to_nat (data_length - 1)) =? 0 in
        let buf := if terminated then buf
                   else <[(4 + Z.to_nat data_length)%nat := 0]> buf in
        let value := c_str (buf_read buf 4 (Z.to_nat data_length)) in
        let s := set_buffer buf s in
        let key := g_key s in
        match g_polygon s, g_path s, g_reference s, g_label s with
        | Some p, _, _, _ =>
            Some (with_store
                    (alter_polygon
                       (fun x => poly_set_properties
                                   (set_gds_property (poly_properties x) key value) x) p) s)
        | None, Some p, _, _ =>
            Some (with_store
                    (alter_flexpath
                       (fun x => fp_set_properties
                                   (set_gds_property (fp_properties x) key value) x) p) s)
        | None, None, Some r, _ =>
            Some (with_store
                    (alter_reference
                       (fun x => ref_set_properties
                                   (set_gds_property (ref_properties x) key value) x) r) s)
        | None, None, None, Some l =>
            Some (with_store
                    (alter_label
                       (fun x => label_set_properties
                                   (set_gds_property (label_properties x) key value) x) l) s)
        | None, None, None, None => Some s
        end
  | Some BGNEXTN =>
      match g_path s with
      | Some p =>
          Some (with_store
                  (alter_flexpath
                     (fp_alter_element0
                        (fun e => fpe_set_end_extensions
                                    (mkVec2 (scaled (g_factor s) (data32 buf 0))
                                            (vy (fpe_end_extensions e))) e)) p) s)
      | None => Some s
      end
  | Some ENDEXTN =>
      match g_path s with
      | Some p =>
          Some (with_store
                  (alter_flexpath
                     (fp_alter_element0
                        (fun e => fpe_set_end_extensions
                                    (mkVec2 (vx (fpe_end_extensions e))
                                            (scaled (g_factor s) (data32 buf 0))) e)) p) s)
      | None => Some s
      end
  | _ => unsupported
  end.

End Read_gds.

(** [map.get(reference->name)] reads the union as a name.  [Map::get] on a
    null key, and on a pointer that is no string, has no defined result. *)
Definition reference_key (ref : Reference) : option bytes :=
  match ref_union ref with
  | RU_name s => Some (c_str s)
  | _ => None
  end.

(** The name to cell map that ENDLIB builds: [set] of a later cell
    replaces an earlier one of the same name. *)
Definition gds_cell_map (st : Store) (cell_array : list ptr) : option (gmap bytes ptr) :=
  for_each (fun c m => cell ← cells st !! c;
                       name ← cell_name cell;
                       Some (<[c_str name := c]> m)) cell_array ∅.

(** Body of the inner loop of ENDLIB. *)
Definition gds_resolve_reference (map : gmap bytes ptr) (r : ptr) (st : Store) : option Store :=
  ref ← references st !! r;
  key ← reference_key ref;
  match map !! key with
  | Some cp => Some (alter_reference (ref_set_target ReferenceType_Cell (RU_cell cp)) r st)
  | None => Some st
  end.

Definition gds_resolve_cell (map : gmap bytes ptr) (c : ptr) (st : Store) : option Store :=
  cell ← cells st !! c;
  for_each (gds_resolve_reference map) (cell_reference_array cell) st.

(** The ENDLIB case: what [read_gds] returns from it. *)
Definition read_gds_endlib (s : GdsState) : option (Library * Store * list string) :=
  let cell_array := lib_cell_array (g_library s) in
  map ← gds_cell_map (g_store s) cell_array;
  st ← for_each (gds_resolve_cell map) cell_array (g_store s);
  Some (g_library s, st, g_stderr s).

Section Read_gds_loop.
Context {E : Externals}.

Definition is_ENDLIB (buf : bytes) : bool :=
  match GdsiiRecord_of_code (buf_get buf 2) with
  | Some (ENDLIB, _) => true
  | _ => false
  end.

(** A record read into the buffer and swapped: [data_length] and the
    state that the [switch] on [buffer[2]] finds. *)
Definition gds_load (record : bytes) (s : GdsState) : Z * GdsState :=
  let '(data_length, buf) :=
    gds_decode (Z.of_nat (length record)) (buf_load record (g_buffer s)) in
  (data_length, set_buffer buf s).

(** The [while] loop over the records; after it, [return Library{0}]. *)
Fixpoint read_gds_loop (unit tolerance : double) (records : list bytes) (s : GdsState)
    : option (Library * Store * list string) :=
  match records with
  | [] => Some (Library_zero, g_store s, g_stderr s)
  | record :: rest =>
      let '(data_length, s) := gds_load record s in
      if is_ENDLIB (g_buffer s) then read_gds_endlib s
      else s ← read_gds_record unit tolerance data_length s;
           read_gds_loop unit tolerance rest s
  end.

(** The turns of the loop for records none of which is ENDLIB. *)
Fixpoint read_gds_turns (unit tolerance : double) (records : list bytes) (s : GdsState)
    : option GdsState :=
  match records with
  | [] => Some s
  | record :: rest =>
      let '(data_length, s) := gds_load record s in
      s ← read_gds_record unit tolerance data_length s;
      read_gds_turns unit tolerance rest s
  end.

Definition GdsState_init (buffer : bytes) : GdsState :=
  mkGdsState Library_zero Store_empty None None None None None 1%float 0%float 0 buffer [].

(** [read_gds].  [file] is the content of the file, [None] when [fopen]
    fails; [buffer] is what the array [buffer] holds when the function is
    entered.  The result is the library returned, the heap its pointers
    refer to, and the lines sent to standard error (without their final
    newline, and without those of [gdsii_read_record]). *)
Definition read_gds (buffer : bytes) (file : option bytes) (unit tolerance : double)
    : option (Library * Store * list string) :=
  match file with
  | None => Some (Library_zero, Store_empty,
                  ["[GDSTK] Unable to open GDSII file for input."%string])
  | Some input => read_gds_loop unit tolerance (gdsii_records input) (GdsState_init buffer)
  end.

End Read_gds_loop.

(** ** [read_oas]

    The part of [read_oas] around the modal variables: the opening of the
    file, the START record, the loop, and the records PAD, START,
    LAYERNAME, CELL, CELL_REF_NUM, XYABSOLUTE, XYRELATIVE, PLACEMENT,
    PLACEMENT_TRANSFORM, TEXT, RECTANGLE, XNAME, XELEMENT, XGEOMETRY and
    CBLOCK, and unknown records.  A run that meets another record leaves
    the model ([OutsideModel]). *)

Inductive Fault := UndefinedBehaviour | OutsideModel | OutOfFuel.

(** A result, or why there is none and what standard error got before. *)
Inductive Run (A : Type) :=
| Ok (a : A)
| Stop (why : Fault) (stderr : list string).
Arguments Ok {A} a.
Arguments Stop {A} why stderr.

Definition Run_bind {A B : Type} (m : Run A) (k : A -> Run B) : Run B :=
  match m with
  | Ok a => k a
  | Stop why e => Stop why e
  end.

#[global] Instance Run_mbind : MBind Run := fun A B k m => Run_bind m k.

(** [OasisStream] on the reading side.  [in_pos] is the position of
    [in.file]; [in_data] is what lies between [in.cursor] and the end of
    [in.data], [None] when [in.data] is null. *)
Record OasisInput := mkOasisInput {
  in_file : bytes;
  in_pos : Z;
  in_data : option bytes
}.

(** [fread(buffer, 1, n, in.file)]: the bytes read, fewer than [n] at the
    end of the file. *)
Definition fread (n : nat) (i : OasisInput) : bytes * OasisInput :=
  let got := take n (drop (Z.to_nat (in_pos i)) (in_file i)) in
  (got, mkOasisInput (in_file i) (in_pos i + Z.of_nat (length got)) (in_data i)).

(** [fseek(in.file, offset, SEEK_SET)] with [offset] converted to [long]:
    the position becomes [offset]; a negative offset is refused. *)
Definition fseek_set (offset : Z) (i : OasisInput) : OasisInput :=
  let offset := signed 64 (uint64 offset) in
  if offset <? 0 then i else mkOasisInput (in_file i) offset (in_data i).

(** Modelled from the spec: [oasis_read] (oasis.cpp is not among the
    sources).  "Reads always go through the file or through an in-memory
    inflated buffer after CBLOCK inflation ... subsequent records are read
    from that buffer until exhausted."  A read past the end of the buffer
    has no defined result ([None]). *)
Definition oasis_read (n : nat) (i : OasisInput) : option (bytes * OasisInput) :=
  match in_data i with
  | Some rest =>
      if (length rest <? n)%nat then None
      else Some (take n rest,
                 mkOasisInput (in_file i) (in_pos i)
                   (if (length rest =? n)%nat then None else Some (drop n rest)))
  | None => Some (fread n i)
  end.

(** One byte, [None] at the end of the input. *)
Definition oasis_read_byte (i : OasisInput) : option (Z * OasisInput) :=
  '(b, i) ← oasis_read 1 i;
  match b with
  | [c] => Some (c, i)
  | _ => None
  end.

(** Modelled from the spec: [oasis_read_unsigned_integer].  "Unsigned
    integer: 7-bit little-endian varint, continuation bit in MSB", at
    most ten bytes for a 64-bit value. *)
Fixpoint read_varint (fuel : nat) (i : OasisInput) : option (Z * OasisInput) :=
  match fuel with
  | O => None
  | S fuel' =>
      '(b, i) ← oasis_read_byte i;
      if Z.land b 128 =? 0 then Some (b, i)
      else '(v, i) ← read_varint fuel' i; Some (Z.land b 127 + 128 * v, i)
  end.

Definition oasis_read_unsigned_integer (i : OasisInput) : option (Z * OasisInput) :=
  '(v, i) ← read_varint 10 i; Some (uint64 v, i).

(** Modelled from the spec: [oasis_read_integer].  "Signed integer: varint
    whose low bit is the sign and whose remaining bits are magnitude." *)
Definition oasis_read_integer (i : OasisInput) : option (Z * OasisInput) :=
  '(v, i) ← oasis_read_unsigned_integer i;
  Some (if Z.land v 1 =? 0 then v / 2 else - (v / 2), i).

(** Modelled from the spec: [oasis_read_string], a length as an unsigned
    integer and then that many bytes. *)
Definition oasis_read_string (i : OasisInput) : option (bytes * OasisInput) :=
  '(len, i) ← oasis_read_unsigned_integer i;
  '(b, i) ← oasis_read (Z.to_nat len) i;
  if (length b <? Z.to_nat len)%nat then None else Some (b, i).

Class ReadExternals := {
  oasis_read_real : OasisInput -> option (double * OasisInput);
  oasis_read_repetition : OasisInput -> double -> Repetition -> option (Repetition * OasisInput);
  (* zlib: [inflateInit2] succeeded, [inflate] gave [Z_STREAM_END], and the
     output buffer of the size asked for *)
  zlib_inflate : bytes -> Z -> bool * bool * bytes;
  rectangle : Vec2 -> Vec2 -> Z -> Z -> Polygon
}.

(** Where [next_property] points. *)
Inductive PropertySlot :=
| Slot_library
| Slot_cell (c : ptr)
| Slot_polygon (p : ptr)
| Slot_reference (r : ptr)
| Slot_label (l : ptr).

(** The modal variables, in the order [read_oas] declares them. *)
Record Modal := mkModal {
  modal_absolute_pos : bool;
  modal_layer : Z;
  modal_datatype : Z;
  modal_textlayer : Z;
  modal_texttype : Z;
  modal_placement_pos : Vec2;
  modal_text_pos : Vec2;
  modal_geom_pos : Vec2;
  modal_geom_dim : Vec2;
  modal_repetition : Repetition;
  modal_text_string : option ptr;
  modal_placement_cell : option ptr;
  modal_polygon_points : list Vec2;
  modal_path_points : list Vec2;
  modal_path_halfwidth : double;
  modal_path_extensions : Vec2;
  modal_ctrapezoid_type : Z;
  modal_circle_radius : double;
  modal_property : option Property;
  modal_property_value_list : list PropertyValue
}.

(** The initial values of the declarations ("State variables"). *)
Definition Modal_init : Modal :=
  mkModal true 0 0 0 0 Vec2_zero Vec2_zero Vec2_zero Vec2_zero Repetition_zero
    None None [] [] 0%float Vec2_zero 0 0%float None [].

Record OasState := mkOasState {
  o_in : OasisInput;
  o_modal : Modal;
  o_library : Library;
  o_store : Store;
  o_cell : option ptr;
  o_next_property : PropertySlot;
  o_factor : double;
  o_stderr : list string
}.

Definition o_with_in (i : OasisInput) (s : OasState) : OasState :=
  mkOasState i (o_modal s) (o_library s) (o_store s) (o_cell s) (o_next_property s)
    (o_factor s) (o_stderr s).
Definition o_with_modal (f : Modal -> Modal) (s : OasState) : OasState :=
  mkOasState (o_in s) (f (o_modal s)) (o_library s) (o_store s) (o_cell s)
    (o_next_property s) (o_factor s) (o_stderr s).
Definition o_with_library (f : Library -> Library) (s : OasState) : OasState :=
  mkOasState (o_in s) (o_modal s) (f (o_library s)) (o_store s) (o_cell s)
    (o_next_property s) (o_factor s) (o_stderr s).
Definition o_with_store (f : Store -> Store) (s : OasState) : OasState :=
  mkOasState (o_in s) (o_modal s) (o_library s) (f (o_store s)) (o_cell s)
    (o_next_property s) (o_factor s) (o_stderr s).
Definition o_set_cell (c : option ptr) (s : OasState) : OasState :=
  mkOasState (o_in s) (o_modal s) (o_library s) (o_store s) c (o_next_property s)
    (o_factor s) (o_stderr s).
Definition o_set_next_property (p : PropertySlot) (s : OasState) : OasState :=
  mkOasState (o_in s) (o_modal s) (o_library s) (o_store s) (o_cell s) p
    (o_factor s) (o_stderr s).
Definition o_log (msg : string) (s : OasState) : OasState :=
  mkOasState (o_in s) (o_modal s) (o_library s) (o_store s) (o_cell s)
    (o_next_property s) (o_factor s) (o_stderr s ++ [msg]).

(** A read in a handler: the value and the state with the input advanced;
    no result when the primitive has none. *)
Definition reading {A : Type} (f : OasisInput -> option (A * OasisInput)) (s : OasState)
    : Run (A * OasState) :=
  match f (o_in s) with
  | Some (a, i) => Ok (a, o_with_in i s)
  | None => Stop UndefinedBehaviour (o_stderr s)
  end.

(** A pointer that must not be null or dangling. *)
Definition deref {A : Type} (s : OasState) (o : option A) : Run A :=
  match o with
  | Some a => Ok a
  | None => Stop UndefinedBehaviour (o_stderr s)
  end.

Definition bit_set (info mask : Z) : bool := negb (Z.land info mask =? 0).

Definition modal_set_absolute_pos (v : bool) (m : Modal) : Modal :=
  mkModal v (modal_layer m) (modal_datatype m) (modal_textlayer m) (modal_texttype m)
    (modal_placement_pos m) (modal_text_pos m) (modal_geom_pos m) (modal_geom_dim m)
    (modal_repetition m) (modal_text_string m) (modal_placement_cell m)
    (modal_polygon_points m) (modal_path_points m) (modal_path_halfwidth m)
    (modal_path_extensions m) (modal_ctrapezoid_type m) (modal_circle_radius m)
    (modal_property m) (modal_property_value_list m).
Definition modal_set_layer (v : Z) (m : Modal) : Modal :=
  mkModal (modal_absolute_pos m) v (modal_datatype m) (modal_textlayer m) (modal_texttype m)
    (modal_placement_pos m) (modal_text_pos m) (modal_geom_pos m) (modal_geom_dim m)
    (modal_repetition m) (modal_text_string m) (modal_placement_cell m)
    (modal_polygon_points m) (modal_path_points m) (modal_path_halfwidth m)
    (modal_path_extensions m) (modal_ctrapezoid_type m) (modal_circle_radius m)
    (modal_property m) (modal_property_value_list m).
Definition modal_set_datatype (v : Z) (m : Modal) : Modal :=
  mkModal (modal_absolute_pos m) (modal_layer m) v (modal_textlayer m) (modal_texttype m)
    (modal_placement_pos m) (modal_text_pos m) (modal_geom_pos m) (modal_geom_dim m)
    (modal_repetition m) (modal_text_string m) (modal_placement_cell m)
    (modal_polygon_points m) (modal_path_points m) (modal_path_halfwidth m)
    (modal_path_extensions m) (modal_ctrapezoid_type m) (modal_circle_radius m)
    (modal_property m) (modal_property_value_list m).
Definition modal_set_textlayer (v : Z) (m : Modal) : Modal :=
  mkModal (modal_absolute_pos m) (modal_layer m) (modal_datatype m) v (modal_texttype m)
    (modal_placement_pos m) (modal_text_pos m) (modal_geom_pos m) (modal_geom_dim m)
    (modal_repetition m) (modal_text_string m) (modal_placement_cell m)
    (modal_polygon_points m) (modal_path_points m) (modal_path_halfwidth m)
    (modal_path_extensions m) (modal_ctrapezoid_type m) (modal_circle_radius m)
    (modal_property m) (modal_property_value_list m).
Definition modal_set_texttype (v : Z) (m : Modal) : Modal :=
  mkModal (modal_absolute_pos m) (modal_layer m) (modal_datatype m) (modal_textlayer m) v
    (modal_placement_pos m) (modal_text_pos m) (modal_geom_pos m) (modal_geom_dim m)
    (modal_repetition m) (modal_text_string m) (modal_placement_cell m)
    (modal_polygon_points m) (modal_path_points m) (modal_path_halfwidth m)
    (modal_path_extensions m) (modal_ctrapezoid_type m) (modal_circle_radius m)
    (modal_property m) (modal_property_value_list m).
Definition modal_set_placement_pos (v : Vec2) (m : Modal) : Modal :=
  mkModal (modal_absolute_pos m) (modal_layer m) (modal_datatype m) (modal_textlayer m)
    (modal_texttype m) v (modal_text_pos m) (modal_geom_pos m) (modal_geom_dim m)
    (modal_repetition m) (modal_text_string m) (modal_placement_cell m)
    (modal_polygon_points m) (modal_path_points m) (modal_path_halfwidth m)
    (modal_path_extensions m) (modal_ctrapezoid_type m) (modal_circle_radius m)
    (modal_property m) (modal_property_value_list m).
Definition modal_set_text_pos (v : Vec2) (m : Modal) : Modal :=
  mkModal (modal_absolute_pos m) (modal_layer m) (modal_datatype m) (modal_textlayer m)
    (modal_texttype m) (modal_placement_pos m) v (modal_geom_pos m) (modal_geom_dim m)
    (modal_repetition m) (modal_text_string m) (modal_placement_cell m)
    (modal_polygon_points m) (modal_path_points m) (modal_path_halfwidth m)
    (modal_path_extensions m) (modal_ctrapezoid_type m) (modal_circle_radius m)
    (modal_property m) (modal_property_value_list m).
Definition modal_set_geom_pos (v : Vec2) (m : Modal) : Modal :=
  mkModal (modal_absolute_pos m) (modal_layer m) (modal_datatype m) (modal_textlayer m)
    (modal_texttype m) (modal_placement_pos m) (modal_text_pos m) v (modal_geom_dim m)
    (modal_repetition m) (modal_text_string m) (modal_placement_cell m)
    (modal_polygon_points m) (modal_path_points m) (modal_path_halfwidth m)
    (modal_path_extensions m) (modal_ctrapezoid_type m) (modal_circle_radius m)
    (modal_property m) (modal_property_value_list m).
Definition modal_set_geom_dim (v : Vec2) (m : Modal) : Modal :=
  mkModal (modal_absolute_pos m) (modal_layer m) (modal_datatype m) (modal_textlayer m)
    (modal_texttype m) (modal_placement_pos m) (modal_text_pos m) (modal_geom_pos m) v
    (modal_repetition m) (modal_text_string m) (modal_placement_cell m)
    (modal_polygon_points m) (modal_path_points m) (modal_path_halfwidth m)
    (modal_path_extensions m) (modal_ctrapezoid_type m) (modal_circle_radius m)
    (modal_property m) (modal_property_value_list m).
Definition modal_set_repetition (v : Repetition) (m : Modal) : Modal :=
  mkModal (modal_absolute_pos m) (modal_layer m) (modal_datatype m) (modal_textlayer m)
    (modal_texttype m) (modal_placement_pos m) (modal_text_pos m) (modal_geom_pos m)
    (modal_geom_dim m) v (modal_text_string m) (modal_placement_cell m)
    (modal_polygon_points m) (modal_path_points m) (modal_path_halfwidth m)
    (modal_path_extensions m) (modal_ctrapezoid_type m) (modal_circle_radius m)
    (modal_property m) (modal_property_value_list m).
Definition modal_set_text_string (v : option ptr) (m : Modal) : Modal :=
  mkModal (modal_absolute_pos m) (modal_layer m) (modal_datatype m) (modal_textlayer m)
    (modal_texttype m) (modal_placement_pos m) (modal_text_pos m) (modal_geom_pos m)
    (modal_geom_dim m) (modal_repetition m) v (modal_placement_cell m)
    (modal_polygon_points m) (modal_path_points m) (modal_path_halfwidth m)
    (modal_path_extensions m) (modal_ctrapezoid_type m) (modal_circle_radius m)
    (modal_property m) (modal_property_value_list m).
Definition modal_set_placement_cell (v : option ptr) (m : Modal) : Modal :=
  mkModal (modal_absolute_pos m) (modal_layer m) (modal_datatype m) (modal_textlayer m)
    (modal_texttype m) (modal_placement_pos m) (modal_text_pos m) (modal_geom_pos m)
    (modal_geom_dim m) (modal_repetition m) (modal_text_string m) v
    (modal_polygon_points m) (modal_path_points m) (modal_path_halfwidth m)
    (modal_path_extensions m) (modal_ctrapezoid_type m) (modal_circle_radius m)
    (modal_property m) (modal_property_value_list m).

(** The four assignments that close the CELL case. *)
Definition modal_cell_reset (m : Modal) : Modal :=
  modal_set_text_pos Vec2_zero
    (modal_set_geom_pos Vec2_zero
       (modal_set_placement_pos Vec2_zero (modal_set_absolute_pos true m))).

(** [if (modal_absolute_pos) pos = x; else pos += x;]. *)
Definition modal_move (absolute : bool) (old x : double) : double :=
  if absolute then x else PrimFloat.add old x.

Definition Vec2_set_x (v : double) (p : Vec2) : Vec2 := mkVec2 v (vy p).
Definition Vec2_set_y (v : double) (p : Vec2) : Vec2 := mkVec2 (vx p) v.

(** [Anchor::SW]: anchors are numbered as the GDSII presentation bits
    that [read_gds] casts to them. *)
Definition Anchor_SW : Z := 8.

Definition oasis_magic : bytes := [37; 83; 69; 77; 73; 45; 79; 65; 83; 73; 83; 13; 10; 1].

Section Read_oas.
Context {R : ReadExternals}.

(** [factor * oasis_read_integer(in)]. *)
Definition read_coordinate (s : OasState) : Run (double * OasState) :=
  '(v, s) ← reading oasis_read_integer s;
  Ok (scaled (o_factor s) v, s).

(** [factor * oasis_read_unsigned_integer(in)]. *)
Definition read_length (s : OasState) : Run (double * OasState) :=
  '(v, s) ← reading oasis_read_unsigned_integer s;
  Ok (scaled (o_factor s) v, s).

(** [oasis_read_repetition(in, factor, modal_repetition)]; the result is
    the new modal repetition. *)
Definition read_repetition (s : OasState) : Run (Repetition * OasState) :=
  '(rep, s) ← reading (fun i => oasis_read_repetition i (o_factor s)
                                  (modal_repetition (o_modal s))) s;
  Ok (rep, o_with_modal (modal_set_repetition rep) s).

(** The x and y deltas of an element, on the modal position that [get]
    and [set] name. *)
Definition read_position (get : Modal -> Vec2) (set : Vec2 -> Modal -> Modal)
    (info xbit ybit : Z) (s : OasState) : Run OasState :=
  s ← (if bit_set info xbit then
         '(x, s) ← read_coordinate s;
         let m := o_modal s in
         Ok (o_with_modal
               (set (Vec2_set_x (modal_move (modal_absolute_pos m) (vx (get m)) x) (get m))) s)
       else Ok s);
  if bit_set info ybit then
    '(y, s) ← read_coordinate s;
    let m := o_modal s in
    Ok (o_with_modal
          (set (Vec2_set_y (modal_move (modal_absolute_pos m) (vy (get m)) y) (get m))) s)
  else Ok s.

(** The [if (info & 0x01)] and [if (info & 0x02)] pair of the geometry
    records. *)
Definition read_layer_datatype (info : Z) (s : OasState) : Run OasState :=
  s ← (if bit_set info 1 then
         '(v, s) ← reading oasis_read_unsigned_integer s;
         Ok (o_with_modal (modal_set_layer v) s)
       else Ok s);
  if bit_set info 2 then
    '(v, s) ← reading oasis_read_unsigned_integer s;
    Ok (o_with_modal (modal_set_datatype v) s)
  else Ok s.

(** CELL_REF_NUM and CELL. *)
Definition read_oas_cell (record : OasisRecord) (s : OasState) : Run OasState :=
  let '(c, st) := new_cell (o_store s) in
  let s := o_with_store (fun _ => st) s in
  let s := o_with_library (lib_append_cell c) s in
  let s := o_set_next_property (Slot_cell c) (o_set_cell (Some c) s) in
  s ← (if decide (record = CELL_REF_NUM) then
         '(n, s) ← reading oasis_read_unsigned_integer s;
         Ok (o_with_store (alter_cell (cell_set_owner n) c) s)
       else
         '(name, s) ← reading oasis_read_string s;
         Ok (o_with_store (alter_cell (cell_set_name (Some name)) c) s));
  Ok (o_with_modal modal_cell_reset s).

(** PLACEMENT and PLACEMENT_TRANSFORM. *)
Definition read_oas_placement (record : OasisRecord) (s : OasState) : Run OasState :=
  c ← deref s (o_cell s);
  let '(r, st) := new_reference (o_store s) in
  let st := alter_cell (cell_append_reference r) c st in
  let s := o_set_next_property (Slot_reference r) (o_with_store (fun _ => st) s) in
  let on_ref f s := o_with_store (alter_reference f r) s in
  '(info, s) ← reading oasis_read_byte s;
  s ← (if bit_set info 128 then
         s ← (if bit_set info 64 then
                '(n, s) ← reading oasis_read_unsigned_integer s;
                Ok (on_ref (ref_set_target ReferenceType_Cell (RU_number n)) s)
              else
                '(name, s) ← reading oasis_read_string s;
                Ok (on_ref (ref_set_target ReferenceType_Name (RU_name name)) s));
         Ok (o_with_modal (modal_set_placement_cell (Some r)) s)
       else
         mp ← deref s (modal_placement_cell (o_modal s));
         mref ← deref s (references (o_store s) !! mp);
         match ref_type mref, ref_union mref with
         | ReferenceType_Cell, u => Ok (on_ref (ref_set_target ReferenceType_Cell u) s)
         | _, RU_name name => Ok (on_ref (ref_set_target ReferenceType_Name (RU_name name)) s)
         | _, _ => Stop UndefinedBehaviour (o_stderr s)
         end);
  s ← (if decide (record = PLACEMENT) then
         let s := on_ref (ref_set_magnification 1%float) s in
         Ok (match Z.land info 6 with
             | 2 => on_ref (ref_set_rotation (PrimFloat.mul M_PI 0.5%float)) s
             | 4 => on_ref (ref_set_rotation M_PI) s
             | 6 => on_ref (ref_set_rotation (PrimFloat.mul M_PI 1.5%float)) s
             | _ => s
             end)
       else
         s ← (if bit_set info 4 then
                '(v, s) ← reading oasis_read_real s;
                Ok (on_ref (ref_set_magnification v) s)
              else Ok (on_ref (ref_set_magnification 1%float) s));
         if bit_set info 2 then
           '(v, s) ← reading oasis_read_real s;
           Ok (on_ref (ref_set_rotation
                         (PrimFloat.mul v (PrimFloat.div M_PI 180%float))) s)
         else Ok s);
  let s := on_ref (ref_set_x_reflection (bit_set info 1)) s in
  s ← read_position modal_placement_pos modal_set_placement_pos info 32 16 s;
  let s := on_ref (ref_set_origin (modal_placement_pos (o_modal s))) s in
  if bit_set info 8 then
    '(rep, s) ← read_repetition s;
    Ok (on_ref (ref_set_repetition rep) s)
  else Ok s.

(** TEXT. *)
Definition read_oas_text (s : OasState) : Run OasState :=
  c ← deref s (o_cell s);
  let '(l, st) := new_label (o_store s) in
  let st := alter_label (fun x => label_set_anchor Anchor_SW
                                    (label_set_magnification 1%float x)) l st in
  let st := alter_cell (cell_append_label l) c st in
  let s := o_set_next_property (Slot_label l) (o_with_store (fun _ => st) s) in
  let on_label f s := o_with_store (alter_label f l) s in
  '(info, s) ← reading oasis_read_byte s;
  s ← (if bit_set info 64 then
         s ← (if bit_set info 32 then
                '(n, s) ← reading oasis_read_unsigned_integer s;
                Ok (on_label (label_set_owner n) s)
              else
                '(text, s) ← reading oasis_read_string s;
                Ok (on_label (label_set_text (Some text)) s));
         Ok (o_with_modal (modal_set_text_string (Some l)) s)
       else
         mp ← deref s (modal_text_string (o_modal s));
         mlabel ← deref s (labels (o_store s) !! mp);
         match label_text mlabel with
         | None => Ok (on_label (label_set_owner (label_owner mlabel)) s)
         | Some text => Ok (on_label (label_set_text (Some text)) s)
         end);
  s ← (if bit_set info 1 then
         '(v, s) ← reading oasis_read_unsigned_integer s;
         Ok (o_with_modal (modal_set_textlayer v) s)
       else Ok s);
  let s := on_label (label_set_layer (modal_textlayer (o_modal s))) s in
  s ← (if bit_set info 2 then
         '(v, s) ← reading oasis_read_unsigned_integer s;
         Ok (o_with_modal (modal_set_texttype v) s)
       else Ok s);
  let s := on_label (label_set_texttype (modal_texttype (o_modal s))) s in
  s ← read_position modal_text_pos modal_set_text_pos info 16 8 s;
  let s := on_label (label_set_origin (modal_text_pos (o_modal s))) s in
  if bit_set info 4 then
    '(rep, s) ← read_repetition s;
    Ok (on_label (label_set_repetition rep) s)
  else Ok s.

(** RECTANGLE. *)
Definition read_oas_rectangle (s : OasState) : Run OasState :=
  c ← deref s (o_cell s);
  let '(p, st) := new_polygon (o_store s) in
  let st := alter_cell (cell_append_polygon p) c st in
  let s := o_set_next_property (Slot_polygon p) (o_with_store (fun _ => st) s) in
  '(info, s) ← reading oasis_read_byte s;
  s ← read_layer_datatype info s;
  s ← (if bit_set info 64 then
         '(v, s) ← read_length s;
         Ok (o_with_modal (fun m => modal_set_geom_dim (Vec2_set_x v (modal_geom_dim m)) m) s)
       else Ok s);
  s ← (if bit_set info 32 then
         '(v, s) ← read_length s;
         Ok (o_with_modal (fun m => modal_set_geom_dim (Vec2_set_y v (modal_geom_dim m)) m) s)
       else Ok s);
  s ← read_position modal_geom_pos modal_set_geom_pos info 16 8 s;
  let m := o_modal s in
  let corner2 :=
    mkVec2 (PrimFloat.add (vx (modal_geom_pos m)) (vx (modal_geom_dim m)))
           (PrimFloat.add (vy (modal_geom_pos m))
              (if bit_set info 128 then vx (modal_geom_dim m) else vy (modal_geom_dim m))) in
  let poly := rectangle (modal_geom_pos m) corner2 (modal_layer m) (modal_datatype m) in
  let s := o_with_store (alter_polygon (fun _ => poly) p) s in
  if bit_set info 4 then
    '(rep, s) ← read_repetition s;
    Ok (o_with_store
          (alter_polygon
             (fun x => mkPolygon (poly_layer x) (poly_datatype x) (poly_point_array x)
                         rep (poly_properties x)) p) s)
  else Ok s.

(** LAYERNAME_DATA and LAYERNAME_TEXT: read and dropped. *)
Definition read_oas_layername (s : OasState) : Run OasState :=
  '(_, s) ← reading oasis_read_string s;
  let interval s :=
    '(type, s) ← reading oasis_read_unsigned_integer s;
    if 0 <? type then
      s ← (if type =? 4 then '(_, s) ← reading oasis_read_unsigned_integer s; Ok s
           else Ok s);
      '(_, s) ← reading oasis_read_unsigned_integer s; Ok s
    else Ok s in
  s ← interval s;
  interval s.

(** XGEOMETRY: read, the modal variables updated, and dropped. *)
Definition read_oas_xgeometry (s : OasState) : Run OasState :=
  '(info, s) ← reading oasis_read_byte s;
  '(_, s) ← reading oasis_read_unsigned_integer s;
  s ← read_layer_datatype info s;
  '(_, s) ← reading oasis_read_string s;
  s ← read_position modal_geom_pos modal_set_geom_pos info 16 8 s;
  s ← (if bit_set info 4 then '(_, s) ← read_repetition s; Ok s else Ok s);
  Ok (o_log "[GDSTK] Record type XGEOMETRY ignored." s).

(** CBLOCK. *)
Definition read_oas_cblock (s : OasState) : Run OasState :=
  '(method, s) ← reading oasis_read_unsigned_integer s;
  if negb (method =? 0) then
    let s := o_log "[GDSTK] CBLOCK compression method not supported." s in
    '(_, s) ← reading oasis_read_unsigned_integer s;
    '(len, s) ← reading oasis_read_unsigned_integer s;
    Ok (o_with_in (fseek_set len (o_in s)) s)
  else
    '(data_size, s) ← reading oasis_read_unsigned_integer s;
    '(avail_in, s) ← reading oasis_read_unsigned_integer s;
    let '(data, i) := fread (Z.to_nat avail_in) (o_in s) in
    let s := o_with_in i s in
    let s := if Z.of_nat (length data) =? avail_in then s
             else o_log "[GDSTK] Unable to read full CBLOCK." s in
    let '(init_ok, stream_end, buffer) := zlib_inflate data data_size in
    let s := if init_ok then s else o_log "[GDSTK] Unable to initialize zlib." s in
    let s := if stream_end then s else o_log "[GDSTK] Unable to decompress CBLOCK." s in
    Ok (o_with_in (mkOasisInput (in_file (o_in s)) (in_pos (o_in s)) (Some buffer)) s).

(** One turn of the [switch (record)], [b] being the byte just read. *)
Definition read_oas_record (b : Z) (s : OasState) : Run OasState :=
  match OasisRecord_of_code b with
  | Some PAD => Ok s
  | Some START =>
      Ok (o_log "[GDSTK] Unexpected START record out of position in file." s)
  | Some LAYERNAME_DATA | Some LAYERNAME_TEXT => read_oas_layername s
  | Some CELL_REF_NUM => read_oas_cell CELL_REF_NUM s
  | Some CELL => read_oas_cell CELL s
  | Some XYABSOLUTE => Ok (o_with_modal (modal_set_absolute_pos true) s)
  | Some XYRELATIVE => Ok (o_with_modal (modal_set_absolute_pos false) s)
  | Some PLACEMENT => read_oas_placement PLACEMENT s
  | Some PLACEMENT_TRANSFORM => read_oas_placement PLACEMENT_TRANSFORM s
  | Some TEXT => read_oas_text s
  | Some RECTANGLE => read_oas_rectangle s
  | Some XNAME_IMPLICIT =>
      '(_, s) ← reading oasis_read_unsigned_integer s;
      '(_, s) ← reading oasis_read_string s;
      Ok (o_log "[GDSTK] Record type XNAME ignored." s)
  | Some XNAME =>
      '(_, s) ← reading oasis_read_unsigned_integer s;
      '(_, s) ← reading oasis_read_string s;
      '(_, s) ← reading oasis_read_unsigned_integer s;
      Ok (o_log "[GDSTK] Record type XNAME ignored." s)
  | Some XELEMENT =>
      '(_, s) ← reading oasis_read_unsigned_integer s;
      '(_, s) ← reading oasis_read_string s;
      Ok (o_log "[GDSTK] Record type XELEMENT ignored." s)
  | Some XGEOMETRY => read_oas_xgeometry s
  | Some CBLOCK => read_oas_cblock s
  | Some _ => Stop OutsideModel (o_stderr s)
  | None => Ok (o_log ("[GDSTK] Unknown record type <0x" ++ hex2 b ++ ">.")%string s)
  end.

(** The [while (oasis_read(&record, 1, 1, in) > 0)] loop.  A seek may
    take the reader back, so the number of turns is bounded by [fuel]. *)
Fixpoint read_oas_loop (fuel : nat) (s : OasState) : Run OasState :=
  match fuel with
  | O => Stop OutOfFuel (o_stderr s)
  | S fuel' =>
      '(b, s) ← reading (oasis_read 1) s;
      match b with
      | [] => Ok s
      | record :: _ => s ← read_oas_record record s; read_oas_loop fuel' s
      end
  end.

(** From the opening of the file to the first record: the header, the
    START record and the offset table. *)
Definition read_oas_start (content : bytes) (unit : double) : Run OasState + list string :=
  let i := mkOasisInput content 0 None in
  let '(header, i) := fread 14 i in
  if decide (header = oasis_magic) then
    inl (let s := mkOasState i Modal_init Library_zero Store_empty None Slot_library
                    1%float [] in
         '(version, s) ← reading oasis_read_string s;
         s ← (if (length version <? 3)%nat then Stop UndefinedBehaviour (o_stderr s)
              else if decide (take 3 version = [49; 46; 48]) then Ok s
              else Ok (o_log "[GDSTK] Unsupported OASIS file version." s));
         '(real, s) ← reading oasis_read_real s;
         let factor := PrimFloat.div 1%float real in
         let precision := PrimFloat.mul micro factor in
         let '(unit_, factor) :=
           if PrimFloat.ltb 0%float unit
           then (unit, PrimFloat.mul factor (PrimFloat.div micro unit))
           else (micro, factor) in
         let s := mkOasState (o_in s) (o_modal s) (lib_set_units unit_ precision (o_library s))
                    (o_store s) (o_cell s) (o_next_property s) factor (o_stderr s) in
         '(offset_table_flag, s) ← reading oasis_read_unsigned_integer s;
         if offset_table_flag =? 0 then
           fold_left (fun r _ => s ← r; '(_, s) ← reading oasis_read_unsigned_integer s; Ok s)
             (seq 0 12) (Ok s)
         else Ok s)
  else inr ["[GDSTK] Invalid OASIS header found."%string].

(** [read_oas].  [file] is the content of the file, [None] when [fopen]
    fails: the function then calls [fclose] on the null stream, which has
    no defined result. *)
Definition read_oas (fuel : nat) (file : option bytes) (unit tolerance : double)
    : Run (Library * Store * list string) :=
  match file with
  | None => Stop UndefinedBehaviour ["[GDSTK] Unable to open OASIS file for input."%string]
  | Some content =>
      match read_oas_start content unit with
      | inr stderr => Ok (Library_zero, Store_empty, stderr)
      | inl start =>
          s ← start;
          s ← read_oas_loop fuel s;
          Ok (o_library s, o_store s, o_stderr s)
      end
  end.

End Read_oas.

(** * What the statements speak of *)

Section Write_oas_records.
Context {E : Externals}.

(** The bytes after the cell index and the transform of a placement. *)
Definition reference_tail_bytes (ref : Reference) (state : OasisState) : bytes :=
  oasis_write_integer (llround (PrimFloat.mul (vx (ref_origin ref)) (scaling state)))
    ++ oasis_write_integer (llround (PrimFloat.mul (vy (ref_origin ref)) (scaling state)))
    ++ (if 1 <? Repetition_get_size (ref_repetition ref)
        then oasis_write_repetition (ref_repetition ref) (scaling state) else [])
    ++ fst (properties_to_oas (ref_properties ref) state).

(** The test that selects the PLACEMENT record, with the multiple found. *)
Definition placement_quadrant (ref : Reference) : option Z :=
  if PrimFloat.eqb (ref_magnification ref) 1%float
  then is_multiple_of_pi_over_2 (ref_rotation ref) else None.

(** The magnification and the angle in degrees of a PLACEMENT_TRANSFORM. *)
Definition reference_transform_bytes (ref : Reference) : bytes :=
  (if PrimFloat.eqb (ref_magnification ref) 1%float then []
   else oasis_write_real (ref_magnification ref))
  ++ (if PrimFloat.eqb (ref_rotation ref) 0%float then []
      else oasis_write_real (PrimFloat.mul (ref_rotation ref) (PrimFloat.div 180%float M_PI))).

(** The info byte as the loop body computes it. *)
Definition reference_info (ref : Reference) : Z :=
  match placement_quadrant ref with
  | Some m => uint8 (uint8 (Z.lor (reference_info_base ref) (placement_rotation_bits m)))
  | None =>
      uint8 (let info := reference_info_base ref in
             let info := if negb (PrimFloat.eqb (ref_magnification ref) 1%float)
                         then uint8 (Z.lor info 4) else info in
             if negb (PrimFloat.eqb (ref_rotation ref) 0%float)
             then uint8 (Z.lor info 2) else info)
  end.

(** The info byte of a TEXT record and the string number it carries. *)
Definition label_info (label : Label) : Z :=
  uint8 (if 1 <? Repetition_get_size (label_repetition label)
         then uint8 (Z.lor 123 4) else 123).

Definition label_index (text_string_map : gmap bytes Z) (text : bytes) : Z :=
  match text_string_map !! c_str text with
  | Some i => i
  | None => Z.of_nat (size text_string_map)
  end.

(** The repetition and the properties that close a TEXT record. *)
Definition label_tail_bytes (label : Label) (state : OasisState) : bytes :=
  (if 1 <? Repetition_get_size (label_repetition label)
   then oasis_write_repetition (label_repetition label) (scaling state) else [])
  ++ fst (properties_to_oas (label_properties label) state).

End Write_oas_records.

(** ** The end of an OASIS file *)

(** The six entries of the table of offsets. *)
Definition table_offsets_bytes (t : TableOffsets) : bytes :=
  1 :: oasis_write_unsigned_integer (cell_name_offset t)
  ++ 1 :: oasis_write_unsigned_integer (text_string_offset t)
  ++ 1 :: oasis_write_unsigned_integer (prop_name_offset t)
  ++ 1 :: oasis_write_unsigned_integer (prop_string_offset t)
  ++ [1; 0; 1; 0].

Definition pad_length (t : TableOffsets) : Z :=
  252 - Z.of_nat (length (table_offsets_bytes t)).

(** The stream of a writer is in file mode. *)
Definition to_file (w : Writer) : Prop := cursor (w_out w) = None.

(** ** The records of a GDSII file *)

(** [buffer[2]] and [buffer[3]] of a record. *)
Definition record_type (record : bytes) : Z := buf_get record 2.

(** ** Polygons of a GDSII file *)

(** [data_length] of a record, from its length and [buffer[3]]. *)
Definition record_data_length (record : bytes) : Z :=
  (gds_decode (Z.of_nat (length record)) record).1.

(** The points that the XY records among [records] supply. *)
Definition xy_points (records : list bytes) : Z :=
  foldr (fun record n =>
           (if record_type record =? GdsiiRecord_code XY
            then record_data_length record / 2 else 0) + n) 0 records.

(** The polygon at [p] is the open one and holds [n] points. *)
Definition polygon_open (p : ptr) (n : Z) (s : GdsState) : Prop :=
  g_polygon s = Some p /\
  exists poly, polygons (g_store s) !! p = Some poly /\ pa_size (poly_point_array poly) = n.

Section Read_gds_polygons.
Context {E : Externals}.

(** The size of the open polygon after [records], with the wrap of the
    [size] field. *)
Definition xy_size (n : Z) (records : list bytes) : Z :=
  foldl (fun n record =>
           if record_type record =? GdsiiRecord_code XY
           then uint64 (n + record_data_length record / 2) else n) n records.

(** The records between the opening and the closing of an element. *)
Definition inside_element (record : bytes) : Prop :=
  (4 <= length record)%nat /\
  record_type record <> GdsiiRecord_code BOUNDARY /\
  record_type record <> GdsiiRecord_code BOX /\
  record_type record <> GdsiiRecord_code ENDEL /\
  record_type record <> GdsiiRecord_code ENDLIB.

End Read_gds_polygons.

(** The cell at [cp] is one of [cell_array] and its name is [k]. *)
Definition cell_named (st : Store) (cell_array : list ptr) (k : bytes) (cp : ptr) : Prop :=
  cp ∈ cell_array /\
  exists cell, cells st !! cp = Some cell /\ c_str <$> cell_name cell = Some k.

(** What the inner loop of ENDLIB makes of a reference. *)
Definition resolved (m : gmap bytes ptr) (ref ref' : Reference) : Prop :=
  exists n, ref_union ref = RU_name n /\
    match m !! c_str n with
    | Some cp => ref' = ref_set_target ReferenceType_Cell (RU_cell cp) ref
    | None => ref' = ref
    end.

(** The references that the loops of ENDLIB visit, in order. *)
Definition all_references (st : Store) (cs : list ptr) : list ptr :=
  flat_map (fun c => from_option cell_reference_array [] (cells st !! c)) cs.

(** ** Bodies for the collaborators

    To run the functions above on concrete inputs the collaborators need
    bodies.  Those below follow the specification where it describes the
    collaborator and are otherwise the simplest possible; no general
    statement depends on them. *)

(** [llround]: to the nearest integer, halves away from zero. *)
Definition example_llround (x : double) : Z :=
  match Prim2SF x with
  | S754_finite negative m e =>
      let magnitude :=
        if 0 <=? e then Z.pos m * 2 ^ e
        else let d := 2 ^ (- e) in
             Z.pos m / d + (if d <=? 2 * (Z.pos m mod d) then 1 else 0) in
      if negative then - magnitude else magnitude
  | _ => 0
  end.

(** Specification, section 3: rotations 0, ±π/2, ±π, ±3π/2. *)
Definition example_is_multiple_of_pi_over_2 (angle : double) : option Z :=
  let quarter (m : Z) := PrimFloat.mul (double_of_Z m) (PrimFloat.mul M_PI 0.5%float) in
  find (fun m => PrimFloat.eqb angle (quarter m)) [0; 1; -1; 2; -2; 3; -3].

(** Specification, section 3: "total occurrences including the origin
    instance". *)
Definition example_get_size (r : Repetition) : Z :=
  match rep_type r with
  | RepetitionType_None => 1
  | RepetitionType_Rectangular | RepetitionType_Regular => rep_columns r * rep_rows r
  | RepetitionType_Explicit => Z.of_nat (length (rep_offsets r)) + 1
  end.

(** Specification, section 4.1: "varint whose low bit is the sign and
    whose remaining bits are magnitude". *)
Definition example_write_integer (v : Z) : bytes :=
  oasis_write_unsigned_integer (if v <? 0 then 2 * (- v) + 1 else 2 * v).

(** The eight bytes of a double, least significant first. *)
Definition double_bits (x : double) : Z :=
  match Prim2SF x with
  | S754_zero negative => if negative then 2 ^ 63 else 0
  | S754_infinity negative => (if negative then 2 ^ 63 else 0) + 2047 * 2 ^ 52
  | S754_nan => 2047 * 2 ^ 52 + 2 ^ 51
  | S754_finite negative m e =>
      (if negative then 2 ^ 63 else 0)
      + (if Z.pos m <? 2 ^ 52 then Z.pos m
         else (e + 1075) * 2 ^ 52 + (Z.pos m - 2 ^ 52))
  end.

(** Specification, section 4.1: type 7, "IEEE-double (little-endian
    64-bit)". *)
Definition example_write_real (x : double) : bytes :=
  7 :: rev (be_bytes 8 (double_bits x)).

(** Specification, section 4.1: "sign bit, 7-bit exponent biased by 64,
    56-bit fraction" in base 16. *)
Definition example_gdsii_real_to_double (w : Z) : double :=
  let mantissa := w mod 2 ^ 56 in
  let exponent := (w / 2 ^ 56) mod 128 in
  let value := SF2Prim (binary_normalize prec emax mantissa (4 * (exponent - 64 - 14)) false) in
  if w / 2 ^ 63 =? 0 then value else PrimFloat.opp value.

(** The entries of a map by their numbers; for the table of the text
    strings this is the order in which the texts were first met. *)
Definition earlier_item (a b : bytes * Z) : Prop := a.2 <= b.2.

#[local] Instance earlier_item_dec (a b : bytes * Z) : Decision (earlier_item a b) :=
  Z_le_dec a.2 b.2.

Definition example_externals : Externals := {|
  is_multiple_of_pi_over_2 := example_is_multiple_of_pi_over_2;
  llround := example_llround;
  Repetition_get_size := example_get_size;
  OASIS_CONFIG_USE_CBLOCK := 512;
  oasis_write_integer := example_write_integer;
  oasis_write_real := example_write_real;
  oasis_write_repetition := fun _ _ => [];
  properties_to_oas := fun _ state => ([], state);
  Polygon_to_oas := fun _ state => ([], state);
  FlexPath_to_oas := fun _ state => ([], state);
  RobustPath_to_oas := fun _ state => ([], state);
  FlexPath_to_polygons := fun _ => [];
  RobustPath_to_polygons := fun _ => [];
  zlib_deflate := fun _ data => (true, true, data);
  gdsii_real_to_double := example_gdsii_real_to_double;
  gdsii_real_from_double := fun _ => 0;
  set_gds_property := fun properties key value =>
    mkProperty [] [PropertyValue_UnsignedInteger key; PropertyValue_String value]
      :: properties;
  FlexPath_segment := fun path points _ =>
    fp_set_spine (mkCurve (curve_tolerance (fp_spine path))
                    (curve_point_array (fp_spine path) ++ points)) path;
  Cell_to_gds := fun _ _ _ _ _ _ => [];
  RawCell_to_gds := fun rawcell => rawcell;
  Map_items := fun m => merge_sort earlier_item (map_to_list m);
  Map_items_perm := fun m => merge_sort_Permutation earlier_item (map_to_list m)
|}.

(** Types 0 and 1 of the OASIS reals: a positive or a negative integer. *)
Definition example_read_real (i : OasisInput) : option (double * OasisInput) :=
  '(type, i) ← oasis_read_unsigned_integer i;
  '(v, i) ← oasis_read_unsigned_integer i;
  match type with
  | 0 => Some (double_of_Z v, i)
  | 1 => Some (double_of_Z (- v), i)
  | _ => None
  end.

Definition example_read_externals : ReadExternals := {|
  oasis_read_real := example_read_real;
  oasis_read_repetition := fun _ _ _ => None;
  zlib_inflate := fun data size => (true, true, take (Z.to_nat size) data);
  rectangle := fun corner1 corner2 layer datatype =>
    mkPolygon layer datatype
      (mkPointArray 4
         (map Some [vx corner1; vy corner1; vx corner2; vy corner1;
                    vx corner2; vy corner2; vx corner1; vy corner2]))
      Repetition_zero []
|}.

(** ** Inputs of the examples *)

(** Scenario S2 of the specification: a cell with one reference by name
    to [C], at (3, 4) micrometres, rotated by a quarter turn; and the
    writer about to write the reference: nothing written yet, the cell
    [C] numbered 1, a thousand database units to the user unit. *)
Definition S2_reference : Reference :=
  mkReference ReferenceType_Name (RU_name [67])
    (mkVec2 (PrimFloat.mul 3 micro) (PrimFloat.mul 4 micro))
    (PrimFloat.mul M_PI 0.5%float) 1%float false Repetition_zero [].

Definition S2_store : Store :=
  mkStore [mkCell (Some [80]) [] [] [] [0%nat] [] [] 0] [] [] [S2_reference] [].

Definition S2_library : Library :=
  mkLibrary (Some [76]) micro (PrimFloat.div micro 1000) [0%nat] [] [].



(** A label "t" on layer 5 with text type 2. *)
Definition S2_label : Label :=
  mkLabel (Some [116]) 5 2 (mkVec2 (PrimFloat.mul 3 micro) (PrimFloat.mul 4 micro))
    Anchor_SW 0 1 false Repetition_zero [] 0.

(** A GDSII record: the length, the record type, the data type and the
    payload. *)
Definition gds_record (type dtype : Z) (payload : bytes) : bytes :=
  be_bytes 2 (4 + Z.of_nat (length payload)) ++ [type; dtype] ++ payload.

Definition gds_preamble : bytes :=
  gds_record 0 2 [2; 88]
  ++ gds_record 1 2 (repeat 0 24)
  ++ gds_record 2 6 [76; 73; 66; 0]
  ++ gds_record 3 5 [62; 65; 137; 55; 75; 198; 167; 240; 57; 68; 184; 47; 160; 155; 90; 84].

(** Scenario S3: a cell [TOP] with a reference to [X], then the cell [X],
    then ENDLIB. *)
Definition S3_records : list bytes :=
  [gds_record 0 2 [2; 88];
   gds_record 1 2 (repeat 0 24);
   gds_record 2 6 [76; 73; 66; 0];
   gds_record 3 5 [62; 65; 137; 55; 75; 198; 167; 240; 57; 68; 184; 47; 160; 155; 90; 84];
   gds_record 5 2 (repeat 0 24);
   gds_record 6 6 [84; 79; 80; 0];
   gds_record 10 0 [];
   gds_record 18 6 [88; 0];
   gds_record 16 3 [0; 0; 0; 10; 0; 0; 0; 20];
   gds_record 17 0 [];
   gds_record 7 0 [];
   gds_record 5 2 (repeat 0 24);
   gds_record 6 6 [88; 0];
   gds_record 7 0 []].

Definition S3_file : bytes := concat S3_records ++ gds_record 4 0 [].

(** The same file cut before ENDLIB. *)
Definition truncated_file : bytes := concat S3_records.

(** A square of four XY points, the last one repeating the first. *)
Definition square_xy : bytes :=
  gds_record 16 3
    [0; 0; 0; 0; 0; 0; 0; 0;   0; 0; 0; 10; 0; 0; 0; 0;
     0; 0; 0; 10; 0; 0; 0; 10;   0; 0; 0; 0; 0; 0; 0; 0].

(** The records of a polygon between BOUNDARY and ENDEL. *)
Definition square_body : list bytes :=
  [gds_record 13 2 [0; 1]; gds_record 14 2 [0; 0]; square_xy].

(** A file whose only polygon is not closed by ENDEL: the structure ends
    right after the XY record. *)
Definition unclosed_polygon_file : bytes :=
  gds_preamble
  ++ gds_record 5 2 (repeat 0 24)
  ++ gds_record 6 6 [65; 0]
  ++ gds_record 8 0 []
  ++ concat square_body
  ++ gds_record 7 0 []
  ++ gds_record 4 0 [].

(** The start of an OASIS file: the magic bytes, START, the version, the
    unit (1000 per micrometre), and the table offsets, here at the start. *)
Definition oas_preamble : bytes :=
  oasis_magic ++ [3; 49; 46; 48] ++ [0; 232; 7] ++ [0] ++ repeat 0 12.

(** Two cells: [A] with a text on text layer 5, and [B] with a text that
    gives no text layer. *)
Definition two_cells_file : bytes :=
  oas_preamble
  ++ [14; 1; 65] ++ [19; 65; 1; 116; 5]
  ++ [14; 1; 66] ++ [19; 64; 1; 117].

(** A CBLOCK with compression type 1, five bytes once inflated, held in
    three bytes, and a cell after it. *)
Definition cblock_file : bytes :=
  oas_preamble ++ [34; 1; 5; 3; 9; 9; 9] ++ [14; 1; 65].

Section Examples.

#[local] Existing Instance example_externals.
#[local] Existing Instance example_read_externals.

(** The state of [read_gds] when the BOUNDARY record of a first cell [A]
    is about to be read. *)
Definition in_cell_A : GdsState :=
  default (GdsState_init [])
    (read_gds_turns 0 0 [gds_record 5 2 (repeat 0 24); gds_record 6 6 [65; 0]]
       (GdsState_init [])).

(** The state of [read_oas] on [two_cells_file] when the CELL record of
    the second cell has just been recognised: the first cell and its text
    are read. *)
Definition before_cell_B : OasState :=
  match read_oas_start (take 42 two_cells_file) 0 with
  | inl (Ok s) =>
      match read_oas_loop 3 s with
      | Ok s => o_with_in (mkOasisInput two_cells_file 43 None) s
      | Stop _ _ => s
      end
  | _ => mkOasState (mkOasisInput [] 0 None) Modal_init Library_zero Store_empty None
           Slot_library 1 []
  end.

(** The state of [read_oas] on [cblock_file] when the CBLOCK record has
    just been recognised. *)
Definition at_cblock : OasState :=
  match read_oas_start (take 34 cblock_file) 0 with
  | inl (Ok s) => o_with_in (mkOasisInput cblock_file 35 None) s
  | _ => mkOasState (mkOasisInput [] 0 None) Modal_init Library_zero Store_empty None
           Slot_library 1 []
  end.

End Examples.

Section Gds_units.
Context {E : Externals}.

(** The [while (gdsii_read_record(in, buffer) > 0)] loop of [gds_units]:
    the records are read into [buffer] one after the other, without any
    byte swap, up to the first whose [buffer[2]] is 0x03; of that one the
    first two 64-bit words are swapped and decoded. *)
Fixpoint gds_units_loop (records : list bytes) (buffer : bytes) (unit precision : double)
    : Z * double * double * list string :=
  match records with
  | [] => (-1, unit, precision, ["[GDSTK] GDSII file missing units definition."%string])
  | record :: rest =>
      let buffer := buf_load record buffer in
      if buf_get buffer 2 =? 3 then
        let buffer := take 4 buffer ++ big_endian_swap 8 2 (drop 4 buffer) in
        let precision := gdsii_real_to_double (data64 buffer 1) in
        let unit := PrimFloat.div precision (gdsii_real_to_double (data64 buffer 0)) in
        (0, unit, precision, [])
      else gds_units_loop rest buffer unit precision
  end.

(** [gds_units].  [file] is the content of the file, [None] when [fopen]
    fails; [buffer] is what the array [buffer] holds on entry; [unit] and
    [precision] are the values of the two reference arguments on entry.
    The result is the value returned, the two arguments as the call
    leaves them, and the lines sent to standard error. *)
Definition gds_units (buffer : bytes) (file : option bytes) (unit precision : double)
    : Z * double * double * list string :=
  match file with
  | None => (-1, unit, precision, ["[GDSTK] Unable to open GDSII file for input."%string])
  | Some input => gds_units_loop (gdsii_records input) buffer unit precision
  end.

End Gds_units.

Section Oas_precision.
Context {R : ReadExternals}.

(** [oas_precision].  [file] is the content of the file, [None] when
    [fopen] fails: the function then calls [fclose] on the null stream.
    The result is the value returned, [precision] as the call leaves it,
    and the lines sent to standard error. *)
Definition oas_precision (file : option bytes) (precision : double)
    : Run (Z * double * list string) :=
  match file with
  | None => Stop UndefinedBehaviour ["[GDSTK] Unable to open OASIS file for input."%string]
  | Some content =>
      let i := mkOasisInput content 0 None in
      let '(header, i) := fread 14 i in
      if decide (header = oasis_magic) then
        match oasis_read_string i with
        | None => Stop UndefinedBehaviour []
        | Some (version, i) =>
            if (length version <? 3)%nat then Stop UndefinedBehaviour []
            else
              let stderr :=
                if decide (take 3 version = [49; 46; 48]) then []
                else ["[GDSTK] Unsupported OASIS file version."%string] in
              match oasis_read_real i with
              | None => Stop UndefinedBehaviour stderr
              | Some (real, _) => Ok (0, PrimFloat.div micro real, stderr)
              end
        end
      else Ok (-1, precision, ["[GDSTK] Invalid OASIS header found."%string])
  end.

End Oas_precision.

(** ** More on [read_gds]: the end of the library *)

(** The cell at [cp] is the last one of [cell_array] whose name is [k]. *)
Definition last_cell_named (st : Store) (cell_array : list ptr) (k : bytes) (cp : ptr) : Prop :=
  exists before after,
    cell_array = before ++ cp :: after /\
    (exists cell, cells st !! cp = Some cell /\ c_str <$> cell_name cell = Some k) /\
    forall c cell, c ∈ after -> cells st !! c = Some cell -> c_str <$> cell_name cell <> Some k.

(** ** More on [read_gds]: how the cells of the library come about *)

(** The cells that the STRNAME records among [records] append to the
    library: [current] is the cell that is open, [next] the pointer that
    the next BGNSTR gets. *)
Fixpoint registered (records : list bytes) (current : option ptr) (next : ptr) : list ptr :=
  match records with
  | [] => []
  | record :: rest =>
      if record_type record =? GdsiiRecord_code BGNSTR then registered rest (Some next) (S next)
      else if record_type record =? GdsiiRecord_code STRNAME then
        match current with
        | Some c => c :: registered rest current next
        | None => registered rest current next
        end
      else registered rest current next
  end.

(** The cell that is open after [records]. *)
Fixpoint open_cell (records : list bytes) (current : option ptr) (next : ptr) : option ptr :=
  match records with
  | [] => current
  | record :: rest =>
      if record_type record =? GdsiiRecord_code BGNSTR then open_cell rest (Some next) (S next)
      else open_cell rest current next
  end.

Section Read_gds_elements.
Context {E : Externals}.

(** The open cell is an object of the heap. *)
Definition cell_allocated (s : GdsState) : Prop :=
  forall c, g_cell s = Some c -> (c < length (cells (g_store s)))%nat.

End Read_gds_elements.

(** ** [gds_units] against [read_gds] *)

(** The two 64-bit words at the start of the payload of a record, most
    significant byte first. *)
Definition payload_word (record : bytes) (i : nat) : Z :=
  le_unsigned (rev (buf_read record (4 + 8 * i) 8)).

(** ** More on [write_oas]: the file only grows *)

(** What reached the file stays there. *)
Definition file_grows (w w' : Writer) : Prop := file (w_out w) `prefix_of` file (w_out w').

(** ** The numbers of the cells *)


(** ** More on [write_oas]: the table of offsets *)

(** The byte of [content] at the offset [offset]. *)
Definition byte_at (content : bytes) (offset : Z) : option Z := content !! Z.to_nat offset.

(** ** More on [write_oas]: the numbers of the text strings *)

(** The numbers of a table are below its size and no two strings share
    one: they are the numbers from 0 to the size of the table less 1. *)
Definition text_numbers_ok (m : gmap bytes Z) : Prop :=
  forall k v, m !! k = Some v ->
    0 <= v < Z.of_nat (size m) /\ forall k', m !! k' = Some v -> k' = k.

(** From [w] to [w'] the table stays in order and only gains strings. *)
Definition text_table_step (w w' : Writer) : Prop :=
  (text_numbers_ok (w_text_string_map w) -> text_numbers_ok (w_text_string_map w')) /\
  w_text_string_map w ⊆ w_text_string_map w'.

Section Write_oas_texts.
Context {E : Externals}.

(** The text of the label at [l] is in the table of [w]. *)
Definition label_in_table (st : Store) (l : ptr) (w : Writer) : Prop :=
  forall label text,
    labels st !! l = Some label -> label_text label = Some text ->
    is_Some (w_text_string_map w !! c_str text).

End Write_oas_texts.

(** ** [write_gds] and then [read_gds] *)

(** A record as [write_gds] frames it: the length in two bytes, the
    record type, the data type, the payload. *)
Definition framed (type dtype : Z) (payload : bytes) : bytes :=
  be_bytes 2 (4 + Z.of_nat (length payload)) ++ [type; dtype] ++ payload.

Section Write_then_read_gds.
Context {E : Externals}.

(** The file that [write_gds] makes of a library without cells. *)
Definition gds_envelope (name : bytes) (timestamp : tm) (units0 units1 : Z) : list bytes :=
  [framed 0 2 [2; 88];
   framed 1 2 (flat_map (be_bytes 2) (tm_words timestamp ++ tm_words timestamp));
   framed 2 6 (c_str name ++ (if strlen name mod 2 =? 0 then [] else [0]));
   framed 3 5 (be_bytes 8 units0 ++ be_bytes 8 units1)].

End Write_then_read_gds.

(** ** A PLACEMENT written and read back *)

(** The rotation that the PLACEMENT case of [read_oas] makes of the
    number of quarter turns. *)
Definition quarter_turns (k : Z) : double :=
  match k with
  | 1 => PrimFloat.mul M_PI 0.5%float
  | 2 => M_PI
  | 3 => PrimFloat.mul M_PI 1.5%float
  | _ => 0%float
  end.


Section Write_oas_cell_vocabulary.
Context {E : Externals}.






End Write_oas_cell_vocabulary.

(** ** More concrete inputs *)

(** The file of scenario S3 with a second cell named [X] before ENDLIB. *)
Definition two_X_records : list bytes :=
  S3_records ++ [gds_record 5 2 (repeat 0 24); gds_record 6 6 [88; 0]; gds_record 7 0 []].

Definition two_X_file : bytes := concat two_X_records ++ gds_record 4 0 [].

(** The records up to the name of a first cell [A]. *)
Definition cell_A_records : list bytes :=
  [gds_record 0 2 [2; 88]; gds_record 5 2 (repeat 0 24); gds_record 6 6 [65; 0]].

(** Two XY records of one point each: (1, 2) and (3, 4). *)
Definition xy_1_2 : bytes := gds_record 16 3 [0; 0; 0; 1; 0; 0; 0; 2].
Definition xy_3_4 : bytes := gds_record 16 3 [0; 0; 0; 3; 0; 0; 0; 4].

(** A cell [P] with the label of scenario S2, and its library. *)
Definition labelled_store : Store :=
  mkStore [mkCell (Some [80]) [] [] [] [] [0%nat] [] 0] [] [] [] [S2_label].

Definition labelled_library : Library :=
  mkLibrary (Some [76]) micro (PrimFloat.div micro 1000) [0%nat] [] [].

(** The double of a 64-bit pattern, the inverse of [double_bits]. *)
Definition bits_double (w : Z) : double :=
  let negative := negb (w / 2 ^ 63 =? 0) in
  let exponent := (w / 2 ^ 52) mod 2048 in
  let fraction := w mod 2 ^ 52 in
  SF2Prim
    (if exponent =? 0 then
       match fraction with
       | Z.pos m => S754_finite negative m (-1074)
       | _ => S754_zero negative
       end
     else if exponent =? 2047 then
       if fraction =? 0 then S754_infinity negative else S754_nan
     else
       match fraction + 2 ^ 52 with
       | Z.pos m => S754_finite negative m (exponent - 1075)
       | _ => S754_zero negative
       end).

(** The OASIS reals of types 0, 1 and 7: a positive integer, a negative
    integer and an IEEE double, least significant byte first. *)
Definition example_read_real_ieee (i : OasisInput) : option (double * OasisInput) :=
  '(type, i) ← oasis_read_unsigned_integer i;
  match type with
  | 0 => '(v, i) ← oasis_read_unsigned_integer i; Some (double_of_Z v, i)
  | 1 => '(v, i) ← oasis_read_unsigned_integer i; Some (double_of_Z (- v), i)
  | 7 => '(b, i) ← oasis_read 8 i;
         if (length b <? 8)%nat then None else Some (bits_double (le_unsigned b), i)
  | _ => None
  end.

Definition example_read_externals_ieee : ReadExternals := {|
  oasis_read_real := example_read_real_ieee;
  oasis_read_repetition := fun _ _ _ => None;
  zlib_inflate := fun data size => (true, true, take (Z.to_nat size) data);
  rectangle := @rectangle example_read_externals
|}.

(** Specification, section 4.1, the other way: the 53 bits of the double
    are moved up by at most three places to make the exponent a multiple
    of four, and fit in the 56 bits of the fraction. *)
Definition example_gdsii_real_from_double (x : double) : Z :=
  match Prim2SF x with
  | S754_finite negative m e =>
      let shift := e mod 4 in
      let exponent := (e - shift) / 4 + 78 in
      if (0 <=? exponent) && (exponent <? 128) then
        (if negative then 2 ^ 63 else 0) + exponent * 2 ^ 56 + Z.pos m * 2 ^ shift
      else 0
  | _ => 0
  end.

Definition example_externals_gds : Externals := {|
  is_multiple_of_pi_over_2 := example_is_multiple_of_pi_over_2;
  llround := example_llround;
  Repetition_get_size := example_get_size;
  OASIS_CONFIG_USE_CBLOCK := 512;
  oasis_write_integer := example_write_integer;
  oasis_write_real := example_write_real;
  oasis_write_repetition := fun _ _ => [];
  properties_to_oas := fun _ state => ([], state);
  Polygon_to_oas := fun _ state => ([], state);
  FlexPath_to_oas := fun _ state => ([], state);
  RobustPath_to_oas := fun _ state => ([], state);
  FlexPath_to_polygons := fun _ => [];
  RobustPath_to_polygons := fun _ => [];
  zlib_deflate := fun _ data => (true, true, data);
  gdsii_real_to_double := example_gdsii_real_to_double;
  gdsii_real_from_double := example_gdsii_real_from_double;
  set_gds_property := @set_gds_property example_externals;
  FlexPath_segment := @FlexPath_segment example_externals;
  Cell_to_gds := fun _ _ _ _ _ _ => [];
  RawCell_to_gds := fun rawcell => rawcell;
  Map_items := @Map_items example_externals;
  Map_items_perm := @Map_items_perm example_externals
|}.

(** A library without cells, a micrometre to the unit and a nanometre to
    the database unit; and the same library with an empty name. *)
Definition empty_library : Library :=
  mkLibrary (Some [76; 73; 66; 0]) micro (PrimFloat.div micro 1000) [] [] [].

Definition nameless_library : Library :=
  mkLibrary (Some [0]) micro (PrimFloat.div micro 1000) [] [] [].

(** A date for the two time stamps of a GDSII file. *)
Definition example_tm : tm := mktm 126 9 30 12 0 0.



Section More_examples_oas.

#[local] Existing Instance example_externals.
#[local] Existing Instance example_read_externals_ieee.

(** What follows the record byte of the PLACEMENT record that
    [write_oas] writes for the reference of scenario S2, the cell being
    the number 1. *)
Definition placement_input : bytes :=
  reference_info S2_reference :: oasis_write_unsigned_integer 1
    ++ oasis_write_integer 3000 ++ oasis_write_integer 4000.

(** [read_oas] in a cell, with a thousand database units to the unit,
    about to read those bytes. *)
Definition at_placement : OasState :=
  mkOasState (mkOasisInput placement_input 0 None) Modal_init
    (mkLibrary None micro (PrimFloat.div micro 1000) [0%nat] [] [])
    (mkStore [mkCell (Some [80]) [] [] [] [] [] [] 0] [] [] [] [])
    (Some 0%nat) Slot_library 1 [].

End More_examples_oas.

(** * Properties *)

(** ** The output stream *)

Lemma oasis_write_app (b1 b2 : bytes) (out : OasisStream) :
  oasis_write b2 (oasis_write b1 out) = oasis_write (b1 ++ b2) out.
Proof.
  unfold oasis_write. destruct out as [f [buf|]]; simpl; by rewrite <- app_assoc.
Qed.


Lemma oasis_putc_write (c : Z) (out : OasisStream) :
  oasis_putc c out = oasis_write [uint8 c] out.
Proof. reflexivity. Qed.

Lemma cursor_oasis_write (b : bytes) (out : OasisStream) :
  cursor out = None -> cursor (oasis_write b out) = None.
Proof. unfold oasis_write. intros ->. reflexivity. Qed.

Lemma cursor_fwrite (b : bytes) (out : OasisStream) : cursor (fwrite b out) = cursor out.
Proof. reflexivity. Qed.


(** ** The unsigned integers of the writer *)

Lemma varint_length (fuel : nat) (v : Z) :
  (1 <= length (varint fuel v) <= S fuel)%nat.
Proof.
  revert v. induction fuel as [|fuel IH]; intros v; simpl.
  - lia.
  - destruct (v <? 128); simpl; [lia|]. specialize (IH (v / 128)). lia.
Qed.

Lemma oasis_write_unsigned_integer_length (v : Z) :
  (1 <= length (oasis_write_unsigned_integer v) <= 10)%nat.
Proof. apply varint_length. Qed.

Lemma oasis_write_unsigned_integer_two (v : Z) :
  128 <= v < 16384 -> length (oasis_write_unsigned_integer v) = 2%nat.
Proof.
  intros Hv. unfold oasis_write_unsigned_integer, uint64.
  rewrite Z.mod_small by lia. simpl.
  destruct (v <? 128) eqn:H1; [lia|]. 
  assert (v / 128 < 128) by (apply Z.div_lt_upper_bound; lia).
  destruct (v / 128 <? 128) eqn:H2; [reflexivity|lia].
Qed.

(** ** PLACEMENT records *)

Lemma placement_rotation_bits_spec (m : Z) : placement_rotation_bits m = 2 * (m mod 4).
Proof.
  assert (Hland : forall a, 0 <= a -> Z.land 3 a = a mod 4).
  { intros a Ha. rewrite Z.land_comm. change 3 with (Z.ones 2). by rewrite Z.land_ones. }
  pose proof (Z.mod_pos_bound m 4 ltac:(lia)) as Hm.
  unfold placement_rotation_bits, uint8.
  destruct (m <? 0) eqn:Hneg.
  - pose proof (Z.rem_bound_pos_neg m 4 ltac:(lia) ltac:(lia)) as Hr.
    pose proof (Z.quot_rem' m 4) as Hq.
    rewrite Hland by lia.
    replace ((Z.rem m 4 + 4) mod 4) with (m mod 4).
    + rewrite (Z.mod_small (m mod 4)) by lia. rewrite Z.shiftl_mul_pow2 by lia. lia.
    + replace (Z.rem m 4 + 4) with (m + (1 - Z.quot m 4) * 4) by lia.
      by rewrite Z.mod_add.
  - rewrite Z.rem_mod_nonneg by lia. rewrite Hland by lia.
    rewrite Z.mod_mod by lia. rewrite (Z.mod_small (m mod 4)) by lia.
    rewrite Z.shiftl_mul_pow2 by lia. lia.
Qed.

Section Write_oas_records.
Context {E : Externals}.

Lemma with_out_out (f : OasisStream -> OasisStream) (w : Writer) :
  w_out (with_out f w) = f (w_out w).
Proof. reflexivity. Qed.

Lemma with_out_state (f : OasisStream -> OasisStream) (w : Writer) :
  w_state (with_out f w) = w_state w.
Proof. reflexivity. Qed.

Lemma call_out (f : OasisState -> bytes * OasisState) (w : Writer) :
  w_out (call f w) = oasis_write (fst (f (w_state w))) (w_out w).
Proof. unfold call. destruct (f (w_state w)). reflexivity. Qed.

Lemma reference_tail_out (ref : Reference) (w : Writer) :
  w_out (reference_tail ref w)
  = oasis_write (reference_tail_bytes ref (w_state w)) (w_out w).
Proof.
  unfold reference_tail, reference_tail_bytes.
  destruct (1 <? Repetition_get_size (ref_repetition ref));
    rewrite call_out, ?with_out_out, ?with_out_state, !oasis_write_app;
    rewrite <- ?app_assoc; reflexivity.
Qed.


(** What the body of the reference loop sends to the stream. *)
Lemma write_oas_reference_emits (st : Store) (cell_name_map : gmap bytes Z)
    (ref : Reference) (w w' : Writer) :
  ref_type ref <> ReferenceType_RawCell ->
  write_oas_reference st cell_name_map ref w = Some w' ->
  exists name,
    reference_name st ref = Some name /\
    w_out w' =
      oasis_write
        ((match placement_quadrant ref with
          | Some _ => OasisRecord_code PLACEMENT
          | None => OasisRecord_code PLACEMENT_TRANSFORM
          end)
         :: reference_info ref
         :: oasis_write_unsigned_integer (Map_get_uint64 cell_name_map name)
         ++ (match placement_quadrant ref with
             | Some _ => []
             | None => reference_transform_bytes ref
             end)
         ++ reference_tail_bytes ref (w_state w)) (w_out w).
Proof.
  intros Hraw Hw. unfold write_oas_reference in Hw.
  assert (Hbody :
    match (if PrimFloat.eqb (ref_magnification ref) 1%float
           then is_multiple_of_pi_over_2 (ref_rotation ref) else None) with
    | Some m => _
    | None => _
    end = Some w') by (destruct (ref_type ref); [exact Hw|congruence|exact Hw]).
  clear Hw. unfold reference_info, placement_quadrant.
  destruct (if PrimFloat.eqb (ref_magnification ref) 1%float
            then is_multiple_of_pi_over_2 (ref_rotation ref) else None) as [m|].
  - destruct (reference_name st ref) as [name|] eqn:Hname; [|discriminate].
    simpl in Hbody. injection Hbody as <-.
    exists name. split; [reflexivity|].
    rewrite reference_tail_out. rewrite !with_out_state, !with_out_out.
    rewrite !oasis_putc_write, !oasis_write_app. reflexivity.
  - destruct (reference_name st ref) as [name|] eqn:Hname; [|discriminate].
    simpl in Hbody. injection Hbody as <-.
    exists name. split; [reflexivity|].
    unfold reference_transform_bytes.
    destruct (PrimFloat.eqb (ref_magnification ref) 1%float),
             (PrimFloat.eqb (ref_rotation ref) 0%float); simpl;
      rewrite reference_tail_out; rewrite ?with_out_state, ?with_out_out;
      rewrite !oasis_putc_write, !oasis_write_app; simpl;
      rewrite <- ?app_assoc; reflexivity.
Qed.


(** What the body of the label loop sends to the stream. *)
Lemma write_oas_label_emits (label : Label) (w w' : Writer) :
  write_oas_label label w = Some w' ->
  exists text,
    label_text label = Some text /\
    w_out w' =
      oasis_write
        (OasisRecord_code TEXT :: label_info label
         :: oasis_write_unsigned_integer (label_index (w_text_string_map w) text)
         ++ oasis_write_unsigned_integer (label_layer label)
         ++ oasis_write_unsigned_integer (label_texttype label)
         ++ oasis_write_integer
              (llround (PrimFloat.mul (vx (label_origin label)) (scaling (w_state w))))
         ++ oasis_write_integer
              (llround (PrimFloat.mul (vy (label_origin label)) (scaling (w_state w))))
         ++ label_tail_bytes label (w_state w)) (w_out w).
Proof.
  unfold write_oas_label. intros Hw.
  destruct (label_text label) as [text|]; [|discriminate]. simpl in Hw.
  exists text. split; [reflexivity|].
  unfold label_index, label_info, label_tail_bytes.
  destruct (w_text_string_map w !! c_str text) as [i|];
    destruct (1 <? Repetition_get_size (label_repetition label));
    injection Hw as <-;
    rewrite call_out; rewrite ?with_out_state, ?with_out_out; simpl;
    rewrite !oasis_putc_write, !oasis_write_app; simpl;
    rewrite <- ?app_assoc; reflexivity.
Qed.


End Write_oas_records.

Lemma table_offsets_bytes_length (t : TableOffsets) :
  (12 <= length (table_offsets_bytes t) <= 48)%nat.
Proof.
  unfold table_offsets_bytes.
  pose proof (oasis_write_unsigned_integer_length (cell_name_offset t)).
  pose proof (oasis_write_unsigned_integer_length (text_string_offset t)).
  pose proof (oasis_write_unsigned_integer_length (prop_name_offset t)).
  pose proof (oasis_write_unsigned_integer_length (prop_string_offset t)).
  repeat (rewrite ?length_app; cbn [length]). lia.
Qed.

Lemma pad_length_bounds (t : TableOffsets) : 204 <= pad_length t <= 240.
Proof. unfold pad_length. pose proof (table_offsets_bytes_length t). lia. Qed.

(** The file after [write_oas_end], when the cursor is null. *)
Lemma write_oas_end_file (t : TableOffsets) (out : OasisStream) :
  cursor out = None ->
  file (write_oas_end t out)
  = file out ++ [OasisRecord_code END] ++ table_offsets_bytes t
      ++ oasis_write_unsigned_integer (pad_length t)
      ++ repeat 0 (Z.to_nat (pad_length t)) ++ [0].
Proof.
  destruct out as [F c]. simpl. intros ->.
  pose proof (table_offsets_bytes_length t) as Hk.
  unfold pad_length, table_offsets_bytes in *.
  unfold write_oas_end, fputc, fwrite, oasis_write, ftell. cbn [file cursor].
  revert Hk.
  generalize (oasis_write_unsigned_integer (cell_name_offset t)).
  generalize (oasis_write_unsigned_integer (text_string_offset t)).
  generalize (oasis_write_unsigned_integer (prop_name_offset t)).
  generalize (oasis_write_unsigned_integer (prop_string_offset t)).
  intros v4 v3 v2 v1 Hk.
  change (uint8 (OasisRecord_code END)) with (OasisRecord_code END).
  change (uint8 1) with 1. change (uint8 0) with 0.
  match goal with
  | |- context [uint64 (uint64 (252 + ?a) - ?b)] =>
      replace (uint64 (uint64 (252 + a) - b))
        with (252 - Z.of_nat (length (1 :: v1 ++ 1 :: v2 ++ 1 :: v3 ++ 1 :: v4 ++ [1; 0; 1; 0])))
  end.
  - repeat first [rewrite <- app_assoc | rewrite <- app_comm_cons]. reflexivity.
  - unfold uint64. rewrite Zminus_mod_idemp_l.
    repeat (rewrite ?length_app in *; cbn [length] in * ).
    rewrite Z.mod_small; lia.
Qed.

Lemma write_oas_end_length (t : TableOffsets) (out : OasisStream) :
  cursor out = None ->
  length (file (write_oas_end t out)) = (length (file out) + 256)%nat.
Proof.
  intros Hc. rewrite (write_oas_end_file t out Hc).
  pose proof (pad_length_bounds t) as Hp.
  rewrite !length_app, repeat_length.
  rewrite (oasis_write_unsigned_integer_two (pad_length t)) by lia.
  unfold pad_length in *. cbn [length]. lia.
Qed.

(** ** The cursor is null between cells *)

Lemma for_each_preserves {A S : Type} (P : S -> Prop) (body : A -> S -> option S)
    (l : list A) :
  (forall a s s', body a s = Some s' -> P s -> P s') ->
  forall s s', for_each body l s = Some s' -> P s -> P s'.
Proof.
  intros Hbody. induction l as [|a l IH]; intros s s' Hrun Hs; simpl in Hrun.
  - by injection Hrun as <-.
  - apply bind_Some in Hrun as (s1 & H1 & Hrun). eauto.
Qed.

Lemma fold_left_preserves {A S : Type} (P : S -> Prop) (body : S -> A -> S) (l : list A) :
  (forall a s, P s -> P (body s a)) ->
  forall s, P s -> P (fold_left body l s).
Proof. intros Hbody. induction l as [|a l IH]; intros s Hs; simpl; auto. Qed.

Section Write_oas_file.
Context {E : Externals}.

Lemma to_file_oasis_write (b : bytes) (w : Writer) :
  to_file w -> to_file (with_out (oasis_write b) w).
Proof. unfold to_file. simpl. apply cursor_oasis_write. Qed.

Lemma to_file_fwrite (b : bytes) (w : Writer) :
  to_file w -> to_file (with_out (fwrite b) w).
Proof. unfold to_file. simpl. auto. Qed.

Lemma to_file_call (f : OasisState -> bytes * OasisState) (w : Writer) :
  to_file w -> to_file (call f w).
Proof. unfold to_file. rewrite call_out. apply cursor_oasis_write. Qed.

Lemma to_file_polygons (polys : list Polygon) (w : Writer) :
  to_file w -> to_file (write_oas_polygons polys w).
Proof.
  unfold write_oas_polygons. apply fold_left_preserves.
  intros poly s. apply to_file_call.
Qed.

Lemma to_file_reference (st : Store) (m : gmap bytes Z) (ref : Reference) (w w' : Writer) :
  write_oas_reference st m ref w = Some w' -> to_file w -> to_file w'.
Proof.
  intros Hw Hf. destruct (decide (ref_type ref = ReferenceType_RawCell)) as [Hraw|Hraw].
  - unfold write_oas_reference in Hw. rewrite Hraw in Hw. injection Hw as <-. exact Hf.
  - destruct (write_oas_reference_emits _ _ _ _ _ Hraw Hw) as (name & _ & Hout).
    unfold to_file in *. rewrite Hout. by apply cursor_oasis_write.
Qed.

Lemma to_file_label (label : Label) (w w' : Writer) :
  write_oas_label label w = Some w' -> to_file w -> to_file w'.
Proof.
  intros Hw Hf. destruct (write_oas_label_emits _ _ _ Hw) as (text & _ & Hout).
  unfold to_file in *. rewrite Hout. by apply cursor_oasis_write.
Qed.

Lemma to_file_cblock (deflate_level : Z) (w w' : Writer) :
  write_oas_cblock deflate_level w = Some w' -> to_file w'.
Proof.
  unfold write_oas_cblock. intros Hw.
  apply bind_Some in Hw as (buf & _ & Hw).
  destruct (zlib_deflate deflate_level buf) as [[init_ok stream_end] buffer].
  injection Hw as <-. unfold to_file.
  destruct init_ok, stream_end; reflexivity.
Qed.

Lemma to_file_cell (st : Store) (m : gmap bytes Z) (use_cblock : bool)
    (deflate_level : Z) (c : ptr) (w w' : Writer) :
  write_oas_cell st m use_cblock deflate_level c w = Some w' -> to_file w -> to_file w'.
Proof.
  unfold write_oas_cell. intros Hw Hf.
  apply bind_Some in Hw as (cell & _ & Hw).
  apply bind_Some in Hw as (name & _ & Hw).
  apply bind_Some in Hw as (w1 & H1 & Hw).
  apply bind_Some in Hw as (w2 & H2 & Hw).
  apply bind_Some in Hw as (w3 & H3 & Hw).
  apply bind_Some in Hw as (w4 & H4 & Hw).
  destruct use_cblock; cbn iota in *.
  - exact (to_file_cblock _ _ _ Hw).
  - injection Hw as <-.
    eapply (for_each_preserves to_file) in H4; [exact H4| |].
    { intros l s s' Hs. apply bind_Some in Hs as (label & _ & Hs).
      exact (to_file_label _ _ _ Hs). }
    eapply (for_each_preserves to_file) in H3; [exact H3| |].
    { intros r s s' Hs. apply bind_Some in Hs as (ref & _ & Hs).
      exact (to_file_reference _ _ _ _ _ Hs). }
    apply fold_left_preserves.
    { intros path s Hs. unfold write_oas_robustpath.
      destruct (rp_gdsii_path path); [by apply to_file_call|by apply to_file_polygons]. }
    eapply (for_each_preserves to_file) in H2; [exact H2| |].
    { intros p s s' Hs Hp. apply bind_Some in Hs as (path & _ & Hs).
      injection Hs as <-. unfold write_oas_flexpath.
      destruct (fp_gdsii_path path); [by apply to_file_call|by apply to_file_polygons]. }
    eapply (for_each_preserves to_file) in H1; [exact H1| |].
    { intros p s s' Hs Hp. apply bind_Some in Hs as (poly & _ & Hs).
      injection Hs as <-. by apply to_file_call. }
    by apply to_file_oasis_write, to_file_fwrite.
Qed.

Lemma to_file_cellname (st : Store) (m : gmap bytes Properties) (c : ptr) (w w' : Writer) :
  write_oas_cellname st m c w = Some w' -> to_file w -> to_file w'.
Proof.
  unfold write_oas_cellname. intros Hw Hf.
  apply bind_Some in Hw as (cell & _ & Hw).
  apply bind_Some in Hw as (name & _ & Hw).
  injection Hw as <-.
  by apply to_file_call, to_file_fwrite, to_file_oasis_write, to_file_fwrite.
Qed.

Lemma cursor_name_item (record : OasisRecord) (item : bytes * Z) (out : OasisStream) :
  cursor out = None -> cursor (write_oas_name_item record item out) = None.
Proof.
  intros Hc. unfold write_oas_name_item.
  by apply cursor_oasis_write, cursor_oasis_write.
Qed.

Lemma cursor_propstring (value : bytes) (out : OasisStream) :
  cursor out = None -> cursor (write_oas_propstring value out) = None.
Proof. intros Hc. unfold write_oas_propstring. simpl. by apply cursor_oasis_write. Qed.

(** When the END record is reached, the stream writes to the file. *)
Lemma write_oas_body_to_file (st : Store) (lib : Library) (deflate_level flags : Z)
    (w : Writer) (t : TableOffsets) :
  write_oas_body st lib deflate_level flags = Some (w, t) -> to_file w.
Proof.
  unfold write_oas_body. intros Hw.
  apply bind_Some in Hw as ([cell_name_map cell_property_map] & _ & Hw).
  apply bind_Some in Hw as (w1 & H1 & Hw).
  apply bind_Some in Hw as (w2 & H2 & Hw).
  injection Hw as <- _.
  assert (Hf1 : to_file w1).
  { eapply (for_each_preserves to_file) in H1; [exact H1| |].
    - intros c s s'. apply to_file_cell.
    - by apply to_file_call, to_file_fwrite, to_file_oasis_write, to_file_fwrite. }
  assert (Hf2 : to_file w2).
  { eapply (for_each_preserves to_file) in H2; [exact H2| |exact Hf1].
    intros c s s'. apply to_file_cellname. }
  unfold to_file in *. cbn [w_out with_out w_state w_text_string_map].
  apply (fold_left_preserves (fun o => cursor o = None)); [intros; by apply cursor_propstring|].
  apply (fold_left_preserves (fun o => cursor o = None)); [intros; by apply cursor_name_item|].
  apply (fold_left_preserves (fun o => cursor o = None)); [intros; by apply cursor_name_item|].
  exact Hf2.
Qed.

(** C4: the file that [Library::write_oas] writes is what was written up
    to the END record ([write_oas_body]: its length is the offset of the
    END byte), then the END byte, the six entries of the table of offsets,
    the pad length as one unsigned integer, that many zero bytes, and a
    last zero byte; its length is the offset of the END byte plus 256. *)
Theorem write_oas_file_length (st : Store) (lib : Library) (tolerance : double)
    (deflate_level flags : Z) (content : bytes) (stderr : list string) :
  write_oas st lib true tolerance deflate_level flags = Some (Some content, stderr) ->
  exists (w : Writer) (t : TableOffsets),
    write_oas_body st lib deflate_level flags = Some (w, t) /\
    let before_end := file (w_out w) in
    content = before_end ++ [OasisRecord_code END] ++ table_offsets_bytes t
                ++ oasis_write_unsigned_integer (pad_length t)
                ++ repeat 0 (Z.to_nat (pad_length t)) ++ [0] /\
    length content = (length before_end + 256)%nat /\
    last content = Some 0.
Proof.
  unfold write_oas. intros Hw.
  apply bind_Some in Hw as ([w t] & Hbody & Hw).
  assert (Hcontent : file (write_oas_end t (w_out w)) = content) by congruence.
  clear Hw.
  pose proof (write_oas_body_to_file _ _ _ _ _ _ Hbody) as Hf.
  pose proof (write_oas_end_length t _ Hf) as Hlen.
  rewrite Hcontent in Hlen.
  rewrite (write_oas_end_file t _ Hf) in Hcontent.
  exists w, t. split; [exact Hbody|]. cbv zeta.
  split; [|split].
  - by rewrite <- Hcontent.
  - exact Hlen.
  - rewrite <- Hcontent. rewrite !app_assoc. apply last_snoc.
Qed.

End Write_oas_file.

Lemma gdsii_read_record_length (input record rest : bytes) :
  gdsii_read_record input = Some (record, rest) ->
  (4 <= length record)%nat /\ (length rest < length input)%nat.
Proof.
  unfold gdsii_read_record.
  destruct input as [|b0 [|b1 [|b2 [|b3 body]]]]; try discriminate.
  destruct (256 * b0 + b1 <? 4) eqn:H4; [discriminate|].
  destruct (Z.of_nat (length body) <? 256 * b0 + b1 - 4) eqn:Hb; [discriminate|].
  intros [= <- <-]. cbn [length]. rewrite length_drop. lia.
Qed.

Lemma gdsii_records_fuel_length (fuel : nat) (input : bytes) :
  Forall (fun record => (4 <= length record)%nat) (gdsii_records_fuel fuel input).
Proof.
  revert input. induction fuel as [|fuel IH]; intros input; simpl; [constructor|].
  destruct (gdsii_read_record input) as [[record rest]|] eqn:Hr; [|constructor].
  constructor; [|apply IH]. exact (proj1 (gdsii_read_record_length _ _ _ Hr)).
Qed.

(** The fuel of [gdsii_records] is never used up: more of it gives the
    same records. *)
Lemma gdsii_records_fuel_enough (fuel : nat) (input : bytes) :
  (length input <= fuel)%nat ->
  gdsii_records_fuel fuel input = gdsii_records input.
Proof.
  unfold gdsii_records.
  remember (length input) as n eqn:Hn. revert input fuel Hn.
  induction (lt_wf n) as [n _ IH]. intros input fuel -> Hle.
  destruct fuel as [|fuel].
  - assert (length input = 0%nat) as Hz by lia. rewrite Hz. reflexivity.
  - destruct (length input) as [|k] eqn:Hk.
    + destruct input; [reflexivity|discriminate].
    + simpl. destruct (gdsii_read_record input) as [[record rest]|] eqn:Hr; [|reflexivity].
      f_equal. pose proof (gdsii_read_record_length _ _ _ Hr) as [_ Hlt].
      rewrite (IH (length rest) ltac:(lia) rest fuel eq_refl ltac:(lia)).
      rewrite (IH (length rest) ltac:(lia) rest k eq_refl ltac:(lia)).
      reflexivity.
Qed.

Lemma gdsii_records_length (input : bytes) :
  Forall (fun record => (4 <= length record)%nat) (gdsii_records input).
Proof. apply gdsii_records_fuel_length. Qed.

(** Loading a record leaves its header in the buffer. *)
Lemma gds_load_header (record : bytes) (s : GdsState) (i : nat) :
  (4 <= length record)%nat -> (i < 4)%nat ->
  buf_get (g_buffer (gds_load record s).2) i = buf_get record i.
Proof.
  intros Hlen Hi. unfold gds_load, gds_decode.
  destruct record as [|b0 [|b1 [|b2 [|b3 body]]]]; cbn [length] in Hlen; try lia.
  remember (buf_load (b0 :: b1 :: b2 :: b3 :: body) (g_buffer s)) as buf eqn:Hbuf.
  assert (Hhead : exists tail, buf = b0 :: b1 :: b2 :: b3 :: tail).
  { subst buf. unfold buf_load. eexists. reflexivity. }
  destruct Hhead as [tail ->].
  assert (Hget : forall X : bytes,
            buf_get (take 4 (b0 :: b1 :: b2 :: b3 :: tail) ++ X) i
            = buf_get (b0 :: b1 :: b2 :: b3 :: body) i).
  { intros X. unfold buf_get. destruct i as [|[|[|[|i]]]]; try reflexivity; lia. }
  assert (Hsame : buf_get (b0 :: b1 :: b2 :: b3 :: tail) i
                  = buf_get (b0 :: b1 :: b2 :: b3 :: body) i).
  { unfold buf_get. destruct i as [|[|[|[|i]]]]; try reflexivity; lia. }
  destruct (GdsiiDataType_of_code _) as [[]|]; cbn [snd g_buffer set_buffer]; auto.
Qed.

Lemma GdsiiRecord_of_code_inv (b : Z) (r : GdsiiRecord) (name : string) :
  GdsiiRecord_of_code b = Some (r, name) -> b = GdsiiRecord_code r.
Proof.
  unfold GdsiiRecord_of_code. destruct (0 <=? b) eqn:Hb; [|discriminate].
  intros H. assert (Z.of_nat (Z.to_nat b) = GdsiiRecord_code r); [|lia].
  revert H. generalize (Z.to_nat b). intros n.
  do 60 (destruct n as [|n]; [intros [= <- <-]; reflexivity|]).
  discriminate.
Qed.

Lemma is_ENDLIB_spec (buf : bytes) :
  is_ENDLIB buf = true <-> buf_get buf 2 = GdsiiRecord_code ENDLIB.
Proof.
  unfold is_ENDLIB. split.
  - destruct (GdsiiRecord_of_code (buf_get buf 2)) as [[[] name]|] eqn:H; try discriminate.
    intros _. by apply GdsiiRecord_of_code_inv in H.
  - intros ->. reflexivity.
Qed.

Section Read_gds_end_of_file.
Context {E : Externals}.

Lemma read_gds_loop_without_ENDLIB (unit tolerance : double) (records : list bytes) :
  Forall (fun record => (4 <= length record)%nat) records ->
  Forall (fun record => record_type record <> GdsiiRecord_code ENDLIB) records ->
  forall s lib st stderr,
    read_gds_loop unit tolerance records s = Some (lib, st, stderr) ->
    lib = Library_zero.
Proof.
  induction records as [|record records IH]; intros Hlen Hno s lib st stderr Hrun.
  - simpl in Hrun. congruence.
  - apply Forall_cons in Hlen as [Hlen1 Hlen]. apply Forall_cons in Hno as [Hno1 Hno].
    simpl in Hrun.
    pose proof (gds_load_header record s 2 Hlen1 ltac:(lia)) as Hty.
    destruct (gds_load record s) as [data_length s1]. simpl in Hty.
    destruct (is_ENDLIB (g_buffer s1)) eqn:Hend.
    + apply is_ENDLIB_spec in Hend. unfold record_type in Hno1. congruence.
    + apply bind_Some in Hrun as (s2 & _ & Hrun). eauto.
Qed.

(** C9: when no record of the file is ENDLIB, a run of [read_gds] that
    has a result returns [Library{0}], whatever was read: only the ENDLIB
    case returns the library that was filled. *)
Theorem read_gds_without_ENDLIB (buffer input : bytes) (unit tolerance : double)
    (lib : Library) (st : Store) (stderr : list string) :
  Forall (fun record => record_type record <> GdsiiRecord_code ENDLIB) (gdsii_records input) ->
  read_gds buffer (Some input) unit tolerance = Some (lib, st, stderr) ->
  lib = Library_zero.
Proof.
  intros Hno Hrun. unfold read_gds in Hrun.
  eapply read_gds_loop_without_ENDLIB; [apply gdsii_records_length|exact Hno|exact Hrun].
Qed.

End Read_gds_end_of_file.

Lemma gds_load_data_length (record : bytes) (s : GdsState) :
  (4 <= length record)%nat ->
  (gds_load record s).1 = record_data_length record.
Proof.
  intros Hlen. unfold record_data_length, gds_load, gds_decode.
  destruct record as [|b0 [|b1 [|b2 [|b3 body]]]]; cbn [length] in Hlen; try lia.
  change (buf_get (buf_load (b0 :: b1 :: b2 :: b3 :: body) (g_buffer s)) 3) with b3.
  change (buf_get (b0 :: b1 :: b2 :: b3 :: body) 3) with b3.
  destruct (GdsiiDataType_of_code b3) as [[]|]; reflexivity.
Qed.

Lemma gds_load_state (record : bytes) (s : GdsState) :
  g_polygon (gds_load record s).2 = g_polygon s /\
  g_store (gds_load record s).2 = g_store s.
Proof.
  unfold gds_load. destruct (gds_decode _ _). split; reflexivity.
Qed.

Ltac crunch H :=
  repeat match type of H with
  | (_ ≫= _) = Some _ => apply bind_Some in H as (? & ? & H)
  | (let '(_, _) := ?x in _) = Some _ => destruct x eqn:?
  | (if ?b then _ else _) = Some _ => destruct b eqn:?
  | match ?x with _ => _ end = Some _ => destruct x eqn:?
  | Some (match ?x with _ => _ end) = Some _ => destruct x eqn:?
  | None = Some _ => discriminate H
  end.

Section Read_gds_polygons.
Context {E : Externals}.

#[local] Opaque scaled double_of_Z data16 data32 data64 str buf_read gds_string
  gds_xy_path gds_xy_reference pa_write hex2 String.append.

Lemma read_gds_record_polygon (unit tolerance : double) (data_length : Z)
    (s s' : GdsState) (p : ptr) (n : Z) :
  let code := buf_get (g_buffer s) 2 in
  code <> GdsiiRecord_code BOUNDARY -> code <> GdsiiRecord_code BOX ->
  code <> GdsiiRecord_code ENDEL ->
  polygon_open p n s ->
  read_gds_record unit tolerance data_length s = Some s' ->
  polygon_open p (if code =? GdsiiRecord_code XY then uint64 (n + data_length / 2) else n) s'.
Proof.
  intros code Hb Hx He (Hp & poly & Hpoly & <-) Hstep.
  unfold read_gds_record in Hstep. fold code in Hstep.
  destruct (GdsiiRecord_of_code code) as [[r name]|] eqn:Hcode.
  - apply GdsiiRecord_of_code_inv in Hcode.
    destruct r; try congruence; rewrite Hcode; cbn [fmap option_fmap option_map fst] in Hstep;
      match goal with
      | |- context [?a =? ?b] =>
          let v := eval vm_compute in (a =? b) in change (a =? b) with v
      end; cbn iota;
      rewrite ?Hp in Hstep; cbn beta iota in Hstep.
    all: try (injection Hstep as <-; split; [exact Hp|exists poly; split; [exact Hpoly|reflexivity]]).
    all: try match type of Hstep with
             | context [gds_xy_polygon] =>
                 rewrite Hpoly in Hstep; cbn [mbind option_bind] in Hstep;
                 unfold gds_xy_polygon in Hstep;
                 destruct (_ <=? _) in Hstep; [|discriminate Hstep];
                 cbn [mbind option_bind] in Hstep
             | context [set_gds_property] =>
                 destruct (data_length =? 0) in Hstep; [discriminate Hstep|];
                 cbn [g_polygon set_buffer] in Hstep; rewrite Hp in Hstep
             end.
    all: crunch Hstep.
    all: unfold new_cell, new_polygon, new_flexpath, new_reference, new_label in *.
    all: try match goal with H : (_, _) = (_, _) |- _ => injection H as <- <- end.
    all: try (injection Hstep as <-).
    all: try match goal with
             | H : polygons (g_store _) !! _ = Some ?x,
               H0 : gds_xy_polygon _ _ _ ?x = Some _ |- _ =>
                 assert (x = poly) as -> by congruence;
                 unfold gds_xy_polygon in H0;
                 destruct (_ <=? _) in H0; [|discriminate H0]; injection H0 as <-
             end.
    all: unfold polygon_open in *.
    all: repeat match goal with
                | |- context [match g_cell ?x with _ => _ end] => destruct (g_cell x)
                | |- context [match g_reference ?x with _ => _ end] => destruct (g_reference x)
                | |- context [match g_label ?x with _ => _ end] => destruct (g_label x)
                | |- context [match g_path ?x with _ => _ end] => destruct (g_path x)
                end.
    all: cbn [g_polygon g_store with_store with_library set_cell set_polygon set_path
                set_reference set_label set_factor set_width set_key set_buffer gds_log
                polygons alter_cell alter_polygon alter_flexpath alter_reference
                alter_label].
    all: rewrite ?list_lookup_alter_eq.
    all: rewrite ?Hpoly.
    all: split; [assumption|eexists; split; [reflexivity|reflexivity]].
    all: split; [assumption|eexists; split; [reflexivity|reflexivity]].
  - cbn in Hstep. injection Hstep as <-.
    assert ((code =? GdsiiRecord_code XY) = false) as ->.
    { apply Z.eqb_neq. intros Heq. unfold GdsiiRecord_of_code in Hcode.
      rewrite Heq in Hcode. discriminate. }
    split; [exact Hp|exists poly; split; [exact Hpoly|reflexivity]].
Qed.

Lemma read_gds_record_opens_polygon (unit tolerance : double) (data_length : Z)
    (s s' : GdsState) :
  let code := buf_get (g_buffer s) 2 in
  code = GdsiiRecord_code BOUNDARY \/ code = GdsiiRecord_code BOX ->
  read_gds_record unit tolerance data_length s = Some s' ->
  polygon_open (length (polygons (g_store s))) 0 s'.
Proof.
  intros code Hcode Hstep. unfold read_gds_record in Hstep. fold code in Hstep.
  assert (Hbody :
    (let '(p, st) := new_polygon (g_store s) in
     let st := match g_cell s with
               | Some c => alter_cell (cell_append_polygon p) c st
               | None => st
               end in
     Some (set_polygon (Some p) (with_store (fun _ => st) s))) = Some s')
    by (destruct Hcode as [Hc|Hc]; rewrite Hc in Hstep; exact Hstep).
  clear Hstep. unfold new_polygon in Hbody. injection Hbody as <-.
  unfold polygon_open. split; [reflexivity|].
  exists Polygon_zero. split; [|reflexivity].
  destruct (g_cell s); cbn; by apply list_lookup_middle.
Qed.

Lemma read_gds_record_closes_polygon (unit tolerance : double) (data_length : Z)
    (s s' : GdsState) (p : ptr) (poly : Polygon) :
  buf_get (g_buffer s) 2 = GdsiiRecord_code ENDEL ->
  g_polygon s = Some p ->
  polygons (g_store s) !! p = Some poly ->
  read_gds_record unit tolerance data_length s = Some s' ->
  g_polygon s' = None /\
  polygons (g_store s') !! p
  = Some (poly_set_point_array
            (mkPointArray (uint64 (pa_size (poly_point_array poly) - 1))
               (pa_items (poly_point_array poly))) poly).
Proof.
  intros Hcode Hp Hpoly Hstep. unfold read_gds_record in Hstep.
  rewrite Hcode in Hstep. cbn [fmap option_fmap option_map fst] in Hstep.
  change (GdsiiRecord_of_code (GdsiiRecord_code ENDEL)) with (Some (ENDEL, "ENDEL"%string))
    in Hstep.
  cbn beta iota in Hstep. rewrite Hp in Hstep. injection Hstep as <-.
  split; [reflexivity|].
  cbn [g_polygon g_store with_store set_polygon set_path set_reference set_label
         polygons alter_polygon].
  by rewrite list_lookup_alter_eq, Hpoly.
Qed.

Lemma read_gds_turns_polygon (unit tolerance : double) (records : list bytes) :
  Forall inside_element records ->
  forall (s s' : GdsState) (p : ptr) (n : Z),
    polygon_open p n s ->
    read_gds_turns unit tolerance records s = Some s' ->
    polygon_open p (xy_size n records) s'.
Proof.
  induction records as [|record records IH]; intros Hin s s' p n Hopen Hrun.
  - simpl in Hrun. injection Hrun as <-. exact Hopen.
  - apply Forall_cons in Hin as [(Hlen & Hb & Hx & He & _) Hin].
    simpl in Hrun.
    pose proof (gds_load_header record s 2 Hlen ltac:(lia)) as Hty.
    pose proof (gds_load_data_length record s Hlen) as Hdl.
    pose proof (gds_load_state record s) as [Hp Hst].
    destruct (gds_load record s) as [data_length s1]. simpl in Hty, Hdl, Hp, Hst.
    apply bind_Some in Hrun as (s2 & Hstep & Hrun).
    assert (Hopen1 : polygon_open p n s1).
    { destruct Hopen as (Hp0 & poly & Hpoly & Hsize).
      split; [congruence|]. exists poly. rewrite Hst. auto. }
    pose proof (read_gds_record_polygon unit tolerance data_length s1 s2 p n) as Hrec.
    cbv zeta in Hrec. rewrite Hty in Hrec.
    specialize (Hrec Hb Hx He Hopen1 Hstep).
    apply (IH Hin s2 s' p _ Hrec) in Hrun.
    simpl. unfold record_type at 1. rewrite <- Hdl. exact Hrun.
Qed.

Lemma record_data_length_nonneg (record : bytes) :
  (4 <= length record)%nat -> 0 <= record_data_length record.
Proof.
  intros Hlen. unfold record_data_length, gds_decode.
  destruct (GdsiiDataType_of_code _) as [[]|]; cbn [fst];
    try apply Z.div_pos; lia.
Qed.

Lemma xy_points_nonneg (records : list bytes) :
  Forall inside_element records -> 0 <= xy_points records.
Proof.
  induction 1 as [|record records (Hlen & _) _ IH]; simpl; [lia|].
  pose proof (record_data_length_nonneg record Hlen).
  destruct (_ =? _); [|lia].
  assert (0 <= record_data_length record / 2) by (apply Z.div_pos; lia). lia.
Qed.

Lemma xy_size_points (records : list bytes) :
  Forall inside_element records ->
  forall n, 0 <= n -> n + xy_points records < 2 ^ 64 ->
  xy_size n records = n + xy_points records.
Proof.
  induction 1 as [|record records (Hlen & Hrest) Hin IH]; intros n Hn Hlt; simpl in *; [lia|].
  pose proof (record_data_length_nonneg record Hlen).
  pose proof (xy_points_nonneg records Hin).
  assert (0 <= record_data_length record / 2) by (apply Z.div_pos; lia).
  unfold xy_size in *. 
  destruct (record_type record =? GdsiiRecord_code XY).
  - unfold uint64. rewrite Z.mod_small by lia. rewrite IH by lia. lia.
  - rewrite IH by lia. lia.
Qed.

Lemma read_gds_turns_app (unit tolerance : double) (l1 l2 : list bytes) (s : GdsState) :
  read_gds_turns unit tolerance (l1 ++ l2) s
  = read_gds_turns unit tolerance l1 s ≫= read_gds_turns unit tolerance l2.
Proof.
  revert s. induction l1 as [|record l1 IH]; intros s; simpl; [reflexivity|].
  destruct (gds_load record s) as [data_length s1].
  destruct (read_gds_record unit tolerance data_length s1) as [s2|]; simpl; [apply IH|reflexivity].
Qed.

(** C7, as the code has it: a polygon opened by BOUNDARY or BOX, to which
    the XY records that follow supply at least one point, and that ENDEL
    finds still open, loses its last point there, whatever that point is:
    ENDEL lowers the size by one and leaves the stored coordinates as
    they are, so the polygon holds one point fewer than the XY records
    supplied; and no polygon is open afterwards. *)
Theorem read_gds_polygon_endel (unit tolerance : double) (s s' : GdsState)
    (opening : bytes) (body : list bytes) (closing : bytes) :
  (4 <= length opening)%nat ->
  record_type opening = GdsiiRecord_code BOUNDARY
  \/ record_type opening = GdsiiRecord_code BOX ->
  Forall inside_element body ->
  (4 <= length closing)%nat ->
  record_type closing = GdsiiRecord_code ENDEL ->
  1 <= xy_points body < 2 ^ 64 ->
  read_gds_turns unit tolerance (opening :: body ++ [closing]) s = Some s' ->
  let p := length (polygons (g_store s)) in
  exists (s1 : GdsState) (supplied : Polygon),
    read_gds_turns unit tolerance (opening :: body) s = Some s1 /\
    g_polygon s1 = Some p /\
    polygons (g_store s1) !! p = Some supplied /\
    pa_size (poly_point_array supplied) = xy_points body /\
    g_polygon s' = None /\
    polygons (g_store s') !! p
    = Some (poly_set_point_array
              (mkPointArray (xy_points body - 1)
                 (pa_items (poly_point_array supplied))) supplied).
Proof.
  intros Hlen_o Hopening Hbody Hlen_c Hclosing Hpoints Hrun p.
  change (opening :: body ++ [closing]) with (([opening] ++ body) ++ [closing]) in Hrun.
  rewrite read_gds_turns_app in Hrun.
  apply bind_Some in Hrun as (s1 & Hrun1 & Hrun2).
  exists s1.
  assert (Hopen1 : polygon_open p (xy_points body) s1).
  { rewrite read_gds_turns_app in Hrun1.
    apply bind_Some in Hrun1 as (s0 & Hrun0 & Hrun1).
    simpl in Hrun0.
    pose proof (gds_load_header opening s 2 Hlen_o ltac:(lia)) as Hty.
    pose proof (gds_load_state opening s) as [_ Hst].
    destruct (gds_load opening s) as [data_length sl]. simpl in Hty, Hst.
    apply bind_Some in Hrun0 as (s0' & Hstep & Hrun0). injection Hrun0 as ->.
    pose proof (read_gds_record_opens_polygon unit tolerance data_length sl s0) as Hopen.
    cbv zeta in Hopen. rewrite Hty, Hst in Hopen. specialize (Hopen Hopening Hstep).
    pose proof (read_gds_turns_polygon unit tolerance body Hbody s0 s1 p 0 Hopen Hrun1)
      as Hopen1.
    rewrite xy_size_points in Hopen1 by (auto; lia). exact Hopen1. }
  destruct Hopen1 as (Hp1 & supplied & Hsupplied & Hsize).
  exists supplied. split; [exact Hrun1|]. split; [exact Hp1|].
  split; [exact Hsupplied|]. split; [exact Hsize|].
  simpl in Hrun2.
  pose proof (gds_load_header closing s1 2 Hlen_c ltac:(lia)) as Hty.
  pose proof (gds_load_state closing s1) as [Hp Hst].
  destruct (gds_load closing s1) as [data_length sl]. simpl in Hty, Hp, Hst.
  apply bind_Some in Hrun2 as (s2 & Hstep & Hrun2). injection Hrun2 as ->.
  rewrite <- Hp in Hp1. rewrite <- Hst in Hsupplied.
  unfold record_type in Hclosing. rewrite <- Hty in Hclosing.
  destruct (read_gds_record_closes_polygon unit tolerance data_length sl s' p supplied
              Hclosing Hp1 Hsupplied Hstep) as [Hnone Hfinal].
  split; [exact Hnone|]. rewrite Hfinal, Hsize.
  unfold uint64. rewrite Z.mod_small by lia. reflexivity.
Qed.

End Read_gds_polygons.

(** ** References of a GDSII file *)

Lemma for_each_app {A S : Type} (body : A -> S -> option S) (l1 l2 : list A) (s : S) :
  for_each body (l1 ++ l2) s = for_each body l1 s ≫= for_each body l2.
Proof.
  revert s. induction l1 as [|a l1 IH]; intros s; simpl; [reflexivity|].
  destruct (body a s) as [s1|]; simpl; [apply IH|reflexivity].
Qed.

Lemma gds_cell_map_from (st : Store) (cs : list ptr) (m0 m : gmap bytes ptr) :
  for_each (fun c m => cell ← cells st !! c;
                       name ← cell_name cell;
                       Some (<[c_str name := c]> m)) cs m0 = Some m ->
  (forall k cp, m !! k = Some cp -> m0 !! k = Some cp \/ cell_named st cs k cp) /\
  (forall k, is_Some (m0 !! k) -> is_Some (m !! k)) /\
  (forall k cp, cell_named st cs k cp -> is_Some (m !! k)).
Proof.
  revert m0. induction cs as [|c cs IH]; intros m0 Hrun; simpl in Hrun.
  - injection Hrun as <-. split; [auto|]. split; [auto|].
    intros k cp [Hin _]. by apply elem_of_nil in Hin.
  - apply bind_Some in Hrun as (m1 & Hstep & Hrun).
    apply bind_Some in Hstep as (cell & Hcell & Hstep).
    apply bind_Some in Hstep as (name & Hname & Hstep).
    injection Hstep as <-.
    destruct (IH _ Hrun) as (H1 & H2 & H3).
    split; [|split].
    + intros k cp Hk. destruct (H1 k cp Hk) as [Hm|[Hin Hc]].
      * destruct (decide (c_str name = k)) as [<-|Hne].
        -- rewrite lookup_insert_eq in Hm. injection Hm as <-. right.
           split; [apply elem_of_cons; auto|]. exists cell. split; [exact Hcell|].
           by rewrite Hname.
        -- rewrite lookup_insert_ne in Hm by exact Hne. auto.
      * right. split; [apply elem_of_cons; auto|exact Hc].
    + intros k Hk. apply H2. destruct (decide (c_str name = k)) as [<-|Hne].
      * rewrite lookup_insert_eq. eauto.
      * by rewrite lookup_insert_ne.
    + intros k cp [Hin (cell' & Hcell' & Hname')].
      apply elem_of_cons in Hin as [->|Hin].
      * apply H2. rewrite Hcell in Hcell'. injection Hcell' as <-.
        rewrite Hname in Hname'. injection Hname' as <-.
        rewrite lookup_insert_eq. eauto.
      * apply (H3 k cp). split; [exact Hin|eauto].
Qed.

(** The map of ENDLIB holds, under each name, a cell of that name, and it
    holds every name that a cell of the library has. *)
Lemma gds_cell_map_spec (st : Store) (cs : list ptr) (m : gmap bytes ptr) :
  gds_cell_map st cs = Some m ->
  (forall k cp, m !! k = Some cp -> cell_named st cs k cp) /\
  (forall k cp, cell_named st cs k cp -> is_Some (m !! k)).
Proof.
  intros Hm. destruct (gds_cell_map_from st cs ∅ m Hm) as (H1 & _ & H3).
  split; [|exact H3].
  intros k cp Hk. destruct (H1 k cp Hk) as [Hempty|H]; [|exact H].
  by rewrite lookup_empty in Hempty.
Qed.

Lemma resolved_again (m : gmap bytes ptr) (ref ref' ref'' : Reference) :
  resolved m ref ref' -> resolved m ref' ref'' -> resolved m ref ref''.
Proof.
  intros (n & Hn & H) (n' & Hn' & H').
  destruct (m !! c_str n) as [cp|] eqn:Hm.
  - subst ref'. simpl in Hn'. discriminate.
  - subst ref'. exists n'. split; [exact Hn'|exact H'].
Qed.

Lemma gds_resolve_reference_spec (m : gmap bytes ptr) (r : ptr) (st st' : Store) :
  gds_resolve_reference m r st = Some st' ->
  cells st' = cells st /\
  exists ref ref',
    references st !! r = Some ref /\ resolved m ref ref' /\
    references st' !! r = Some ref' /\
    (forall j, j <> r -> references st' !! j = references st !! j).
Proof.
  unfold gds_resolve_reference. intros Hrun.
  apply bind_Some in Hrun as (ref & Href & Hrun).
  apply bind_Some in Hrun as (key & Hkey & Hrun).
  unfold reference_key in Hkey.
  destruct (ref_union ref) as [| | | |n] eqn:Hunion; try discriminate.
  injection Hkey as <-.
  destruct (m !! c_str n) as [cp|] eqn:Hm; injection Hrun as <-.
  - split; [reflexivity|].
    exists ref, (ref_set_target ReferenceType_Cell (RU_cell cp) ref).
    split; [exact Href|]. split; [exists n; by rewrite Hm|].
    cbn [references alter_reference]. split.
    + by rewrite list_lookup_alter_eq, Href.
    + intros j Hj. by rewrite list_lookup_alter_ne.
  - split; [reflexivity|]. exists ref, ref.
    split; [exact Href|]. split; [exists n; by rewrite Hm|]. auto.
Qed.

Lemma gds_resolve_references_spec (m : gmap bytes ptr) (visited : list ptr) :
  forall st st',
    for_each (gds_resolve_reference m) visited st = Some st' ->
    cells st' = cells st /\
    forall j,
      (j ∈ visited ->
       exists ref ref', references st !! j = Some ref /\ resolved m ref ref' /\
                        references st' !! j = Some ref') /\
      (j ∉ visited -> references st' !! j = references st !! j).
Proof.
  induction visited as [|r visited IH]; intros st st' Hrun; simpl in Hrun.
  - injection Hrun as <-. split; [reflexivity|]. intros j. split; [|reflexivity].
    intros Hin. by apply elem_of_nil in Hin.
  - apply bind_Some in Hrun as (st1 & Hstep & Hrun).
    apply gds_resolve_reference_spec in Hstep
      as (Hcells1 & ref & ref' & Href & Hres & Href' & Hother).
    destruct (IH _ _ Hrun) as (Hcells & Hrest).
    split; [congruence|]. intros j. destruct (Hrest j) as [Hin Hout]. split.
    + intros Hj. destruct (decide (j = r)) as [->|Hne].
      * destruct (decide (r ∈ visited)) as [Hvis|Hvis].
        -- destruct (Hin Hvis) as (ref1 & ref'' & Href1 & Hres1 & Hfinal).
           rewrite Href' in Href1. injection Href1 as <-.
           exists ref, ref''. split; [exact Href|]. split; [|exact Hfinal].
           by eapply resolved_again.
        -- exists ref, ref'. split; [exact Href|]. split; [exact Hres|].
           rewrite (Hout Hvis). exact Href'.
      * apply elem_of_cons in Hj as [Hj|Hj]; [contradiction|].
        destruct (Hin Hj) as (ref1 & ref'' & Href1 & Hres1 & Hfinal).
        exists ref1, ref''. rewrite <- (Hother j Hne). auto.
    + intros Hj. apply not_elem_of_cons in Hj as [Hne Hj].
      rewrite (Hout Hj). by apply Hother.
Qed.

Lemma gds_resolve_cells_flat (m : gmap bytes ptr) (cs : list ptr) :
  forall st st',
    for_each (gds_resolve_cell m) cs st = Some st' ->
    for_each (gds_resolve_reference m) (all_references st cs) st = Some st'.
Proof.
  induction cs as [|c cs IH]; intros st st' Hrun; simpl in Hrun.
  - injection Hrun as <-. reflexivity.
  - apply bind_Some in Hrun as (st1 & Hstep & Hrun).
    unfold gds_resolve_cell in Hstep.
    apply bind_Some in Hstep as (cell & Hcell & Hstep).
    unfold all_references. cbn [flat_map]. rewrite Hcell. cbn [from_option].
    rewrite for_each_app, Hstep. cbn [mbind option_bind].
    apply gds_resolve_references_spec in Hstep as [Hcells _].
    apply IH in Hrun. unfold all_references in Hrun. rewrite Hcells in Hrun. exact Hrun.
Qed.

Lemma all_references_elem (st : Store) (cs : list ptr) (c r : ptr) (cell : Cell) :
  c ∈ cs -> cells st !! c = Some cell -> r ∈ cell_reference_array cell ->
  r ∈ all_references st cs.
Proof.
  intros Hc Hcell Hr. unfold all_references.
  apply list_elem_of_In, in_flat_map. exists c.
  split; [by apply list_elem_of_In|]. rewrite Hcell. by apply list_elem_of_In.
Qed.

Section Read_gds_references.
Context {E : Externals}.

Lemma gds_load_library (record : bytes) (s : GdsState) :
  g_library (gds_load record s).2 = g_library s /\
  g_stderr (gds_load record s).2 = g_stderr s.
Proof. unfold gds_load. destruct (gds_decode _ _). split; reflexivity. Qed.

(** A run that meets ENDLIB returns from there. *)
Lemma read_gds_loop_ENDLIB (unit tolerance : double) (pre : list bytes)
    (endlib : bytes) (post : list bytes) :
  Forall (fun record => (4 <= length record)%nat) (pre ++ endlib :: post) ->
  Forall (fun record => record_type record <> GdsiiRecord_code ENDLIB) pre ->
  record_type endlib = GdsiiRecord_code ENDLIB ->
  forall s,
    read_gds_loop unit tolerance (pre ++ endlib :: post) s
    = read_gds_turns unit tolerance pre s
        ≫= fun s0 => read_gds_endlib (gds_load endlib s0).2.
Proof.
  intros Hlen Hno Hend. induction pre as [|record pre IH]; intros s.
  - apply Forall_cons in Hlen as [Hlen1 _]. simpl.
    pose proof (gds_load_header endlib s 2 Hlen1 ltac:(lia)) as Hty.
    destruct (gds_load endlib s) as [data_length s1]. simpl in *.
    assert (is_ENDLIB (g_buffer s1) = true) as ->; [|reflexivity].
    apply is_ENDLIB_spec. unfold record_type in Hend. congruence.
  - simpl in Hlen. apply Forall_cons in Hlen as [Hlen1 Hlen].
    apply Forall_cons in Hno as [Hno1 Hno]. simpl.
    pose proof (gds_load_header record s 2 Hlen1 ltac:(lia)) as Hty.
    destruct (gds_load record s) as [data_length s1]. simpl in Hty.
    destruct (is_ENDLIB (g_buffer s1)) eqn:Hc.
    + apply is_ENDLIB_spec in Hc. unfold record_type in Hno1. congruence.
    + destruct (read_gds_record unit tolerance data_length s1) as [s2|]; simpl;
        [by apply IH|reflexivity].
Qed.

(** What the ENDLIB case does to the references of the library. *)
Lemma read_gds_endlib_spec (s : GdsState) (lib : Library) (st : Store)
    (stderr : list string) :
  read_gds_endlib s = Some (lib, st, stderr) ->
  lib = g_library s /\ cells st = cells (g_store s) /\
  exists m,
    gds_cell_map (g_store s) (lib_cell_array lib) = Some m /\
    forall c cell r,
      c ∈ lib_cell_array lib -> cells st !! c = Some cell ->
      r ∈ cell_reference_array cell ->
      exists ref ref',
        references (g_store s) !! r = Some ref /\ resolved m ref ref' /\
        references st !! r = Some ref'.
Proof.
  unfold read_gds_endlib. intros Hrun.
  apply bind_Some in Hrun as (m & Hm & Hrun).
  apply bind_Some in Hrun as (st' & Hpass & Hrun).
  injection Hrun as <- <- _.
  apply gds_resolve_cells_flat, gds_resolve_references_spec in Hpass as [Hcells Hrefs].
  split; [reflexivity|]. split; [exact Hcells|].
  exists m. split; [exact Hm|].
  intros c cell r Hc Hcell Hr. rewrite Hcells in Hcell.
  apply (proj1 (Hrefs r)). by eapply all_references_elem.
Qed.

(** C2: when the records of the file up to the first ENDLIB are [pre],
    [read_gds] returns the library and the cells that the run over [pre]
    built, and every reference [r] of a cell of the library held a name
    [n] when ENDLIB was read; if a cell of the library has the name [n],
    [r] now has type [Cell], holds a pointer to a library cell of that
    name in place of its name, and is otherwise as before; if none has,
    [r] is as before, name included.  So no reference of the library is
    left with type [Name] and the name of a library cell. *)
Theorem read_gds_resolves_references (buffer input : bytes) (unit tolerance : double)
    (pre : list bytes) (endlib : bytes) (post : list bytes)
    (lib : Library) (st : Store) (stderr : list string) :
  gdsii_records input = pre ++ endlib :: post ->
  Forall (fun record => record_type record <> GdsiiRecord_code ENDLIB) pre ->
  record_type endlib = GdsiiRecord_code ENDLIB ->
  read_gds buffer (Some input) unit tolerance = Some (lib, st, stderr) ->
  exists s0,
    read_gds_turns unit tolerance pre (GdsState_init buffer) = Some s0 /\
    lib = g_library s0 /\ cells st = cells (g_store s0) /\
    forall c cell r,
      c ∈ lib_cell_array lib -> cells st !! c = Some cell ->
      r ∈ cell_reference_array cell ->
      exists ref n,
        references (g_store s0) !! r = Some ref /\ ref_union ref = RU_name n /\
        ((exists cp, cell_named st (lib_cell_array lib) (c_str n) cp) ->
         exists cp, cell_named st (lib_cell_array lib) (c_str n) cp /\
                    references st !! r
                    = Some (ref_set_target ReferenceType_Cell (RU_cell cp) ref)) /\
        ((forall cp, ~ cell_named st (lib_cell_array lib) (c_str n) cp) ->
         references st !! r = Some ref) /\
        (forall ref', references st !! r = Some ref' ->
                      ref_type ref' = ReferenceType_Name ->
                      ref_union ref' = RU_name n /\
                      forall cp, ~ cell_named st (lib_cell_array lib) (c_str n) cp).
Proof.
  intros Hrecords Hno Hend Hrun. unfold read_gds in Hrun.
  pose proof (gdsii_records_length input) as Hlen.
  rewrite Hrecords in Hrun, Hlen.
  rewrite (read_gds_loop_ENDLIB unit tolerance pre endlib post Hlen Hno Hend) in Hrun.
  apply bind_Some in Hrun as (s0 & Hturns & Hrun).
  exists s0. split; [exact Hturns|].
  apply read_gds_endlib_spec in Hrun as (Hlib & Hcells & m & Hm & Hrefs).
  destruct (gds_load_state endlib s0) as [_ Hst].
  destruct (gds_load_library endlib s0) as [Hl _].
  rewrite Hst in Hcells, Hm, Hrefs. rewrite Hl in Hlib.
  split; [exact Hlib|]. split; [exact Hcells|].
  apply gds_cell_map_spec in Hm as [Hm1 Hm2].
  assert (Hnamed : forall k cp, cell_named st (lib_cell_array lib) k cp
                                <-> cell_named (g_store s0) (lib_cell_array lib) k cp).
  { intros k cp. unfold cell_named. by rewrite Hcells. }
  intros c cell r Hc Hcell Hr.
  destruct (Hrefs c cell r Hc Hcell Hr) as (ref & ref' & Href & (n & Hn & Hres) & Href').
  exists ref, n. split; [exact Href|]. split; [exact Hn|].
  destruct (m !! c_str n) as [cp|] eqn:Hlook.
  - subst ref'. split; [|split].
    + intros _. exists cp. split; [|exact Href']. apply Hnamed. by apply Hm1.
    + intros Hnone. exfalso. apply (Hnone cp), Hnamed. by apply Hm1.
    + intros ref' Href'' Hty. rewrite Href' in Href''. injection Href'' as <-.
      simpl in Hty. discriminate.
  - subst ref'. split; [|split].
    + intros [cp Hcp]. apply Hnamed, Hm2 in Hcp. rewrite Hlook in Hcp.
      by destruct Hcp.
    + intros _. exact Href'.
    + intros ref' Href'' Hty. rewrite Href' in Href''. injection Href'' as <-.
      split; [exact Hn|]. intros cp Hcp. apply Hnamed, Hm2 in Hcp.
      rewrite Hlook in Hcp. by destruct Hcp.
Qed.

End Read_gds_references.

(** ** The modal variables of [read_oas] *)

Lemma Run_bind_Ok {A B : Type} (m : Run A) (k : A -> Run B) (b : B) :
  m ≫= k = Ok b -> exists a, m = Ok a /\ k a = Ok b.
Proof. destruct m as [a|why e]; [eauto|discriminate]. Qed.

Lemma reading_Ok {A : Type} (f : OasisInput -> option (A * OasisInput)) (s : OasState)
    (a : A) (s' : OasState) :
  reading f s = Ok (a, s') ->
  exists i, f (o_in s) = Some (a, i) /\ s' = o_with_in i s.
Proof.
  unfold reading. destruct (f (o_in s)) as [[a' i]|]; [|discriminate].
  intros [= <- <-]. eauto.
Qed.

Section Read_oas_modal.
Context {R : ReadExternals}.

(** What CELL and CELL_REF_NUM leave in the modal variables. *)
Lemma read_oas_cell_modal (record : OasisRecord) (s s' : OasState) :
  read_oas_cell record s = Ok s' ->
  o_modal s' = modal_cell_reset (o_modal s).
Proof.
  unfold read_oas_cell. intros Hrun.
  apply Run_bind_Ok in Hrun as (s1 & Hname & Hrun). injection Hrun as <-.
  destruct (decide (record = CELL_REF_NUM)).
  - apply Run_bind_Ok in Hname as ([n s2] & Hread & Hname). injection Hname as <-.
    apply reading_Ok in Hread as (i & _ & ->). reflexivity.
  - apply Run_bind_Ok in Hname as ([name s2] & Hread & Hname). injection Hname as <-.
    apply reading_Ok in Hread as (i & _ & ->). reflexivity.
Qed.

Lemma read_oas_record_cell (record : OasisRecord) (s : OasState) :
  record = CELL \/ record = CELL_REF_NUM ->
  read_oas_record (OasisRecord_code record) s = read_oas_cell record s.
Proof. intros [->| ->]; reflexivity. Qed.

(** C6: once CELL or CELL_REF_NUM has been processed, the modal
    placement, text and geometry positions are (0,0) and the modal
    positioning flag says absolute. *)
Theorem read_oas_cell_positions (record : OasisRecord) (s s' : OasState) :
  record = CELL \/ record = CELL_REF_NUM ->
  read_oas_record (OasisRecord_code record) s = Ok s' ->
  modal_placement_pos (o_modal s') = Vec2_zero /\
  modal_text_pos (o_modal s') = Vec2_zero /\
  modal_geom_pos (o_modal s') = Vec2_zero /\
  modal_absolute_pos (o_modal s') = true.
Proof.
  intros Hrecord Hrun. rewrite (read_oas_record_cell _ _ Hrecord) in Hrun.
  apply read_oas_cell_modal in Hrun. rewrite Hrun. repeat split.
Qed.

(** C5, as the code has it: CELL and CELL_REF_NUM reset the three modal
    positions to (0,0) and the positioning flag to absolute, and leave
    every other modal variable as it was: layer, datatype, text layer,
    text type, geometry dimensions, repetition, text string, placement
    cell, point lists, path half-width, path extensions, ctrapezoid type,
    circle radius and property. *)
Theorem read_oas_cell_keeps_modal (record : OasisRecord) (s s' : OasState) :
  record = CELL \/ record = CELL_REF_NUM ->
  read_oas_record (OasisRecord_code record) s = Ok s' ->
  let m := o_modal s in
  let m' := o_modal s' in
  (modal_absolute_pos m' = true /\ modal_placement_pos m' = Vec2_zero /\
   modal_text_pos m' = Vec2_zero /\ modal_geom_pos m' = Vec2_zero) /\
  modal_layer m' = modal_layer m /\ modal_datatype m' = modal_datatype m /\
  modal_textlayer m' = modal_textlayer m /\ modal_texttype m' = modal_texttype m /\
  modal_geom_dim m' = modal_geom_dim m /\ modal_repetition m' = modal_repetition m /\
  modal_text_string m' = modal_text_string m /\
  modal_placement_cell m' = modal_placement_cell m /\
  modal_polygon_points m' = modal_polygon_points m /\
  modal_path_points m' = modal_path_points m /\
  modal_path_halfwidth m' = modal_path_halfwidth m /\
  modal_path_extensions m' = modal_path_extensions m /\
  modal_ctrapezoid_type m' = modal_ctrapezoid_type m /\
  modal_circle_radius m' = modal_circle_radius m /\
  modal_property m' = modal_property m /\
  modal_property_value_list m' = modal_property_value_list m.
Proof.
  intros Hrecord Hrun. rewrite (read_oas_record_cell _ _ Hrecord) in Hrun.
  apply read_oas_cell_modal in Hrun. cbv zeta. rewrite Hrun. repeat split.
Qed.

(** ** CBLOCK with a compression method that is not supported *)

(** C3, what the code does: when the compression type read is not zero,
    CBLOCK logs, reads the two sizes, and sets the position of the file
    to the compressed size counted from the start of the file (a size of
    2^63 or more leaves the position where it is), while the payload
    ends at the position after the sizes plus the compressed size; the
    two differ as soon as anything was read before the payload. *)
Theorem read_oas_cblock_seek (s : OasState) (method uncompressed compressed : Z)
    (i1 i2 i3 : OasisInput) :
  oasis_read_unsigned_integer (o_in s) = Some (method, i1) ->
  method <> 0 ->
  oasis_read_unsigned_integer i1 = Some (uncompressed, i2) ->
  oasis_read_unsigned_integer i2 = Some (compressed, i3) ->
  0 <= compressed < 2 ^ 63 ->
  exists s',
    read_oas_record (OasisRecord_code CBLOCK) s = Ok s' /\
    o_stderr s' = o_stderr s ++ ["[GDSTK] CBLOCK compression method not supported."%string] /\
    in_pos (o_in s') = compressed /\
    (0 < in_pos i3 -> in_pos (o_in s') <> in_pos i3 + compressed).
Proof.
  intros H1 Hmethod H2 H3 Hlen.
  change (read_oas_record (OasisRecord_code CBLOCK) s) with (read_oas_cblock s).
  unfold read_oas_cblock, reading. rewrite H1. cbn [mbind Run_mbind Run_bind].
  destruct (method =? 0) eqn:Hm; [lia|]. cbn [negb].
  cbn [o_in o_with_in o_log]. rewrite H2. cbn [mbind Run_mbind Run_bind o_in o_with_in].
  rewrite H3. cbn [mbind Run_mbind Run_bind o_in o_with_in].
  eexists. split; [reflexivity|]. split; [reflexivity|].
  assert (Hpos : in_pos (fseek_set compressed i3) = compressed).
  { unfold fseek_set, uint64, signed. rewrite Z.mod_small by lia.
    destruct (compressed <? 2 ^ (64 - 1)) eqn:Hlt; [|lia].
    destruct (compressed <? 0) eqn:Hneg; [lia|]. reflexivity. }
  cbn [o_in o_with_in o_log]. rewrite Hpos. split; [reflexivity|lia].
Qed.

End Read_oas_modal.

(** ** The four functions when the file cannot be opened *)

Section Open_failure.
Context {E : Externals} {R : ReadExternals}.

(** C8, what the code does: when the file cannot be opened, [write_gds],
    [write_oas] and [read_gds] log one line and return at once, the
    writers writing nothing and [read_gds] returning the empty library;
    [read_oas] logs its line and then calls [fclose] on the null stream,
    which has no defined behaviour, before it gets to return. *)
Theorem open_failure (st : Store) (lib : Library) (buffer : bytes)
    (unit tolerance : double) (max_points : Z) (timestamp : option tm) (now : tm)
    (deflate_level config_flags : Z) (fuel : nat) :
  write_gds st lib false max_points timestamp now
  = Some (None, ["[GDSTK] Unable to open GDSII file for output."%string]) /\
  write_oas st lib false tolerance deflate_level config_flags
  = Some (None, ["[GDSTK] Unable to open OASIS file for output."%string]) /\
  read_gds buffer None unit tolerance
  = Some (Library_zero, Store_empty, ["[GDSTK] Unable to open GDSII file for input."%string]) /\
  read_oas fuel None unit tolerance
  = Stop UndefinedBehaviour ["[GDSTK] Unable to open OASIS file for input."%string].
Proof. repeat split. Qed.

End Open_failure.

(** ** The statements above on concrete inputs *)

Section Examples.

#[local] Existing Instance example_externals.
#[local] Existing Instance example_read_externals.


(** The library of scenario S2, written: 256 bytes from the END record
    on. *)
Lemma write_oas_file_length_S2 :
  exists content w t,
    write_oas S2_store S2_library true 0 0 0 = Some (Some content, []) /\
    write_oas_body S2_store S2_library 0 0 = Some (w, t) /\
    length content = (length (file (w_out w)) + 256)%nat /\
    last content = Some 0.
Proof.
  destruct (write_oas S2_store S2_library true 0 0 0) as [[[content|] stderr]|] eqn:Hw;
    [|vm_compute in Hw; discriminate Hw..].
  assert (Hstderr : stderr = []) by (vm_compute in Hw; congruence).
  subst stderr.
  destruct (write_oas_file_length _ _ _ _ _ _ _ Hw) as (w & t & Hbody & _ & Hlen & Hlast).
  exists content, w, t. split; [reflexivity|]. split; [exact Hbody|].
  split; [exact Hlen|exact Hlast].
Defined.

(** Scenario S3: the file is read up to ENDLIB, and the reference to [X]
    of the cell [TOP] points to the cell [X] afterwards. *)
Lemma read_gds_resolves_references_S3 :
  exists lib st stderr s0,
    read_gds [] (Some S3_file) 0 0 = Some (lib, st, stderr) /\
    read_gds_turns 0 0 S3_records (GdsState_init []) = Some s0 /\
    lib = g_library s0 /\ cells st = cells (g_store s0) /\
    (ref_union <$> references (g_store s0) !! 0%nat) = Some (RU_name [88]) /\
    (ref_union <$> references st !! 0%nat) = Some (RU_cell 1%nat).
Proof.
  destruct (read_gds [] (Some S3_file) 0 0) as [[[lib st] stderr]|] eqn:Hrun;
    [|vm_compute in Hrun; discriminate Hrun].
  assert (Hrecords : gdsii_records S3_file = S3_records ++ gds_record 4 0 [] :: [])
    by (vm_compute; reflexivity).
  assert (Hpre : Forall (fun record => record_type record <> GdsiiRecord_code ENDLIB)
                   S3_records).
  { unfold S3_records.
    repeat (apply Forall_cons; split; [intros H; vm_compute in H; discriminate H|]).
    apply Forall_nil_2. }
  assert (Hend : record_type (gds_record 4 0 []) = GdsiiRecord_code ENDLIB) by reflexivity.
  destruct (read_gds_resolves_references _ _ _ _ _ _ _ _ _ _ Hrecords Hpre Hend Hrun)
    as (s0 & Hturns & Hlib & Hcells & _).
  exists lib, st, stderr, s0.
  split; [reflexivity|]. split; [exact Hturns|]. split; [exact Hlib|].
  split; [exact Hcells|].
  split.
  - vm_compute in Hturns. injection Hturns as <-. vm_compute. reflexivity.
  - vm_compute in Hrun. injection Hrun as _ <- _. vm_compute. reflexivity.
Defined.

(** The file of scenario S3 cut before ENDLIB: the cells read are dropped
    and the empty library is returned. *)
Lemma read_gds_without_ENDLIB_truncated :
  exists lib st stderr,
    read_gds [] (Some truncated_file) 0 0 = Some (lib, st, stderr) /\
    lib = Library_zero /\ length (cells st) = 2%nat.
Proof.
  destruct (read_gds [] (Some truncated_file) 0 0) as [[[lib st] stderr]|] eqn:Hrun;
    [|vm_compute in Hrun; discriminate Hrun].
  assert (Hrecords : gdsii_records truncated_file = S3_records) by (vm_compute; reflexivity).
  assert (Hno : Forall (fun record => record_type record <> GdsiiRecord_code ENDLIB)
                  (gdsii_records truncated_file)).
  { rewrite Hrecords. unfold S3_records.
    repeat (apply Forall_cons; split; [intros H; vm_compute in H; discriminate H|]).
    apply Forall_nil_2. }
  pose proof (read_gds_without_ENDLIB _ _ _ _ _ _ _ Hno Hrun) as Hlib.
  exists lib, st, stderr. split; [reflexivity|]. split; [exact Hlib|].
  vm_compute in Hrun. injection Hrun as _ <- _. reflexivity.
Defined.

(** A square given by four XY points and closed by ENDEL keeps three. *)
Lemma read_gds_polygon_endel_square :
  exists s' poly,
    read_gds_turns 0 0 (gds_record 8 0 [] :: square_body ++ [gds_record 17 0 []]) in_cell_A
    = Some s' /\
    xy_points square_body = 4 /\
    g_polygon s' = None /\
    polygons (g_store s') !! 0%nat = Some poly /\
    pa_size (poly_point_array poly) = 3.
Proof.
  destruct (read_gds_turns 0 0 (gds_record 8 0 [] :: square_body ++ [gds_record 17 0 []])
              in_cell_A) as [s'|] eqn:Hrun; [|vm_compute in Hrun; discriminate Hrun].
  assert (Hbody : Forall inside_element square_body).
  { unfold square_body, inside_element.
    repeat (apply Forall_cons; split;
            [split; [vm_compute; lia|];
             repeat split; intros H; vm_compute in H; discriminate H|]).
    apply Forall_nil_2. }
  assert (Hpoints : xy_points square_body = 4) by (vm_compute; reflexivity).
  destruct (read_gds_polygon_endel 0 0 in_cell_A s' (gds_record 8 0 []) square_body
              (gds_record 17 0 []))
    as (s1 & supplied & _ & _ & _ & _ & Hclosed & Hpoly).
  - vm_compute. lia.
  - left. reflexivity.
  - exact Hbody.
  - vm_compute. lia.
  - reflexivity.
  - rewrite Hpoints. lia.
  - exact Hrun.
  - exists s', (poly_set_point_array
                  (mkPointArray (xy_points square_body - 1)
                     (pa_items (poly_point_array supplied))) supplied).
    split; [reflexivity|]. split; [exact Hpoints|]. split; [exact Hclosed|].
    split; [exact Hpoly|]. cbn [poly_set_point_array poly_point_array pa_size].
    rewrite Hpoints. reflexivity.
Defined.

(** C7 as stated fails: a polygon whose structure ends without ENDEL is
    stored in its cell, in the library returned, with all the four points
    its XY record supplied, the last one equal to the first. *)
Lemma read_gds_polygon_without_endel :
  exists lib st poly,
    read_gds [] (Some unclosed_polygon_file) 0 0 = Some (lib, st, []) /\
    lib_cell_array lib = [0%nat] /\
    (cell_polygon_array <$> cells st !! 0%nat) = Some [0%nat] /\
    polygons st !! 0%nat = Some poly /\
    xy_points (gdsii_records unclosed_polygon_file) = 4 /\
    pa_size (poly_point_array poly) = 4 /\
    take 2 (drop 6 (pa_items (poly_point_array poly)))
    = take 2 (pa_items (poly_point_array poly)).
Proof.
  eexists _, _, _. split; [vm_compute; reflexivity|]. vm_compute. repeat split.
Qed.

(** The CELL record of the second cell of [two_cells_file]: the positions
    are back at the origin. *)
Lemma read_oas_cell_positions_B :
  exists s',
    read_oas_record (OasisRecord_code CELL) before_cell_B = Ok s' /\
    (cell_name <$> cells (o_store s') !! 1%nat) = Some (Some [66]) /\
    modal_placement_pos (o_modal s') = Vec2_zero /\
    modal_text_pos (o_modal s') = Vec2_zero /\
    modal_geom_pos (o_modal s') = Vec2_zero /\
    modal_absolute_pos (o_modal s') = true.
Proof.
  destruct (read_oas_record (OasisRecord_code CELL) before_cell_B) as [s'|] eqn:Hrun;
    [|vm_compute in Hrun; discriminate Hrun].
  pose proof (read_oas_cell_positions CELL _ _ (or_introl eq_refl) Hrun) as H.
  exists s'. split; [reflexivity|]. split; [|exact H].
  vm_compute in Hrun. injection Hrun as <-. reflexivity.
Defined.

(** The same record: the text layer 5 that the text of the first cell set
    is still the modal text layer. *)
Lemma read_oas_cell_keeps_modal_B :
  exists s',
    read_oas_record (OasisRecord_code CELL) before_cell_B = Ok s' /\
    modal_textlayer (o_modal before_cell_B) = 5 /\
    modal_textlayer (o_modal s') = 5 /\
    modal_text_string (o_modal s') = Some 0%nat /\
    modal_text_pos (o_modal s') = Vec2_zero.
Proof.
  destruct (read_oas_record (OasisRecord_code CELL) before_cell_B) as [s'|] eqn:Hrun;
    [|vm_compute in Hrun; discriminate Hrun].
  destruct (read_oas_cell_keeps_modal CELL _ _ (or_introl eq_refl) Hrun)
    as ((_ & _ & Hpos & _) & _ & _ & Hlayer & _ & _ & _ & Hstring & _).
  exists s'. split; [reflexivity|]. split; [reflexivity|].
  split; [rewrite Hlayer; reflexivity|]. split; [rewrite Hstring; reflexivity|exact Hpos].
Defined.

(** C5 as stated fails: in [two_cells_file] the text of the second cell
    gives no text layer and is read with text layer 5, the one the text of
    the first cell set, while the initial modal text layer is 0. *)
Lemma read_oas_cell_textlayer_survives :
  exists lib st,
    read_oas 5 (Some two_cells_file) 0 0 = Ok (lib, st, []) /\
    (cell_label_array <$> cells st !! 1%nat) = Some [1%nat] /\
    (label_layer <$> labels st !! 1%nat) = Some 5 /\
    modal_textlayer Modal_init = 0.
Proof.
  eexists _, _. split; [vm_compute; reflexivity|]. vm_compute. repeat split.
Qed.

(** The CBLOCK of [cblock_file]: its three bytes end at offset 41, where
    the CELL record starts; the reader goes on from offset 3, in the
    middle of the magic bytes. *)
Lemma read_oas_cblock_seek_example :
  exists s',
    read_oas_record (OasisRecord_code CBLOCK) at_cblock = Ok s' /\
    in_pos (o_in s') = 3 /\
    cblock_file !! 41%nat = Some (OasisRecord_code CELL) /\
    (fst <$> oasis_read 1 (o_in s')) = Some [77].
Proof.
  destruct (read_oas_cblock_seek at_cblock 1 5 3
              (mkOasisInput cblock_file 36 None) (mkOasisInput cblock_file 37 None)
              (mkOasisInput cblock_file 38 None))
    as (s' & Hrun & _ & Hpos & _);
    [vm_compute; reflexivity|lia|vm_compute; reflexivity|vm_compute; reflexivity|lia|].
  exists s'. split; [exact Hrun|]. split; [exact Hpos|]. split; [reflexivity|].
  vm_compute in Hrun. injection Hrun as <-. vm_compute. reflexivity.
Defined.

End Examples.

Lemma gds_cell_map_last_from (st : Store) (cs : list ptr) (m0 m : gmap bytes ptr) :
  for_each (fun c m => cell ← cells st !! c;
                       name ← cell_name cell;
                       Some (<[c_str name := c]> m)) cs m0 = Some m ->
  forall k cp, last_cell_named st cs k cp -> m !! k = Some cp.
Proof.
  revert m0. induction cs as [|c cs IH]; intros m0 Hrun k cp (before & after & Hcs & Hcp & Hafter).
  - by destruct before.
  - simpl in Hrun.
    apply bind_Some in Hrun as (m1 & Hstep & Hrun).
    apply bind_Some in Hstep as (cell & Hcell & Hstep).
    apply bind_Some in Hstep as (name & Hname & Hstep).
    injection Hstep as <-.
    destruct before as [|b before]; simpl in Hcs; injection Hcs as -> ->.
    + (* [cp] is the head: no later [set] touches the key *)
      destruct Hcp as (cell' & Hcell' & Hname').
      rewrite Hcell in Hcell'. injection Hcell' as <-.
      rewrite Hname in Hname'. injection Hname' as <-.
      destruct (gds_cell_map_from st after _ m Hrun) as (H1 & H2 & _).
      destruct (H2 (c_str name)) as [cp' Hcp']; [rewrite lookup_insert_eq; eauto|].
      destruct (H1 _ _ Hcp') as [Hm|[Hin (cell' & Hcell' & Hname')]].
      * rewrite lookup_insert_eq in Hm. congruence.
      * exfalso. exact (Hafter cp' cell' Hin Hcell' Hname').
    + apply (IH _ Hrun). exists before, after. split; [reflexivity|]. split; assumption.
Qed.

(** ENDLIB's map gives, for a name, the last cell of the library that has
    it. *)
Lemma gds_cell_map_last (st : Store) (cs : list ptr) (m : gmap bytes ptr) (k : bytes)
    (cp : ptr) :
  gds_cell_map st cs = Some m -> last_cell_named st cs k cp -> m !! k = Some cp.
Proof. intros Hm. by apply gds_cell_map_last_from with (m0 := ∅). Qed.

Section Read_gds_end.
Context {E : Externals}.

(** What follows the first ENDLIB record is not read: two files whose
    records agree up to and including the first ENDLIB give the same
    library, the same objects and the same messages. *)
Theorem read_gds_ignores_after_ENDLIB (buffer input1 input2 : bytes) (unit tolerance : double)
    (pre : list bytes) (endlib : bytes) (post1 post2 : list bytes) :
  gdsii_records input1 = pre ++ endlib :: post1 ->
  gdsii_records input2 = pre ++ endlib :: post2 ->
  Forall (fun record => record_type record <> GdsiiRecord_code ENDLIB) pre ->
  record_type endlib = GdsiiRecord_code ENDLIB ->
  read_gds buffer (Some input1) unit tolerance = read_gds buffer (Some input2) unit tolerance.
Proof.
  intros H1 H2 Hno Hend. unfold read_gds.
  pose proof (gdsii_records_length input1) as Hlen1.
  pose proof (gdsii_records_length input2) as Hlen2.
  rewrite H1 in *. rewrite H2 in *.
  rewrite (read_gds_loop_ENDLIB unit tolerance pre endlib post1 Hlen1 Hno Hend).
  rewrite (read_gds_loop_ENDLIB unit tolerance pre endlib post2 Hlen2 Hno Hend).
  reflexivity.
Qed.

(** When several cells of the library have the same name, a reference by
    that name is resolved to the last of them in the order of the file. *)
Theorem read_gds_resolves_to_last_cell (buffer input : bytes) (unit tolerance : double)
    (pre : list bytes) (endlib : bytes) (post : list bytes)
    (lib : Library) (st : Store) (stderr : list string)
    (c r cp : ptr) (cell : Cell) (n : bytes) (s0 : GdsState) (ref : Reference) :
  gdsii_records input = pre ++ endlib :: post ->
  Forall (fun record => record_type record <> GdsiiRecord_code ENDLIB) pre ->
  record_type endlib = GdsiiRecord_code ENDLIB ->
  read_gds buffer (Some input) unit tolerance = Some (lib, st, stderr) ->
  read_gds_turns unit tolerance pre (GdsState_init buffer) = Some s0 ->
  c ∈ lib_cell_array lib -> cells st !! c = Some cell -> r ∈ cell_reference_array cell ->
  references (g_store s0) !! r = Some ref -> ref_union ref = RU_name n ->
  last_cell_named st (lib_cell_array lib) (c_str n) cp ->
  references st !! r = Some (ref_set_target ReferenceType_Cell (RU_cell cp) ref).
Proof.
  intros Hrecords Hno Hend Hrun Hturns Hc Hcell Hr Href Hn Hlast. unfold read_gds in Hrun.
  pose proof (gdsii_records_length input) as Hlen.
  rewrite Hrecords in Hrun, Hlen.
  rewrite (read_gds_loop_ENDLIB unit tolerance pre endlib post Hlen Hno Hend) in Hrun.
  rewrite Hturns in Hrun. cbn [mbind option_bind] in Hrun.
  apply read_gds_endlib_spec in Hrun as (Hlib & Hcells & m & Hm & Hrefs).
  destruct (gds_load_state endlib s0) as [_ Hst].
  rewrite Hst in Hcells, Hm, Hrefs.
  destruct (Hrefs c cell r Hc Hcell Hr) as (ref0 & ref' & Href0 & (n' & Hn' & Hres) & Href').
  assert (ref0 = ref) as -> by congruence.
  assert (n' = n) as -> by congruence.
  assert (Hlast' : last_cell_named (g_store s0) (lib_cell_array lib) (c_str n) cp).
  { unfold last_cell_named in *. by rewrite <- Hcells. }
  rewrite (gds_cell_map_last _ _ _ _ _ Hm Hlast') in Hres. by rewrite Href', Hres.
Qed.

End Read_gds_end.

Section Read_gds_cells.
Context {E : Externals}.

#[local] Opaque scaled double_of_Z data16 data32 data64 str buf_read gds_string
  gds_xy_path gds_xy_reference gds_xy_polygon pa_write hex2 String.append.

Lemma read_gds_record_cells (unit tolerance : double) (data_length : Z) (s s' : GdsState) :
  let code := buf_get (g_buffer s) 2 in
  read_gds_record unit tolerance data_length s = Some s' ->
  if code =? GdsiiRecord_code BGNSTR then
    g_cell s' = Some (length (cells (g_store s))) /\
    length (cells (g_store s')) = S (length (cells (g_store s))) /\
    lib_cell_array (g_library s') = lib_cell_array (g_library s)
  else
    g_cell s' = g_cell s /\
    length (cells (g_store s')) = length (cells (g_store s)) /\
    lib_cell_array (g_library s')
    = lib_cell_array (g_library s)
        ++ (if code =? GdsiiRecord_code STRNAME
            then match g_cell s with Some c => [c] | None => [] end else []).
Proof.
  intros code Hstep. unfold read_gds_record in Hstep. fold code in Hstep.
  destruct (GdsiiRecord_of_code code) as [[r name]|] eqn:Hcode.
  - apply GdsiiRecord_of_code_inv in Hcode.
    destruct r; rewrite Hcode; cbn [fmap option_fmap option_map fst] in Hstep;
      repeat match goal with
      | |- context [?a =? ?b] =>
          let v := eval vm_compute in (a =? b) in change (a =? b) with v
      end; cbn iota.
    all: crunch Hstep.
    all: unfold new_cell, new_polygon, new_flexpath, new_reference, new_label in *.
    all: repeat match goal with H : (_, _) = (_, _) |- _ => injection H as <- <- end.
    all: try (injection Hstep as <-).
    all: repeat match goal with
                | |- context [match g_cell ?x with _ => _ end] => destruct (g_cell x) eqn:?
                | |- context [match g_reference ?x with _ => _ end] => destruct (g_reference x)
                | |- context [match g_label ?x with _ => _ end] => destruct (g_label x)
                | |- context [match g_path ?x with _ => _ end] => destruct (g_path x)
                | |- context [match g_polygon ?x with _ => _ end] => destruct (g_polygon x)
                end.
    all: cbn [g_cell g_library g_store with_store with_library set_cell set_polygon set_path
                set_reference set_label set_factor set_width set_key set_buffer gds_log
                cells alter_cell alter_polygon alter_flexpath alter_reference
                alter_label lib_cell_array lib_append_cell lib_set_name lib_set_units].
    all: rewrite ?length_alter, ?length_app, ?app_nil_r; cbn [length].
    all: try (repeat split; (reflexivity || congruence || lia)).
  - cbn in Hstep. injection Hstep as <-.
    assert ((code =? GdsiiRecord_code BGNSTR) = false) as ->.
    { apply Z.eqb_neq. intros Heq. unfold GdsiiRecord_of_code in Hcode.
      rewrite Heq in Hcode. discriminate. }
    assert ((code =? GdsiiRecord_code STRNAME) = false) as ->.
    { apply Z.eqb_neq. intros Heq. unfold GdsiiRecord_of_code in Hcode.
      rewrite Heq in Hcode. discriminate. }
    rewrite app_nil_r. repeat split.
Qed.

Lemma gds_load_cells (record : bytes) (s : GdsState) :
  g_cell (gds_load record s).2 = g_cell s.
Proof. unfold gds_load. destruct (gds_decode _ _). reflexivity. Qed.

Lemma read_gds_turns_cells (unit tolerance : double) (records : list bytes) :
  Forall (fun record => (4 <= length record)%nat) records ->
  forall s s',
    read_gds_turns unit tolerance records s = Some s' ->
    lib_cell_array (g_library s')
    = lib_cell_array (g_library s)
        ++ registered records (g_cell s) (length (cells (g_store s))) /\
    g_cell s' = open_cell records (g_cell s) (length (cells (g_store s))).
Proof.
  induction records as [|record records IH]; intros Hlen s s' Hrun.
  - simpl in Hrun. injection Hrun as <-. by rewrite app_nil_r.
  - apply Forall_cons in Hlen as [Hlen1 Hlen]. simpl in Hrun.
    pose proof (gds_load_header record s 2 Hlen1 ltac:(lia)) as Hty.
    pose proof (gds_load_state record s) as [_ Hst].
    pose proof (gds_load_library record s) as [Hlib _].
    pose proof (gds_load_cells record s) as Hcell.
    destruct (gds_load record s) as [data_length s1]. simpl in Hty, Hst, Hlib, Hcell.
    apply bind_Some in Hrun as (s2 & Hstep & Hrun).
    apply read_gds_record_cells in Hstep. cbv zeta in Hstep.
    rewrite Hty, Hst, Hlib, Hcell in Hstep.
    destruct (IH Hlen _ _ Hrun) as [IH1 IH2]. rewrite IH1, IH2.
    cbn [registered open_cell]. unfold record_type.
    destruct (buf_get record 2 =? GdsiiRecord_code BGNSTR) eqn:Hb.
    + destruct Hstep as (-> & -> & ->). split; reflexivity.
    + destruct Hstep as (-> & -> & ->).
      destruct (buf_get record 2 =? GdsiiRecord_code STRNAME).
      * destruct (g_cell s); simpl; rewrite <- ?app_assoc, ?app_nil_r; split; reflexivity.
      * rewrite app_nil_r. split; reflexivity.
Qed.

(** The library that [read_gds] returns holds one cell for each STRNAME
    record read while a structure is open, in the order of the file: a
    BGNSTR that no STRNAME follows gives no cell of the library, and a
    second STRNAME after the same BGNSTR gives the same cell once more. *)
Theorem read_gds_cell_array (buffer input : bytes) (unit tolerance : double)
    (pre : list bytes) (endlib : bytes) (post : list bytes)
    (lib : Library) (st : Store) (stderr : list string) :
  gdsii_records input = pre ++ endlib :: post ->
  Forall (fun record => record_type record <> GdsiiRecord_code ENDLIB) pre ->
  record_type endlib = GdsiiRecord_code ENDLIB ->
  read_gds buffer (Some input) unit tolerance = Some (lib, st, stderr) ->
  lib_cell_array lib = registered pre None 0.
Proof.
  intros Hrecords Hno Hend Hrun. unfold read_gds in Hrun.
  pose proof (gdsii_records_length input) as Hlen.
  rewrite Hrecords in Hrun, Hlen.
  rewrite (read_gds_loop_ENDLIB unit tolerance pre endlib post Hlen Hno Hend) in Hrun.
  apply bind_Some in Hrun as (s0 & Hturns & Hrun).
  apply read_gds_endlib_spec in Hrun as (-> & _).
  destruct (gds_load_library endlib s0) as [-> _].
  apply Forall_app in Hlen as [Hlen _].
  by destruct (read_gds_turns_cells unit tolerance pre Hlen _ _ Hturns) as [-> _].
Qed.

End Read_gds_cells.

(** ** More on [read_gds]: where the elements go *)

Section Read_gds_elements.
Context {E : Externals}.

Lemma read_gds_turns_allocated (unit tolerance : double) (records : list bytes) :
  Forall (fun record => (4 <= length record)%nat) records ->
  forall s s',
    cell_allocated s ->
    read_gds_turns unit tolerance records s = Some s' ->
    cell_allocated s'.
Proof.
  induction records as [|record records IH]; intros Hlen s s' Hs Hrun.
  - simpl in Hrun. by injection Hrun as <-.
  - apply Forall_cons in Hlen as [Hlen1 Hlen]. simpl in Hrun.
    pose proof (gds_load_state record s) as [_ Hst].
    pose proof (gds_load_cells record s) as Hcell.
    destruct (gds_load record s) as [data_length s1]. simpl in Hst, Hcell.
    apply bind_Some in Hrun as (s2 & Hstep & Hrun).
    apply read_gds_record_cells in Hstep. cbv zeta in Hstep.
    apply (IH Hlen s2 s'); [|exact Hrun].
    intros c Hc. unfold cell_allocated in Hs. rewrite Hst, Hcell in Hstep.
    destruct (buf_get (g_buffer s1) 2 =? GdsiiRecord_code BGNSTR).
    + destruct Hstep as (H1 & H2 & _). rewrite H2. rewrite H1 in Hc. injection Hc as <-. lia.
    + destruct Hstep as (H1 & H2 & _). rewrite H2. apply Hs. congruence.
Qed.

(** ENDSTR does not close the structure: the polygon that a BOUNDARY or
    BOX record starts is appended to the cell of the last BGNSTR read,
    whether or not an ENDSTR came in between; before the first BGNSTR it
    is appended to no cell. *)
Theorem read_gds_polygon_cell (buffer : bytes) (unit tolerance : double)
    (pre : list bytes) (opening : bytes) (s0 s1 : GdsState) :
  Forall (fun record => (4 <= length record)%nat) pre ->
  (4 <= length opening)%nat ->
  record_type opening = GdsiiRecord_code BOUNDARY
  \/ record_type opening = GdsiiRecord_code BOX ->
  read_gds_turns unit tolerance pre (GdsState_init buffer) = Some s0 ->
  read_gds_turns unit tolerance [opening] s0 = Some s1 ->
  let p := length (polygons (g_store s0)) in
  g_polygon s1 = Some p /\
  match open_cell pre None 0 with
  | Some c =>
      exists cell, cells (g_store s0) !! c = Some cell /\
                   cells (g_store s1) !! c = Some (cell_append_polygon p cell) /\
                   forall c', c' <> c -> cells (g_store s1) !! c' = cells (g_store s0) !! c'
  | None => cells (g_store s1) = cells (g_store s0)
  end.
Proof.
  intros Hlen Hlen_o Hopening Hpre Hrun p.
  destruct (read_gds_turns_cells unit tolerance pre Hlen _ _ Hpre) as [_ Hcell].
  assert (Halloc : cell_allocated s0).
  { apply (read_gds_turns_allocated unit tolerance pre Hlen (GdsState_init buffer));
      [intros c Hc; discriminate Hc|exact Hpre]. }
  change (g_cell s0 = open_cell pre None 0) in Hcell. rewrite <- Hcell.
  simpl in Hrun.
  pose proof (gds_load_header opening s0 2 Hlen_o ltac:(lia)) as Hty.
  pose proof (gds_load_state opening s0) as [_ Hst].
  pose proof (gds_load_cells opening s0) as Hc.
  destruct (gds_load opening s0) as [data_length sl]. simpl in Hty, Hst, Hc.
  apply bind_Some in Hrun as (s2 & Hstep & Hrun). injection Hrun as ->.
  unfold read_gds_record in Hstep.
  assert (Hbody :
    (let '(p, st) := new_polygon (g_store sl) in
     let st := match g_cell sl with
               | Some c => alter_cell (cell_append_polygon p) c st
               | None => st
               end in
     Some (set_polygon (Some p) (with_store (fun _ => st) sl))) = Some s1).
  { unfold record_type in Hopening. rewrite Hty in Hstep.
    destruct Hopening as [Ho|Ho]; rewrite Ho in Hstep; exact Hstep. }
  clear Hstep. unfold new_polygon in Hbody. injection Hbody as <-.
  rewrite Hc, Hst. split; [reflexivity|].
  destruct (g_cell s0) as [c|] eqn:Hcell0; [|reflexivity].
  destruct (lookup_lt_is_Some_2 (cells (g_store s0)) c (Halloc c Hcell0)) as [cell Hcl].
  exists cell. split; [exact Hcl|].
  cbn [g_store with_store set_polygon alter_cell cells].
  split; [by rewrite list_lookup_alter_eq, Hcl|].
  intros c' Hne. by rewrite list_lookup_alter_ne.
Qed.

#[local] Opaque scaled double_of_Z data16 data32 data64 str buf_read gds_string
  gds_xy_path gds_xy_reference hex2 String.append.

(** An XY record on the open polygon. *)
Lemma read_gds_record_xy (unit tolerance : double) (data_length : Z) (s s' : GdsState)
    (p : ptr) (poly : Polygon) :
  buf_get (g_buffer s) 2 = GdsiiRecord_code XY ->
  g_polygon s = Some p ->
  polygons (g_store s) !! p = Some poly ->
  read_gds_record unit tolerance data_length s = Some s' ->
  g_polygon s' = Some p /\
  exists poly',
    gds_xy_polygon (g_factor s) (g_buffer s) data_length poly = Some poly' /\
    polygons (g_store s') !! p = Some poly'.
Proof.
  intros Hcode Hp Hpoly Hstep. unfold read_gds_record in Hstep.
  rewrite Hcode in Hstep. cbn [fmap option_fmap option_map fst] in Hstep.
  change (GdsiiRecord_of_code (GdsiiRecord_code XY)) with (Some (XY, "XY"%string)) in Hstep.
  cbn beta iota in Hstep. rewrite Hp, Hpoly in Hstep. cbn [mbind option_bind] in Hstep.
  destruct (gds_xy_polygon (g_factor s) (g_buffer s) data_length poly) as [poly'|] eqn:Hxy;
    [|discriminate Hstep].
  cbn [mbind option_bind] in Hstep. injection Hstep as <-.
  split; [exact Hp|]. exists poly'. split; [reflexivity|].
  cbn [g_store with_store alter_polygon polygons].
  by rewrite list_lookup_alter_eq, Hpoly.
Qed.

Lemma pa_write_length (start : nat) (vals : list double) (items : list (option double)) :
  length (pa_write start vals items)
  = Nat.max (length items) (start + length vals).
Proof.
  unfold pa_write. rewrite !length_app, length_take, length_map, length_drop.
  rewrite length_app, repeat_length. lia.
Qed.

Lemma gds_xy_polygon_spec (factor : double) (buf : bytes) (data_length : Z)
    (poly poly' : Polygon) :
  gds_xy_polygon factor buf data_length poly = Some poly' ->
  data_length mod 2 <= pa_size (poly_point_array poly) /\
  pa_size (poly_point_array poly') = uint64 (pa_size (poly_point_array poly) + data_length / 2) /\
  exists vals,
    length vals = Z.to_nat data_length /\
    pa_items (poly_point_array poly')
    = pa_write (Z.to_nat (pa_size (poly_point_array poly))) vals
        (pa_items (poly_point_array poly)).
Proof.
  unfold gds_xy_polygon. intros H.
  destruct (data_length mod 2 <=? pa_size (poly_point_array poly)) eqn:Hle; [|discriminate H].
  injection H as <-. split; [lia|]. split; [reflexivity|].
  eexists. split; [|reflexivity]. by rewrite length_map, length_seq.
Qed.

(** One turn of the loop on an XY record while a polygon is open. *)
Lemma read_gds_turn_xy (unit tolerance : double) (xy : bytes) (s s' : GdsState)
    (p : ptr) (poly : Polygon) :
  (4 <= length xy)%nat ->
  record_type xy = GdsiiRecord_code XY ->
  g_polygon s = Some p ->
  polygons (g_store s) !! p = Some poly ->
  read_gds_turns unit tolerance [xy] s = Some s' ->
  g_polygon s' = Some p /\
  exists poly',
    polygons (g_store s') !! p = Some poly' /\
    record_data_length xy mod 2 <= pa_size (poly_point_array poly) /\
    pa_size (poly_point_array poly')
    = uint64 (pa_size (poly_point_array poly) + record_data_length xy / 2) /\
    exists vals,
      length vals = Z.to_nat (record_data_length xy) /\
      pa_items (poly_point_array poly')
      = pa_write (Z.to_nat (pa_size (poly_point_array poly))) vals
          (pa_items (poly_point_array poly)).
Proof.
  intros Hlen Hxy Hp Hpoly Hrun. simpl in Hrun.
  pose proof (gds_load_header xy s 2 Hlen ltac:(lia)) as Hty.
  pose proof (gds_load_state xy s) as [Hpl Hst].
  pose proof (gds_load_data_length xy s Hlen) as Hdl.
  destruct (gds_load xy s) as [data_length sl]. simpl in Hty, Hpl, Hst, Hdl.
  apply bind_Some in Hrun as (s2 & Hstep & Hrun). injection Hrun as ->.
  rewrite <- Hpl in Hp. rewrite <- Hst in Hpoly.
  destruct (read_gds_record_xy unit tolerance data_length sl s' p poly)
    as (Hp' & poly' & Hxy' & Hpoly'); [unfold record_type in Hxy; congruence|assumption..|].
  split; [exact Hp'|]. exists poly'. split; [exact Hpoly'|].
  rewrite <- Hdl. by apply gds_xy_polygon_spec in Hxy'.
Qed.

(** A second XY record on the same polygon is stored from the coordinate
    slot that has the number of the points held so far, not twice that
    number: it overwrites the second half of the coordinates of the first
    record.  With [n1] points in the first record and [n2] in the second,
    [n1 <= 2 * n2], the polygon ends with size [n1 + n2] and with
    [n1 + 2 * n2] coordinates written, fewer than the [2 * (n1 + n2)] its
    size announces: the first [n1] coordinates of the first record
    followed by those of the second. *)
Theorem read_gds_polygon_second_xy (unit tolerance : double) (s s' : GdsState)
    (opening xy1 xy2 : bytes) (n1 n2 : Z) :
  (4 <= length opening)%nat ->
  record_type opening = GdsiiRecord_code BOUNDARY
  \/ record_type opening = GdsiiRecord_code BOX ->
  (4 <= length xy1)%nat -> record_type xy1 = GdsiiRecord_code XY ->
  record_data_length xy1 = 2 * n1 ->
  (4 <= length xy2)%nat -> record_type xy2 = GdsiiRecord_code XY ->
  record_data_length xy2 = 2 * n2 ->
  1 <= n1 <= 2 * n2 -> n1 + n2 < 2 ^ 64 ->
  read_gds_turns unit tolerance [opening; xy1; xy2] s = Some s' ->
  let p := length (polygons (g_store s)) in
  exists (s1 : GdsState) (first poly : Polygon) (vals : list double),
    read_gds_turns unit tolerance [opening; xy1] s = Some s1 /\
    polygons (g_store s1) !! p = Some first /\
    pa_size (poly_point_array first) = n1 /\
    length (pa_items (poly_point_array first)) = Z.to_nat (2 * n1) /\
    polygons (g_store s') !! p = Some poly /\
    pa_size (poly_point_array poly) = n1 + n2 /\
    length vals = Z.to_nat (2 * n2) /\
    pa_items (poly_point_array poly)
    = take (Z.to_nat n1) (pa_items (poly_point_array first)) ++ map Some vals /\
    (length (pa_items (poly_point_array poly)) < Z.to_nat (2 * (n1 + n2)))%nat.
Proof.
  intros Hlen_o Hopening Hlen1 Hxy1 Hdl1 Hlen2 Hxy2 Hdl2 Hn Hbound Hrun p.
  change [opening; xy1; xy2] with ([opening] ++ [xy1] ++ [xy2]) in Hrun.
  rewrite read_gds_turns_app in Hrun.
  apply bind_Some in Hrun as (s0 & Hrun0 & Hrun).
  rewrite read_gds_turns_app in Hrun.
  apply bind_Some in Hrun as (s1 & Hrun1 & Hrun2).
  (* the opening record *)
  assert (Hopen : g_polygon s0 = Some p /\ polygons (g_store s0) !! p = Some Polygon_zero).
  { simpl in Hrun0.
    pose proof (gds_load_header opening s 2 Hlen_o ltac:(lia)) as Hty.
    pose proof (gds_load_state opening s) as [_ Hst].
    destruct (gds_load opening s) as [data_length sl]. simpl in Hty, Hst.
    apply bind_Some in Hrun0 as (s0' & Hstep & Hrun0). injection Hrun0 as ->.
    unfold read_gds_record in Hstep.
    assert (Hbody :
      (let '(p, st) := new_polygon (g_store sl) in
       let st := match g_cell sl with
                 | Some c => alter_cell (cell_append_polygon p) c st
                 | None => st
                 end in
       Some (set_polygon (Some p) (with_store (fun _ => st) sl))) = Some s0).
    { unfold record_type in Hopening. rewrite Hty in Hstep.
      destruct Hopening as [Ho|Ho]; rewrite Ho in Hstep; exact Hstep. }
    clear Hstep. unfold new_polygon in Hbody. injection Hbody as <-.
    rewrite Hst. split; [reflexivity|].
    destruct (g_cell sl); cbn; by apply list_lookup_middle. }
  destruct Hopen as [Hp0 Hpoly0].
  destruct (read_gds_turn_xy unit tolerance xy1 s0 s1 p Polygon_zero Hlen1 Hxy1 Hp0 Hpoly0 Hrun1)
    as (Hp1 & first & Hfirst & _ & Hsize1 & vals1 & Hvals1 & Hitems1).
  destruct (read_gds_turn_xy unit tolerance xy2 s1 s' p first Hlen2 Hxy2 Hp1 Hfirst Hrun2)
    as (_ & poly & Hpoly & _ & Hsize2 & vals2 & Hvals2 & Hitems2).
  rewrite Hdl1 in Hsize1, Hvals1. rewrite Hdl2 in Hsize2, Hvals2.
  rewrite (Z.mul_comm 2 n1), Z.div_mul in Hsize1 by lia.
  rewrite (Z.mul_comm 2 n2), Z.div_mul in Hsize2 by lia.
  cbn [Polygon_zero poly_point_array pa_size pa_items] in Hsize1, Hitems1.
  assert (Hs1 : pa_size (poly_point_array first) = n1).
  { rewrite Hsize1. unfold uint64. rewrite Z.mod_small; lia. }
  assert (Hi1 : pa_items (poly_point_array first) = map Some vals1).
  { rewrite Hitems1. unfold pa_write. cbn. by rewrite drop_nil, app_nil_r. }
  assert (Hl1 : length (pa_items (poly_point_array first)) = Z.to_nat (2 * n1)).
  { by rewrite Hi1, length_map. }
  assert (Hi2 : pa_items (poly_point_array poly)
                = take (Z.to_nat n1) (pa_items (poly_point_array first)) ++ map Some vals2).
  { rewrite Hitems2, Hs1. unfold pa_write.
    rewrite take_app_le by lia. rewrite drop_ge by lia. by rewrite app_nil_r. }
  exists s1, first, poly, vals2.
  split. { change [opening; xy1] with ([opening] ++ [xy1]).
           by rewrite read_gds_turns_app, Hrun0. }
  split; [exact Hfirst|]. split; [exact Hs1|]. split; [exact Hl1|].
  split; [exact Hpoly|].
  split. { rewrite Hsize2, Hs1. unfold uint64. rewrite Z.mod_small; lia. }
  split; [exact Hvals2|]. split; [exact Hi2|].
  rewrite Hi2, length_app, length_take, length_map. lia.
Qed.

End Read_gds_elements.

Lemma buf_get_app_l (l1 l2 : bytes) (i : nat) :
  (i < length l1)%nat -> buf_get (l1 ++ l2) i = buf_get l1 i.
Proof. intros Hi. unfold buf_get. by rewrite app_nth1. Qed.

Lemma buf_get_app_r (l1 l2 : bytes) (i : nat) :
  buf_get (l1 ++ l2) (length l1 + i) = buf_get l2 i.
Proof.
  unfold buf_get. rewrite app_nth2 by lia. f_equal. lia.
Qed.

Lemma buf_get_drop (l : bytes) (n i : nat) :
  buf_get (drop n l) i = buf_get l (n + i).
Proof.
  unfold buf_get. rewrite <- (take_drop n l) at 2.
  destruct (decide (n <= length l)%nat) as [Hle|Hgt].
  - rewrite app_nth2 by (rewrite length_take; lia). f_equal. rewrite length_take. lia.
  - rewrite drop_ge by lia. rewrite take_ge by lia. rewrite app_nil_r.
    rewrite nth_overflow by (simpl; lia). rewrite nth_overflow by lia. reflexivity.
Qed.

Lemma buf_read_ext (b1 b2 : bytes) (i1 i2 n : nat) :
  (forall k, (k < n)%nat -> buf_get b1 (i1 + k) = buf_get b2 (i2 + k)) ->
  buf_read b1 i1 n = buf_read b2 i2 n.
Proof.
  intros H. unfold buf_read. apply map_ext_in. intros k Hk.
  apply in_seq in Hk. apply H. lia.
Qed.

Lemma buf_read_length (b : bytes) (i n : nat) : length (buf_read b i n) = n.
Proof. unfold buf_read. by rewrite length_map, length_seq. Qed.

Lemma buf_get_buf_read (b : bytes) (i n k : nat) :
  (k < n)%nat -> buf_get (buf_read b i n) k = buf_get b (i + k).
Proof.
  intros Hk. unfold buf_read, buf_get.
  rewrite (nth_indep _ 0 ((fun k => nth (i + k) b 0) 0%nat))
    by (rewrite length_map, length_seq; lia).
  rewrite (map_nth (fun k => nth (i + k) b 0)). by rewrite seq_nth.
Qed.

(** After the swap of at least two 64-bit words, [data64[0]] and
    [data64[1]] are the first two words of the payload. *)
Lemma big_endian_swap_two (n : nat) (data : bytes) (k : nat) :
  (2 <= n)%nat -> (k < 16)%nat ->
  buf_get (big_endian_swap 8 n data) k
  = buf_get (rev (buf_read data 0 8) ++ rev (buf_read data 8 8)) k.
Proof.
  intros Hn Hk. destruct n as [|[|n]]; try lia. cbn [big_endian_swap].
  destruct (decide (k < 8)%nat) as [Hlt|Hge].
  - rewrite (buf_get_app_l (rev (buf_read data 0 8)))
      by (rewrite length_rev, buf_read_length; lia).
    rewrite (buf_get_app_l (rev (buf_read data 0 8)))
      by (rewrite length_rev, buf_read_length; lia).
    reflexivity.
  - replace k with (length (rev (buf_read data 0 8)) + (k - 8))%nat
      by (rewrite length_rev, buf_read_length; lia).
    rewrite !buf_get_app_r.
    rewrite (buf_get_app_l (rev (buf_read (drop 8 data) 0 8)))
      by (rewrite length_rev, buf_read_length; lia).
    f_equal. f_equal. apply buf_read_ext. intros j Hj. apply buf_get_drop.
Qed.

Lemma data64_swapped (n : nat) (record buffer : bytes) (i : nat) :
  (20 <= length record)%nat -> (2 <= n)%nat -> (i < 2)%nat ->
  let buf := buf_load record buffer in
  data64 (take 4 buf ++ big_endian_swap 8 n (drop 4 buf)) i = payload_word record i.
Proof.
  intros Hlen Hn Hi buf. unfold data64, payload_word. f_equal.
  assert (Hbuf : forall j, (j < 20)%nat -> buf_get buf j = buf_get record j).
  { intros j Hj. unfold buf, buf_load. apply buf_get_app_l. lia. }
  assert (Hlen4 : length (take 4 buf) = 4%nat).
  { rewrite length_take. unfold buf, buf_load. rewrite length_app. lia. }
  apply (list_eq_same_length _ _ 8); [by rewrite length_rev, buf_read_length|
    by rewrite buf_read_length|].
  intros k x y Hk Hx Hy.
  assert (Hgx : buf_get (buf_read (take 4 buf ++ big_endian_swap 8 n (drop 4 buf))
                           (4 + 8 * i) 8) k = x).
  { unfold buf_get at 1. by apply nth_lookup_Some with (d := 0) in Hx. }
  assert (Hgy : buf_get (rev (buf_read record (4 + 8 * i) 8)) k = y).
  { unfold buf_get at 1. by apply nth_lookup_Some with (d := 0) in Hy. }
  rewrite <- Hgx, <- Hgy. clear Hx Hy Hgx Hgy.
  rewrite buf_get_buf_read by lia.
  replace (4 + 8 * i + k)%nat with (length (take 4 buf) + (8 * i + k))%nat by lia.
  rewrite buf_get_app_r, big_endian_swap_two by lia.
  assert (Hrev : forall (l : bytes) j, (j < length l)%nat ->
                   buf_get (rev l) j = buf_get l (length l - S j)).
  { intros l j Hj. unfold buf_get. by apply rev_nth. }
  destruct i as [|[|i]]; [| |lia].
  - rewrite Nat.mul_0_r, Nat.add_0_l, Nat.add_0_r.
    rewrite (buf_get_app_l (rev (buf_read (drop 4 buf) 0 8)))
      by (rewrite length_rev, buf_read_length; lia).
    rewrite !Hrev by (rewrite buf_read_length; lia).
    rewrite !buf_read_length, !buf_get_buf_read by lia.
    rewrite buf_get_drop. apply Hbuf. lia.
  - replace (8 * 1 + k)%nat with (length (rev (buf_read (drop 4 buf) 0 8)) + k)%nat
      by (rewrite length_rev, buf_read_length; lia).
    rewrite buf_get_app_r.
    rewrite !Hrev by (rewrite buf_read_length; lia).
    rewrite !buf_read_length, !buf_get_buf_read by lia.
    rewrite buf_get_drop. rewrite Hbuf by lia. reflexivity.
Qed.

Section Gds_units_agree.
Context {E : Externals}.

#[local] Opaque scaled double_of_Z data16 data32 data64 str buf_read gds_string
  gds_xy_path gds_xy_reference gds_xy_polygon pa_write hex2 String.append.

(** Only UNITS writes the unit and the precision of the library. *)
Lemma read_gds_record_units (unit tolerance : double) (data_length : Z) (s s' : GdsState) :
  buf_get (g_buffer s) 2 <> GdsiiRecord_code UNITS ->
  read_gds_record unit tolerance data_length s = Some s' ->
  lib_unit (g_library s') = lib_unit (g_library s) /\
  lib_precision (g_library s') = lib_precision (g_library s).
Proof.
  intros Hne Hstep. unfold read_gds_record in Hstep.
  destruct (GdsiiRecord_of_code (buf_get (g_buffer s) 2)) as [[r name]|] eqn:Hcode.
  - apply GdsiiRecord_of_code_inv in Hcode.
    destruct r; try congruence; cbn [fmap option_fmap option_map fst] in Hstep.
    all: crunch Hstep.
    all: unfold new_cell, new_polygon, new_flexpath, new_reference, new_label in *.
    all: repeat match goal with H : (_, _) = (_, _) |- _ => injection H as <- <- end.
    all: try (injection Hstep as <-).
    all: repeat match goal with
                | |- context [match g_cell ?x with _ => _ end] => destruct (g_cell x) eqn:?
                | |- context [match g_reference ?x with _ => _ end] => destruct (g_reference x)
                | |- context [match g_label ?x with _ => _ end] => destruct (g_label x)
                | |- context [match g_path ?x with _ => _ end] => destruct (g_path x)
                | |- context [match g_polygon ?x with _ => _ end] => destruct (g_polygon x)
                end.
    all: split; reflexivity.
  - cbn in Hstep. injection Hstep as <-. split; reflexivity.
Qed.

Lemma read_gds_turns_units (unit tolerance : double) (records : list bytes) :
  Forall (fun record => (4 <= length record)%nat) records ->
  Forall (fun record => record_type record <> GdsiiRecord_code UNITS) records ->
  forall s s',
    read_gds_turns unit tolerance records s = Some s' ->
    lib_unit (g_library s') = lib_unit (g_library s) /\
    lib_precision (g_library s') = lib_precision (g_library s).
Proof.
  induction records as [|record records IH]; intros Hlen Hno s s' Hrun.
  - simpl in Hrun. by injection Hrun as <-.
  - apply Forall_cons in Hlen as [Hlen1 Hlen]. apply Forall_cons in Hno as [Hno1 Hno].
    simpl in Hrun.
    pose proof (gds_load_header record s 2 Hlen1 ltac:(lia)) as Hty.
    pose proof (gds_load_library record s) as [Hlib _].
    destruct (gds_load record s) as [data_length s1]. simpl in Hty, Hlib.
    apply bind_Some in Hrun as (s2 & Hstep & Hrun).
    apply read_gds_record_units in Hstep; [|unfold record_type in Hno1; congruence].
    destruct (IH Hlen Hno _ _ Hrun) as [-> ->]. by rewrite <- Hlib.
Qed.

(** The turn of the loop of [read_gds] on a UNITS record that is tagged
    as eight-byte reals and holds two of them. *)
Lemma read_gds_turn_units (unit tolerance : double) (units : bytes) (s s' : GdsState) :
  (20 <= length units)%nat ->
  record_type units = GdsiiRecord_code UNITS ->
  buf_get units 3 = 5 ->
  PrimFloat.ltb 0%float unit = false ->
  read_gds_turns unit tolerance [units] s = Some s' ->
  lib_precision (g_library s') = gdsii_real_to_double (payload_word units 1) /\
  lib_unit (g_library s')
  = PrimFloat.div (gdsii_real_to_double (payload_word units 1))
      (gdsii_real_to_double (payload_word units 0)).
Proof.
  intros Hlen Hty H5 Hunit Hrun. simpl in Hrun.
  assert (Hload : exists n data_length,
    (2 <= n)%nat /\
    gds_load units s
    = (data_length,
       set_buffer (take 4 (buf_load units (g_buffer s))
                     ++ big_endian_swap 8 n (drop 4 (buf_load units (g_buffer s)))) s)).
  { unfold gds_load, gds_decode.
    assert (buf_get (buf_load units (g_buffer s)) 3 = 5) as ->.
    { unfold buf_load. rewrite buf_get_app_l by lia. exact H5. }
    change (GdsiiDataType_of_code 5) with (Some EightByteReal). cbv beta iota zeta.
    eexists _, _. split; [|reflexivity].
    assert (16 <= Z.of_nat (length units) - 4) by lia.
    assert (2 <= (Z.of_nat (length units) - 4) / Z.of_nat 8).
    { apply Z.div_le_lower_bound; lia. }
    lia. }
  destruct Hload as (n & data_length & Hn & Hload). rewrite Hload in Hrun.
  apply bind_Some in Hrun as (s2 & Hstep & Hrun). injection Hrun as ->.
  unfold read_gds_record in Hstep. cbn [g_buffer set_buffer] in Hstep.
  assert (Hcode : buf_get (take 4 (buf_load units (g_buffer s))
                             ++ big_endian_swap 8 n (drop 4 (buf_load units (g_buffer s)))) 2
                  = GdsiiRecord_code UNITS).
  { rewrite buf_get_app_l by (rewrite length_take; unfold buf_load; rewrite length_app; lia).
    assert (Hx : forall l : bytes, (4 <= length l)%nat -> buf_get (take 4 l) 2 = buf_get l 2).
    { intros [|a [|b [|c [|d l]]]] Hl; simpl in Hl; try lia. reflexivity. }
    rewrite Hx by (unfold buf_load; rewrite length_app; lia).
    unfold buf_load. rewrite buf_get_app_l by lia. exact Hty. }
  rewrite Hcode in Hstep. cbn [fmap option_fmap option_map fst] in Hstep.
  change (GdsiiRecord_of_code (GdsiiRecord_code UNITS)) with (Some (UNITS, "UNITS"%string))
    in Hstep.
  cbn beta iota zeta in Hstep. rewrite Hunit in Hstep. injection Hstep as <-.
  cbn [g_library with_library set_factor set_buffer lib_set_units lib_unit lib_precision].
  rewrite !data64_swapped by lia. split; reflexivity.
Qed.

(** [gds_units] returns what [read_gds], called without a unit of its own,
    stores in the library: for a file with one UNITS record before ENDLIB,
    tagged as eight-byte reals and holding two of them, the unit and the
    precision that [gds_units] gives are those of the library that
    [read_gds] returns, and [gds_units] returns 0 without a message. *)
Theorem gds_units_agrees (buffer input : bytes) (unit tolerance unit0 precision0 : double)
    (pre : list bytes) (units : bytes) (mid : list bytes) (endlib : bytes)
    (post : list bytes) (lib : Library) (st : Store) (stderr : list string) :
  gdsii_records input = pre ++ units :: mid ++ endlib :: post ->
  Forall (fun record => record_type record <> GdsiiRecord_code UNITS /\
                        record_type record <> GdsiiRecord_code ENDLIB) (pre ++ mid) ->
  record_type units = GdsiiRecord_code UNITS ->
  buf_get units 3 = 5 -> (20 <= length units)%nat ->
  record_type endlib = GdsiiRecord_code ENDLIB ->
  PrimFloat.ltb 0%float unit = false ->
  read_gds buffer (Some input) unit tolerance = Some (lib, st, stderr) ->
  gds_units buffer (Some input) unit0 precision0
  = (0, lib_unit lib, lib_precision lib, []).
Proof.
  intros Hrecords Hno Hty H5 Hlen20 Hend Hunit Hrun.
  pose proof (gdsii_records_length input) as Hlen. rewrite Hrecords in Hlen.
  apply Forall_app in Hno as [Hpre Hmid].
  (* what read_gds stores *)
  assert (Hlib : lib_precision lib = gdsii_real_to_double (payload_word units 1) /\
                 lib_unit lib = PrimFloat.div (gdsii_real_to_double (payload_word units 1))
                                  (gdsii_real_to_double (payload_word units 0))).
  { unfold read_gds in Hrun. rewrite Hrecords in Hrun.
    change (pre ++ units :: mid ++ endlib :: post)
      with (pre ++ [units] ++ mid ++ endlib :: post) in Hrun, Hlen.
    rewrite !app_assoc in Hrun, Hlen.
    rewrite (read_gds_loop_ENDLIB unit tolerance ((pre ++ [units]) ++ mid) endlib post)
      in Hrun; [|exact Hlen| |exact Hend].
    2:{ rewrite !Forall_app. split; [split|].
        - eapply Forall_impl; [exact Hpre|]. by intros r [_ H].
        - constructor; [|constructor]. rewrite Hty. discriminate.
        - eapply Forall_impl; [exact Hmid|]. by intros r [_ H]. }
    apply bind_Some in Hrun as (s0 & Hturns & Hrun).
    apply read_gds_endlib_spec in Hrun as (-> & _).
    destruct (gds_load_library endlib s0) as [-> _].
    apply Forall_app in Hlen as [Hlen _]. apply Forall_app in Hlen as [Hlen Hlen_mid].
    apply Forall_app in Hlen as [Hlen_pre _].
    rewrite !read_gds_turns_app in Hturns.
    apply bind_Some in Hturns as (s2 & Hturns & Hturns_mid).
    apply bind_Some in Hturns as (s1 & Hturns_pre & Hturn).
    destruct (read_gds_turns_units unit tolerance mid Hlen_mid
                ltac:(eapply Forall_impl; [exact Hmid|]; by intros r [H _]) _ _ Hturns_mid)
      as [-> ->].
    destruct (read_gds_turn_units unit tolerance units s1 s2 Hlen20 Hty H5 Hunit Hturn)
      as [-> ->]. split; reflexivity. }
  destruct Hlib as [-> ->].
  (* what gds_units finds *)
  unfold gds_units. rewrite Hrecords.
  apply Forall_app in Hlen as [Hlen_pre _].
  clear Hrun Hrecords Hmid. revert buffer.
  induction pre as [|record pre IH]; intros buffer.
  - cbn [gds_units_loop app]. assert (buf_get (buf_load units buffer) 2 = 3) as ->.
    { unfold buf_load. rewrite buf_get_app_l by lia. exact Hty. }
    cbn [Z.eqb Pos.eqb]. rewrite !data64_swapped by lia. reflexivity.
  - apply Forall_cons in Hpre as [[Hne _] Hpre].
    apply Forall_cons in Hlen_pre as [Hl Hlen_pre]. cbn [gds_units_loop app].
    assert (buf_get (buf_load record buffer) 2 = record_type record) as ->.
    { unfold buf_load. by rewrite buf_get_app_l by lia. }
    destruct (record_type record =? 3) eqn:H3; [apply Z.eqb_eq in H3; contradiction|].
    by apply IH.
Qed.

(** Without a UNITS record [gds_units] returns -1 with one message and
    leaves [unit] and [precision] as they were. *)
Theorem gds_units_missing (buffer input : bytes) (unit0 precision0 : double) :
  Forall (fun record => record_type record <> GdsiiRecord_code UNITS) (gdsii_records input) ->
  gds_units buffer (Some input) unit0 precision0
  = (-1, unit0, precision0, ["[GDSTK] GDSII file missing units definition."%string]).
Proof.
  intros Hno. unfold gds_units.
  pose proof (gdsii_records_length input) as Hlen.
  revert buffer Hno Hlen. generalize (gdsii_records input).
  induction l as [|record records IH]; intros buffer Hno Hlen; [reflexivity|].
  apply Forall_cons in Hno as [Hne Hno]. apply Forall_cons in Hlen as [Hl Hlen].
  cbn [gds_units_loop].
  assert (buf_get (buf_load record buffer) 2 = record_type record) as ->.
  { unfold buf_load. by rewrite buf_get_app_l by lia. }
  destruct (record_type record =? 3) eqn:H3; [apply Z.eqb_eq in H3; contradiction|].
  by apply IH.
Qed.

End Gds_units_agree.

Lemma file_oasis_write_prefix (b : bytes) (out : OasisStream) :
  file out `prefix_of` file (oasis_write b out).
Proof.
  unfold oasis_write. destruct (cursor out); cbn [file]; [reflexivity|by apply prefix_app_r].
Qed.

Lemma file_fwrite_prefix (b : bytes) (out : OasisStream) :
  file out `prefix_of` file (fwrite b out).
Proof. by apply prefix_app_r. Qed.

Lemma file_grows_preorder : PreOrder file_grows.
Proof.
  split; [intros w; unfold file_grows; reflexivity|].
  intros w1 w2 w3 H1 H2. unfold file_grows in *. by etrans.
Qed.

Section Write_oas_grows.
Context {E : Externals}.

#[local] Existing Instance file_grows_preorder.

Lemma grows_oasis_write (b : bytes) (w : Writer) : file_grows w (with_out (oasis_write b) w).
Proof. apply file_oasis_write_prefix. Qed.

Lemma grows_fwrite (b : bytes) (w : Writer) : file_grows w (with_out (fwrite b) w).
Proof. apply file_fwrite_prefix. Qed.

Lemma grows_call (f : OasisState -> bytes * OasisState) (w : Writer) :
  file_grows w (call f w).
Proof. unfold file_grows. rewrite call_out. apply file_oasis_write_prefix. Qed.

Lemma grows_fold_left {A : Type} (body : Writer -> A -> Writer) (l : list A) :
  (forall a w, file_grows w (body w a)) ->
  forall w, file_grows w (fold_left body l w).
Proof.
  intros Hbody. induction l as [|a l IH]; intros w; simpl; [reflexivity|].
  etrans; [apply Hbody|apply IH].
Qed.

Lemma grows_for_each {A : Type} (body : A -> Writer -> option Writer) (l : list A) :
  (forall a w w', body a w = Some w' -> file_grows w w') ->
  forall w w', for_each body l w = Some w' -> file_grows w w'.
Proof.
  intros Hbody. induction l as [|a l IH]; intros w w' Hrun; simpl in Hrun.
  - injection Hrun as <-. reflexivity.
  - apply bind_Some in Hrun as (w1 & H1 & Hrun). etrans; [by eapply Hbody|by apply IH].
Qed.

Lemma grows_polygons (polys : list Polygon) (w : Writer) :
  file_grows w (write_oas_polygons polys w).
Proof. unfold write_oas_polygons. apply grows_fold_left. intros. apply grows_call. Qed.

Lemma grows_reference (st : Store) (m : gmap bytes Z) (ref : Reference) (w w' : Writer) :
  write_oas_reference st m ref w = Some w' -> file_grows w w'.
Proof.
  intros Hw. destruct (decide (ref_type ref = ReferenceType_RawCell)) as [Hraw|Hraw].
  - unfold write_oas_reference in Hw. rewrite Hraw in Hw. injection Hw as <-.
    unfold file_grows. reflexivity.
  - destruct (write_oas_reference_emits _ _ _ _ _ Hraw Hw) as (name & _ & Hout).
    unfold file_grows. rewrite Hout. apply file_oasis_write_prefix.
Qed.

Lemma grows_label (label : Label) (w w' : Writer) :
  write_oas_label label w = Some w' -> file_grows w w'.
Proof.
  intros Hw. destruct (write_oas_label_emits _ _ _ Hw) as (text & _ & Hout).
  unfold file_grows. rewrite Hout. apply file_oasis_write_prefix.
Qed.

Lemma grows_cblock (deflate_level : Z) (w w' : Writer) :
  write_oas_cblock deflate_level w = Some w' -> file_grows w w'.
Proof.
  unfold write_oas_cblock. intros Hw.
  apply bind_Some in Hw as (buf & _ & Hw).
  destruct (zlib_deflate deflate_level buf) as [[init_ok stream_end] buffer].
  injection Hw as <-. unfold file_grows.
  destruct init_ok, stream_end; cbn [w_out with_out fputs_stderr file fputc fwrite oasis_write
                                       cursor];
    rewrite <- !app_assoc; by apply prefix_app_r.
Qed.

(** The part of a cell between its CELL record and its CBLOCK. *)
Lemma grows_cell_body (st : Store) (m : gmap bytes Z) (cell : Cell) (w w1 w2 w4 : Writer) :
  for_each (fun p w => poly ← polygons st !! p; Some (call (Polygon_to_oas poly) w))
    (cell_polygon_array cell) w = Some w1 ->
  for_each (fun p w => path ← flexpaths st !! p; Some (write_oas_flexpath path w))
    (cell_flexpath_array cell) w1 = Some w2 ->
  for_each (fun r w => ref ← references st !! r; write_oas_reference st m ref w)
    (cell_reference_array cell)
    (fold_left (fun w path => write_oas_robustpath path w) (cell_robustpath_array cell) w2)
  = Some w4 ->
  file_grows w w4.
Proof.
  intros H1 H2 H3.
  assert (G1 : file_grows w w1).
  { revert H1. apply grows_for_each. intros p s s' Hs.
    apply bind_Some in Hs as (poly & _ & Hs). injection Hs as <-. apply grows_call. }
  assert (G2 : file_grows w1 w2).
  { revert H2. apply grows_for_each. intros p s s' Hs.
    apply bind_Some in Hs as (path & _ & Hs). injection Hs as <-.
    unfold write_oas_flexpath.
    destruct (fp_gdsii_path path); [apply grows_call|apply grows_polygons]. }
  assert (G3 : file_grows w2 (fold_left (fun w path => write_oas_robustpath path w)
                                (cell_robustpath_array cell) w2)).
  { apply grows_fold_left. intros path s. unfold write_oas_robustpath.
    destruct (rp_gdsii_path path); [apply grows_call|apply grows_polygons]. }
  assert (G4 : file_grows (fold_left (fun w path => write_oas_robustpath path w)
                             (cell_robustpath_array cell) w2) w4).
  { revert H3. apply grows_for_each. intros r s s' Hs.
    apply bind_Some in Hs as (ref & _ & Hs). by eapply grows_reference. }
  etrans; [exact G1|]. etrans; [exact G2|]. etrans; [exact G3|exact G4].
Qed.

Lemma grows_cell_labels (st : Store) (cell : Cell) (w w' : Writer) :
  for_each (fun l w => label ← labels st !! l; write_oas_label label w)
    (cell_label_array cell) w = Some w' ->
  file_grows w w'.
Proof.
  apply grows_for_each. intros l s s' Hs.
  apply bind_Some in Hs as (label & _ & Hs). by eapply grows_label.
Qed.


End Write_oas_grows.



Section Write_oas_numbers.
Context {E : Externals}.


End Write_oas_numbers.

Lemma prefix_lookup_length (l1 l2 : bytes) (x : Z) (rest : bytes) :
  l1 ++ x :: rest `prefix_of` l2 -> l2 !! length l1 = Some x.
Proof.
  intros [more ->]. rewrite <- app_assoc. cbn [app]. by apply list_lookup_middle.
Qed.

Lemma fold_left_stream_prefix {A : Type} (body : OasisStream -> A -> OasisStream)
    (l : list A) :
  (forall a out, file out `prefix_of` file (body out a)) ->
  forall out, file out `prefix_of` file (fold_left body l out).
Proof.
  intros Hbody. induction l as [|a l IH]; intros out; simpl; [reflexivity|].
  etrans; [apply Hbody|apply IH].
Qed.

Lemma write_oas_name_item_file (record : OasisRecord) (item : bytes * Z) (out : OasisStream) :
  exists rest, file (write_oas_name_item record item out)
               = file out ++ uint8 (OasisRecord_code record) :: rest.
Proof.
  unfold write_oas_name_item.
  set (o1 := fputc (OasisRecord_code record) out).
  assert (H1 : file o1 = file out ++ [uint8 (OasisRecord_code record)]) by reflexivity.
  assert (G : file o1 `prefix_of`
              file (oasis_write (oasis_write_unsigned_integer item.2)
                      (fwrite (c_str item.1)
                         (oasis_write (oasis_write_unsigned_integer (strlen item.1)) o1)))).
  { etrans; [apply file_oasis_write_prefix|].
    etrans; [apply file_fwrite_prefix|]. apply file_oasis_write_prefix. }
  destruct G as [rest Hrest]. exists rest. rewrite Hrest, H1. by rewrite <- app_assoc.
Qed.

Lemma write_oas_propstring_file (value : bytes) (out : OasisStream) :
  exists rest, file (write_oas_propstring value out)
               = file out ++ uint8 (OasisRecord_code PROPSTRING_IMPLICIT) :: rest.
Proof.
  unfold write_oas_propstring.
  set (o1 := fputc (OasisRecord_code PROPSTRING_IMPLICIT) out).
  assert (H1 : file o1 = file out ++ [uint8 (OasisRecord_code PROPSTRING_IMPLICIT)])
    by reflexivity.
  assert (G : file o1 `prefix_of`
              file (fwrite value
                      (oasis_write (oasis_write_unsigned_integer (Z.of_nat (length value)))
                         o1))).
  { etrans; [apply file_oasis_write_prefix|]. apply file_fwrite_prefix. }
  destruct G as [rest Hrest]. exists rest. rewrite Hrest, H1. by rewrite <- app_assoc.
Qed.

(** A table that is not empty starts with the record byte of its first
    entry. *)
Lemma fold_left_table_file {A : Type} (body : OasisStream -> A -> OasisStream)
    (code : Z) (l : list A) (out : OasisStream) :
  (forall a out, exists rest, file (body out a) = file out ++ code :: rest) ->
  l <> [] ->
  exists rest, file (fold_left body l out) = file out ++ code :: rest.
Proof.
  intros Hbody Hl. destruct l as [|a l]; [done|]. simpl.
  destruct (Hbody a out) as [rest1 H1].
  assert (G : file (body out a) `prefix_of` file (fold_left body l (body out a))).
  { apply fold_left_stream_prefix. intros a' out'.
    destruct (Hbody a' out') as [r ->]. by apply prefix_app_r. }
  destruct G as [rest2 H2]. exists (rest1 ++ rest2). rewrite H2, H1.
  by rewrite <- app_assoc.
Qed.

Section Write_oas_offsets.
Context {E : Externals}.

#[local] Existing Instance file_grows_preorder.

Lemma grows_cellname (st : Store) (m : gmap bytes Properties) (c : ptr) (w w' : Writer) :
  write_oas_cellname st m c w = Some w' ->
  exists rest, file (w_out w')
               = file (w_out w) ++ uint8 (OasisRecord_code CELLNAME_IMPLICIT) :: rest.
Proof.
  unfold write_oas_cellname. intros Hw.
  apply bind_Some in Hw as (cell & _ & Hw).
  apply bind_Some in Hw as (name & _ & Hw).
  injection Hw as <-.
  set (w1 := with_out (fputc (OasisRecord_code CELLNAME_IMPLICIT)) w).
  assert (H1 : file (w_out w1)
               = file (w_out w) ++ [uint8 (OasisRecord_code CELLNAME_IMPLICIT)]) by reflexivity.
  assert (G : file_grows w1
                (call (properties_to_oas (default [] (m !! c_str name)))
                   (with_out (fwrite (c_str name))
                      (with_out (oasis_write (oasis_write_unsigned_integer (strlen name)))
                         w1)))).
  { etrans; [apply grows_oasis_write|]. etrans; [apply grows_fwrite|]. apply grows_call. }
  destruct G as [rest Hrest]. exists rest. rewrite Hrest, H1. by rewrite <- app_assoc.
Qed.

Lemma write_oas_cellnames_file (st : Store) (m : gmap bytes Properties) (cs : list ptr)
    (w w' : Writer) :
  for_each (write_oas_cellname st m) cs w = Some w' ->
  cs <> [] ->
  exists rest, file (w_out w')
               = file (w_out w) ++ uint8 (OasisRecord_code CELLNAME_IMPLICIT) :: rest.
Proof.
  intros Hrun Hcs. destruct cs as [|c cs]; [done|]. simpl in Hrun.
  apply bind_Some in Hrun as (w1 & H1 & Hrun).
  destruct (grows_cellname _ _ _ _ _ H1) as [rest1 Hr1].
  assert (G : file_grows w1 w').
  { revert Hrun. apply grows_for_each. intros c' s s' Hs.
    destruct (grows_cellname _ _ _ _ _ Hs) as [r Hr]. unfold file_grows. rewrite Hr.
    by apply prefix_app_r. }
  destruct G as [rest2 Hr2]. exists (rest1 ++ rest2). rewrite Hr2, Hr1.
  by rewrite <- app_assoc.
Qed.

(** The offsets that the END record stores lead to the tables: each is 0
    when its table is empty and otherwise the position in the file of the
    first record of the table, a CELLNAME, a TEXTSTRING, a PROPNAME or a
    PROPSTRING record. *)
Theorem write_oas_table_offsets (st : Store) (lib : Library) (tolerance : double)
    (deflate_level flags : Z) (content : bytes) (stderr : list string)
    (w : Writer) (t : TableOffsets) :
  write_oas st lib true tolerance deflate_level flags = Some (Some content, stderr) ->
  write_oas_body st lib deflate_level flags = Some (w, t) ->
  Z.of_nat (length content) < 2 ^ 64 ->
  (if decide (lib_cell_array lib = []) then cell_name_offset t = 0
   else byte_at content (cell_name_offset t) = Some (OasisRecord_code CELLNAME_IMPLICIT)) /\
  (if decide (size (w_text_string_map w) = 0%nat) then text_string_offset t = 0
   else byte_at content (text_string_offset t) = Some (OasisRecord_code TEXTSTRING)) /\
  (if decide (property_name_map (w_state w) = []) then prop_name_offset t = 0
   else byte_at content (prop_name_offset t) = Some (OasisRecord_code PROPNAME)) /\
  (if decide (property_value_array (w_state w) = []) then prop_string_offset t = 0
   else byte_at content (prop_string_offset t) = Some (OasisRecord_code PROPSTRING_IMPLICIT)).
Proof.
  intros Hwrite Hbody Hbound.
  unfold write_oas in Hwrite. rewrite Hbody in Hwrite. cbn [mbind option_bind] in Hwrite.
  assert (Hcontent : file (write_oas_end t (w_out w)) = content) by congruence.
  clear Hwrite.
  pose proof (write_oas_body_to_file _ _ _ _ _ _ Hbody) as Hf.
  rewrite (write_oas_end_file t _ Hf) in Hcontent.
  assert (Hfinal : file (w_out w) `prefix_of` content).
  { rewrite <- Hcontent. by apply prefix_app_r. }
  unfold write_oas_body in Hbody.
  apply bind_Some in Hbody as ([cell_name_map cell_property_map] & _ & Hbody).
  apply bind_Some in Hbody as (w1 & H1 & Hbody).
  apply bind_Some in Hbody as (w2 & H2 & Hbody).
  set (w3 := with_out (fun out => fold_left (fun out item => write_oas_name_item TEXTSTRING item out)
                                    (Map_items (w_text_string_map w2)) out) w2) in *.
  set (w4 := with_out (fun out => fold_left (fun out item => write_oas_name_item PROPNAME item out)
                                    (property_name_map (w_state w3)) out) w3) in *.
  injection Hbody as <- <-.
  cbn [cell_name_offset text_string_offset prop_name_offset prop_string_offset].
  cbn [w_text_string_map w_state with_out] in *.
  (* the streams, one after the other *)
  assert (G34 : file (w_out w3) `prefix_of` file (w_out w4)).
  { apply fold_left_stream_prefix. intros a out.
    destruct (write_oas_name_item_file PROPNAME a out) as [r ->]. by apply prefix_app_r. }
  set (w5 := with_out (fun out => fold_left (fun out value => write_oas_propstring value out)
                                    (property_value_array (w_state w4)) out) w4) in *.
  assert (G45 : file (w_out w4) `prefix_of` file (w_out w5)).
  { apply fold_left_stream_prefix. intros a out.
    destruct (write_oas_propstring_file a out) as [r ->]. by apply prefix_app_r. }
  assert (G23 : file (w_out w2) `prefix_of` file (w_out w3)).
  { apply fold_left_stream_prefix. intros a out.
    destruct (write_oas_name_item_file TEXTSTRING a out) as [r ->]. by apply prefix_app_r. }
  assert (Hlen : forall (wi : Writer), file (w_out wi) `prefix_of` content ->
                   uint64 (ftell (w_out wi)) = Z.of_nat (length (file (w_out wi)))).
  { intros wi Hp. apply prefix_length in Hp. unfold uint64, ftell.
    apply Z.mod_small. lia. }
  assert (P5 : file (w_out w5) `prefix_of` content) by exact Hfinal.
  assert (P4 : file (w_out w4) `prefix_of` content) by (by etrans).
  assert (P3 : file (w_out w3) `prefix_of` content) by (by etrans).
  assert (P2 : file (w_out w2) `prefix_of` content) by (by etrans).
  unfold byte_at.
  change (w_text_string_map w4) with (w_text_string_map w2).
  change (w_state w4) with (w_state w2).
  change (fold_left (fun out item => write_oas_name_item PROPNAME item out)
            (property_name_map (w_state w2))
            (fold_left (fun out item => write_oas_name_item TEXTSTRING item out)
               (Map_items (w_text_string_map w2)) (w_out w2)))
    with (w_out w4).
  change (fold_left (fun out item => write_oas_name_item TEXTSTRING item out)
            (Map_items (w_text_string_map w2)) (w_out w2))
    with (w_out w3).
  split; [|split; [|split]].
  - destruct (decide (lib_cell_array lib = [])) as [Hnil|Hne].
    + rewrite Hnil. reflexivity.
    + destruct (write_oas_cellnames_file _ _ _ _ _ H2 Hne) as [rest Hrest].
      assert (P1 : file (w_out w1) `prefix_of` content).
      { etrans; [|exact P2]. rewrite Hrest. by apply prefix_app_r. }
      destruct (lib_cell_array lib) as [|c0 cs0] eqn:Hcells; [done|].
      change (0 <? Z.of_nat (length (c0 :: cs0))) with true. cbn iota.
      rewrite (Hlen w1 P1), Nat2Z.id.
      apply (prefix_lookup_length _ _ _ rest). rewrite Hrest in P2. exact P2.
  - destruct (decide (size (w_text_string_map w2) = 0%nat)) as [Hnil|Hne].
    + rewrite Hnil. reflexivity.
    + destruct (0 <? Z.of_nat (size (w_text_string_map w2))) eqn:Hpos; [|lia].
      rewrite (Hlen w2 P2), Nat2Z.id.
      destruct (fold_left_table_file
                  (fun out item => write_oas_name_item TEXTSTRING item out)
                  (uint8 (OasisRecord_code TEXTSTRING))
                  (Map_items (w_text_string_map w2)) (w_out w2)) as [rest Hrest].
      { intros a out. apply write_oas_name_item_file. }
      { intros Hnil. apply Hne.
        pose proof (Map_items_perm (w_text_string_map w2)) as Hperm.
        rewrite Hnil in Hperm. symmetry in Hperm. apply Permutation_nil_r in Hperm.
        apply map_to_list_empty_iff in Hperm. rewrite Hperm. apply map_size_empty. }
      apply (prefix_lookup_length _ _ _ rest).
      change (file (w_out w3)) with
        (file (fold_left (fun out item => write_oas_name_item TEXTSTRING item out)
                 (Map_items (w_text_string_map w2)) (w_out w2))) in P3.
      by rewrite Hrest in P3.
  - destruct (decide (property_name_map (w_state w2) = [])) as [Hnil|Hne].
    + rewrite Hnil. reflexivity.
    + destruct (property_name_map (w_state w2)) as [|i0 is0] eqn:Hmap; [done|].
      change (0 <? Z.of_nat (length (i0 :: is0))) with true. cbn iota.
      rewrite (Hlen w3 P3), Nat2Z.id.
      destruct (fold_left_table_file
                  (fun out item => write_oas_name_item PROPNAME item out)
                  (uint8 (OasisRecord_code PROPNAME))
                  (i0 :: is0) (w_out w3)) as [rest Hrest]; [|done|].
      { intros a out. apply write_oas_name_item_file. }
      apply (prefix_lookup_length _ _ _ rest).
      change (file (w_out w4)) with
        (file (fold_left (fun out item => write_oas_name_item PROPNAME item out)
                 (property_name_map (w_state w3)) (w_out w3))) in P4.
      change (property_name_map (w_state w3)) with (property_name_map (w_state w2)) in P4.
      rewrite Hmap in P4. by rewrite Hrest in P4.
  - destruct (decide (property_value_array (w_state w2) = [])) as [Hnil|Hne].
    + rewrite Hnil. reflexivity.
    + destruct (property_value_array (w_state w2)) as [|v0 vs0] eqn:Hmap; [done|].
      change (0 <? Z.of_nat (length (v0 :: vs0))) with true. cbn iota.
      rewrite (Hlen w4 P4), Nat2Z.id.
      destruct (fold_left_table_file
                  (fun out value => write_oas_propstring value out)
                  (uint8 (OasisRecord_code PROPSTRING_IMPLICIT))
                  (v0 :: vs0) (w_out w4)) as [rest Hrest]; [|done|].
      { intros a out. apply write_oas_propstring_file. }
      apply (prefix_lookup_length _ _ _ rest).
      change (file (w_out w5)) with
        (file (fold_left (fun out value => write_oas_propstring value out)
                 (property_value_array (w_state w4)) (w_out w4))) in P5.
      change (property_value_array (w_state w4)) with (property_value_array (w_state w2)) in P5.
      rewrite Hmap in P5. by rewrite Hrest in P5.
Qed.

End Write_oas_offsets.

Lemma text_table_step_refl (w : Writer) : text_table_step w w.
Proof. split; [auto|reflexivity]. Qed.

Lemma text_table_step_trans (w1 w2 w3 : Writer) :
  text_table_step w1 w2 -> text_table_step w2 w3 -> text_table_step w1 w3.
Proof. intros [H1 S1] [H2 S2]. split; [auto|by etrans]. Qed.

Lemma text_table_step_same (w w' : Writer) :
  w_text_string_map w' = w_text_string_map w -> text_table_step w w'.
Proof. intros H. unfold text_table_step. rewrite H. split; [auto|reflexivity]. Qed.

Lemma text_numbers_ok_insert (m : gmap bytes Z) (k : bytes) :
  m !! k = None -> text_numbers_ok m ->
  text_numbers_ok (<[k := Z.of_nat (size m)]> m).
Proof.
  intros Hk Hok k1 v Hv. rewrite map_size_insert_None by exact Hk.
  destruct (decide (k = k1)) as [<-|Hne].
  - rewrite lookup_insert_eq in Hv. injection Hv as <-. split; [lia|].
    intros k' Hk'. destruct (decide (k = k')) as [<-|Hne']; [reflexivity|].
    rewrite lookup_insert_ne in Hk' by exact Hne'.
    destruct (Hok _ _ Hk') as [Hlt _]. lia.
  - rewrite lookup_insert_ne in Hv by exact Hne.
    destruct (Hok _ _ Hv) as [Hlt Hinj]. split; [lia|].
    intros k' Hk'. destruct (decide (k = k')) as [<-|Hne'].
    + rewrite lookup_insert_eq in Hk'. injection Hk' as <-. lia.
    + rewrite lookup_insert_ne in Hk' by exact Hne'. auto.
Qed.

Lemma for_each_step {A : Type} (body : A -> Writer -> option Writer) (l : list A) :
  (forall a w w', body a w = Some w' -> text_table_step w w') ->
  forall w w', for_each body l w = Some w' -> text_table_step w w'.
Proof.
  intros Hbody. induction l as [|a l IH]; intros w w' Hrun; simpl in Hrun.
  - injection Hrun as <-. apply text_table_step_refl.
  - apply bind_Some in Hrun as (w1 & H1 & Hrun).
    eapply text_table_step_trans; [by eapply Hbody|by apply IH].
Qed.

(** What a loop gave to every element stays when later turns keep it. *)
Lemma for_each_all {A : Type} (body : A -> Writer -> option Writer)
    (Q : A -> Writer -> Prop) (l : list A) :
  (forall a w w', body a w = Some w' -> text_table_step w w' /\ Q a w') ->
  (forall a w w', Q a w -> text_table_step w w' -> Q a w') ->
  forall w w', for_each body l w = Some w' -> forall a, a ∈ l -> Q a w'.
Proof.
  intros Hbody Hmono. induction l as [|a0 l IH]; intros w w' Hrun a Hin; simpl in Hrun.
  - by apply elem_of_nil in Hin.
  - apply bind_Some in Hrun as (w1 & H1 & Hrun).
    apply elem_of_cons in Hin as [->|Hin]; [|by eapply IH].
    apply (Hmono a0 w1 w'); [by apply (Hbody a0 w w1)|].
    revert Hrun. apply for_each_step. intros a' s s' Hs. by apply (Hbody a' s s').
Qed.

Section Write_oas_texts.
Context {E : Externals}.

Lemma call_text (f : OasisState -> bytes * OasisState) (w : Writer) :
  w_text_string_map (call f w) = w_text_string_map w.
Proof. unfold call. by destruct (f (w_state w)). Qed.

Lemma fold_left_text {A : Type} (body : Writer -> A -> Writer) (l : list A) :
  (forall a w, w_text_string_map (body w a) = w_text_string_map w) ->
  forall w, w_text_string_map (fold_left body l w) = w_text_string_map w.
Proof.
  intros Hbody. induction l as [|a l IH]; intros w; simpl; [reflexivity|].
  by rewrite IH, Hbody.
Qed.

Lemma polygons_text (polys : list Polygon) (w : Writer) :
  w_text_string_map (write_oas_polygons polys w) = w_text_string_map w.
Proof. unfold write_oas_polygons. apply fold_left_text. intros. apply call_text. Qed.

Lemma reference_text (st : Store) (m : gmap bytes Z) (ref : Reference) (w w' : Writer) :
  write_oas_reference st m ref w = Some w' ->
  w_text_string_map w' = w_text_string_map w.
Proof.
  unfold write_oas_reference, reference_tail. intros Hw.
  destruct (ref_type ref);
    repeat match type of Hw with
    | (_ ≫= _) = Some _ => apply bind_Some in Hw as (? & _ & Hw)
    | match ?x with _ => _ end = Some _ => destruct x
    end;
    injection Hw as <-; rewrite ?call_text;
    repeat match goal with |- context [if ?b then _ else _] => destruct b end;
    reflexivity.
Qed.

(** The body of the label loop: a text that is in the table keeps its
    number, a new one gets the size of the table. *)
Lemma label_text_step (label : Label) (w w' : Writer) :
  write_oas_label label w = Some w' ->
  text_table_step w w' /\
  exists text, label_text label = Some text /\
               is_Some (w_text_string_map w' !! c_str text).
Proof.
  unfold write_oas_label. intros Hw.
  apply bind_Some in Hw as (text & Htext & Hw).
  cbn [w_text_string_map with_out] in Hw.
  destruct (w_text_string_map w !! c_str text) as [i|] eqn:Hlook.
  - injection Hw as <-. rewrite call_text.
    assert (Hsame : forall x : Writer,
              w_text_string_map
                (if 1 <? Repetition_get_size (label_repetition label)
                 then with_out (oasis_write (oasis_write_repetition (label_repetition label)
                                               (scaling (w_state w)))) x
                 else x) = w_text_string_map x)
      by (intros x; by destruct (1 <? _)).
    split.
    + apply text_table_step_same. rewrite call_text. by rewrite Hsame.
    + exists text. split; [exact Htext|]. rewrite Hsame. cbn. rewrite Hlook. eauto.
  - injection Hw as <-. rewrite call_text.
    assert (Hsame : forall x : Writer,
              w_text_string_map
                (if 1 <? Repetition_get_size (label_repetition label)
                 then with_out (oasis_write (oasis_write_repetition (label_repetition label)
                                               (scaling (w_state w)))) x
                 else x) = w_text_string_map x)
      by (intros x; by destruct (1 <? _)).
    split.
    + unfold text_table_step. rewrite call_text, Hsame. cbn [w_text_string_map with_out].
      split; [by apply text_numbers_ok_insert|by apply insert_subseteq].
    + exists text. split; [exact Htext|]. rewrite Hsame. cbn [w_text_string_map with_out].
      rewrite lookup_insert_eq. eauto.
Qed.

Lemma for_each_text_same {A : Type} (body : A -> Writer -> option Writer) (l : list A) :
  (forall a w w', body a w = Some w' -> w_text_string_map w' = w_text_string_map w) ->
  forall w w', for_each body l w = Some w' -> w_text_string_map w' = w_text_string_map w.
Proof.
  intros Hbody. induction l as [|a l IH]; intros w w' Hrun; simpl in Hrun.
  - by injection Hrun as <-.
  - apply bind_Some in Hrun as (w1 & H1 & Hrun).
    rewrite (IH _ _ Hrun). by eapply Hbody.
Qed.

Lemma label_in_table_mono (st : Store) (l : ptr) (w w' : Writer) :
  label_in_table st l w -> text_table_step w w' -> label_in_table st l w'.
Proof.
  intros Hin [_ Hsub] label text Hl Ht. destruct (Hin label text Hl Ht) as [i Hi].
  exists i. by eapply lookup_weaken.
Qed.

Lemma cblock_text (deflate_level : Z) (w w' : Writer) :
  write_oas_cblock deflate_level w = Some w' ->
  w_text_string_map w' = w_text_string_map w.
Proof.
  unfold write_oas_cblock. intros Hw.
  apply bind_Some in Hw as (buf & _ & Hw).
  destruct (zlib_deflate deflate_level buf) as [[init_ok stream_end] buffer].
  injection Hw as <-. by destruct init_ok, stream_end.
Qed.

Lemma cell_text_step (st : Store) (m : gmap bytes Z) (use_cblock : bool)
    (deflate_level : Z) (c : ptr) (w w' : Writer) :
  write_oas_cell st m use_cblock deflate_level c w = Some w' ->
  text_table_step w w' /\
  forall cell l, cells st !! c = Some cell -> l ∈ cell_label_array cell ->
                 label_in_table st l w'.
Proof.
  unfold write_oas_cell. intros Hw.
  apply bind_Some in Hw as (cell & Hcell & Hw).
  apply bind_Some in Hw as (name & _ & Hw).
  apply bind_Some in Hw as (w1 & H1 & Hw).
  apply bind_Some in Hw as (w2 & H2 & Hw).
  apply bind_Some in Hw as (w3 & H3 & Hw).
  apply bind_Some in Hw as (w4 & H4 & Hw).
  assert (S1 : text_table_step w w1).
  { match type of H1 with
    | for_each _ _ ?s = _ => apply (text_table_step_trans w s w1)
    end; [|revert H1; apply for_each_step].
    - apply text_table_step_same. by destruct use_cblock.
    - intros p s s' Hs. apply bind_Some in Hs as (poly & _ & Hs). injection Hs as <-.
      apply text_table_step_same, call_text. }
  assert (S2 : text_table_step w1 w2).
  { revert H2. apply for_each_step. intros p s s' Hs.
    apply bind_Some in Hs as (path & _ & Hs). injection Hs as <-.
    apply text_table_step_same. unfold write_oas_flexpath.
    destruct (fp_gdsii_path path); [apply call_text|apply polygons_text]. }
  assert (S3 : text_table_step w2 w3).
  { match type of H3 with
    | for_each _ _ ?s = _ => apply (text_table_step_trans w2 s w3)
    end; [|revert H3; apply for_each_step].
    - apply text_table_step_same, fold_left_text. intros path s.
      unfold write_oas_robustpath.
      destruct (rp_gdsii_path path); [apply call_text|apply polygons_text].
    - intros r s s' Hs. apply bind_Some in Hs as (ref & _ & Hs).
      apply text_table_step_same. by eapply reference_text. }
  assert (Hbody : forall l s s',
            (label ← labels st !! l; write_oas_label label s) = Some s' ->
            text_table_step s s' /\ label_in_table st l s').
  { intros l s s' Hs. apply bind_Some in Hs as (label & Hl & Hs).
    destruct (label_text_step _ _ _ Hs) as (Hstep & text & Ht & Hin).
    split; [exact Hstep|]. intros label' text' Hl' Ht'.
    assert (label' = label) as -> by congruence.
    assert (text' = text) as -> by congruence. exact Hin. }
  assert (S4 : text_table_step w3 w4).
  { revert H4. apply for_each_step. intros l s s' Hs. by apply Hbody in Hs as [? _]. }
  assert (Q4 : forall l, l ∈ cell_label_array cell -> label_in_table st l w4).
  { revert H4. apply for_each_all; [exact Hbody|apply label_in_table_mono]. }
  assert (S5 : text_table_step w4 w').
  { destruct use_cblock.
    - apply text_table_step_same. by eapply cblock_text.
    - injection Hw as <-. apply text_table_step_refl. }
  split.
  - eapply text_table_step_trans; [exact S1|].
    eapply text_table_step_trans; [exact S2|].
    eapply text_table_step_trans; [exact S3|].
    eapply text_table_step_trans; [exact S4|exact S5].
  - intros cell' l Hcell' Hl. assert (cell' = cell) as -> by congruence.
    eapply label_in_table_mono; [by apply Q4|exact S5].
Qed.

Lemma cellname_text (st : Store) (m : gmap bytes Properties) (c : ptr) (w w' : Writer) :
  write_oas_cellname st m c w = Some w' ->
  w_text_string_map w' = w_text_string_map w.
Proof.
  unfold write_oas_cellname. intros Hw.
  apply bind_Some in Hw as (cell & _ & Hw).
  apply bind_Some in Hw as (name & _ & Hw).
  injection Hw as <-. by rewrite call_text.
Qed.

(** The table of text strings that [write_oas] builds, from which the
    TEXTSTRING records are written: every text of a label of a cell of
    the library is in it, under one number; the numbers are those from 0
    to the size of the table less 1, and two different texts (as C
    strings) never get the same number. *)
Theorem write_oas_text_strings (st : Store) (lib : Library) (deflate_level flags : Z)
    (w : Writer) (t : TableOffsets) :
  write_oas_body st lib deflate_level flags = Some (w, t) ->
  text_numbers_ok (w_text_string_map w) /\
  forall c cell l label text,
    c ∈ lib_cell_array lib -> cells st !! c = Some cell -> l ∈ cell_label_array cell ->
    labels st !! l = Some label -> label_text label = Some text ->
    is_Some (w_text_string_map w !! c_str text).
Proof.
  unfold write_oas_body. intros Hbody.
  apply bind_Some in Hbody as ([cell_name_map cell_property_map] & _ & Hbody).
  apply bind_Some in Hbody as (w1 & H1 & Hbody).
  apply bind_Some in Hbody as (w2 & H2 & Hbody).
  injection Hbody as <- _. cbn [w_text_string_map with_out].
  set (w0 := call (properties_to_oas (lib_properties lib)) _) in H1.
  assert (H0 : w_text_string_map w0 = ∅) by (unfold w0; by rewrite call_text).
  assert (S1 : text_table_step w0 w1).
  { revert H1. apply for_each_step. intros c s s' Hs. by apply cell_text_step in Hs as [? _]. }
  assert (Q1 : forall c, c ∈ lib_cell_array lib ->
                 forall cell l, cells st !! c = Some cell -> l ∈ cell_label_array cell ->
                                label_in_table st l w1).
  { revert H1.
    apply (for_each_all _ (fun c w => forall cell l, cells st !! c = Some cell ->
                                        l ∈ cell_label_array cell -> label_in_table st l w)).
    - intros c s s'. apply cell_text_step.
    - intros c s s' Hq Hstep cell l Hc Hl. eapply label_in_table_mono; [by eapply Hq|done]. }
  assert (S2 : w_text_string_map w2 = w_text_string_map w1).
  { revert H2. apply for_each_text_same. intros c s s'. apply cellname_text. }
  rewrite S2. split.
  - apply (proj1 S1). rewrite H0. intros k v Hk. by rewrite lookup_empty in Hk.
  - intros c cell l label text Hc Hcell Hl Hlabel Htext.
    exact (Q1 c Hc cell l Hcell Hl label text Hlabel Htext).
Qed.

End Write_oas_texts.

Lemma be_bytes_length (n : nat) (v : Z) : length (be_bytes n v) = n.
Proof. induction n as [|n IH]; simpl; [reflexivity|by rewrite IH]. Qed.

Lemma be_bytes_2 (v : Z) : be_bytes 2 v = [(v / 256) mod 256; v mod 256].
Proof. unfold be_bytes. by rewrite Z.pow_0_r, Z.div_1_r. Qed.

Lemma framed_length (type dtype : Z) (payload : bytes) :
  length (framed type dtype payload) = (4 + length payload)%nat.
Proof. unfold framed. rewrite !length_app, be_bytes_length. reflexivity. Qed.

(** [gdsii_read_record] reads back a framed record. *)
Lemma gdsii_read_record_framed (type dtype : Z) (payload rest : bytes) :
  4 + Z.of_nat (length payload) < 65536 ->
  gdsii_read_record (framed type dtype payload ++ rest)
  = Some (framed type dtype payload, rest).
Proof.
  intros Hlen. unfold framed. rewrite be_bytes_2. cbn [app].
  unfold gdsii_read_record.
  set (n := 4 + Z.of_nat (length payload)) in *.
  assert (Hge : 4 <= n) by (unfold n; lia).
  assert (Hnp : Z.to_nat (n - 4) = length payload) by (unfold n; lia).
  assert (Hnl : n - 4 = Z.of_nat (length payload)) by (unfold n; lia).
  clearbody n.
  assert (Hn : 256 * ((n / 256) mod 256) + n mod 256 = n).
  { rewrite (Z.mod_small (n / 256)).
    - pose proof (Z.div_mod n 256 ltac:(lia)). lia.
    - split; [apply Z.div_pos; lia|apply Z.div_lt_upper_bound; lia]. }
  rewrite Hn.
  destruct (Z.ltb_spec n 4) as [H4|H4]; [exfalso; lia|].
  destruct (Z.ltb_spec (Z.of_nat (length (payload ++ rest))) (n - 4)) as [Hb|Hb].
  { rewrite length_app in Hb. exfalso. lia. }
  rewrite Hnp.
  by rewrite take_app_length, drop_app_length.
Qed.

Lemma gdsii_records_framed (type dtype : Z) (payload rest : bytes) :
  4 + Z.of_nat (length payload) < 65536 ->
  gdsii_records (framed type dtype payload ++ rest)
  = framed type dtype payload :: gdsii_records rest.
Proof.
  intros Hlen.
  transitivity (gdsii_records_fuel (S (length (framed type dtype payload ++ rest)))
                  (framed type dtype payload ++ rest));
    [symmetry; apply gdsii_records_fuel_enough; lia|].
  cbn [gdsii_records_fuel].
  rewrite (gdsii_read_record_framed _ _ _ _ Hlen).
  f_equal. apply gdsii_records_fuel_enough. rewrite length_app. lia.
Qed.

Lemma gdsii_records_nil : gdsii_records [] = [].
Proof. reflexivity. Qed.

(** The bytes of a word, least significant first, give the word back. *)
Lemma le_unsigned_app (l : bytes) (x : Z) :
  le_unsigned (l ++ [x]) = le_unsigned l + 256 ^ Z.of_nat (length l) * x.
Proof.
  induction l as [|a l IH]; cbn [app le_unsigned fold_right length].
  - lia.
  - fold (le_unsigned (l ++ [x])). fold (le_unsigned l). rewrite IH.
    rewrite Nat2Z.inj_succ, Z.pow_succ_r by lia. lia.
Qed.

Lemma le_unsigned_be_bytes (n : nat) (v : Z) :
  le_unsigned (rev (be_bytes n v)) = v mod 256 ^ Z.of_nat n.
Proof.
  induction n as [|n IH].
  - simpl. by rewrite Z.mod_1_r.
  - cbn [be_bytes rev]. rewrite le_unsigned_app, length_rev, be_bytes_length, IH.
    rewrite Nat2Z.inj_succ, Z.pow_succ_r by lia.
    rewrite (Z.mul_comm 256), Z.rem_mul_r by lia. lia.
Qed.

Lemma c_str_nonzero (s : bytes) : Forall (fun c => c <> 0) (c_str s).
Proof.
  induction s as [|c s IH]; simpl; [constructor|].
  destruct (Z.eqb_spec c 0); [constructor|by constructor].
Qed.

Lemma buf_read_payload (head payload rest : bytes) (n : nat) :
  length head = 4%nat -> (n <= length payload)%nat ->
  buf_read (head ++ payload ++ rest) 4 n = take n payload.
Proof.
  intros Hh Hn. apply (list_eq_same_length _ _ n);
    [by rewrite length_take; lia|apply buf_read_length|].
  intros i x y Hi Hx Hy.
  apply nth_lookup_Some with (d := 0) in Hx.
  change (buf_get (buf_read (head ++ payload ++ rest) 4 n) i = x) in Hx.
  rewrite buf_get_buf_read in Hx by exact Hi.
  rewrite <- Hh, buf_get_app_r, buf_get_app_l in Hx by lia.
  rewrite lookup_take_lt in Hy by exact Hi.
  apply nth_lookup_Some with (d := 0) in Hy. unfold buf_get in Hx. congruence.
Qed.

Section Write_then_read_gds.
Context {E : Externals}.

Lemma tm_words_bytes (t : tm) : length (flat_map (be_bytes 2) (tm_words t)) = 12%nat.
Proof. reflexivity. Qed.

Lemma write_gds_envelope (st : Store) (lib : Library) (name : bytes) (max_points : Z)
    (timestamp : option tm) (now : tm) :
  lib_name lib = Some name -> strlen name < 65531 ->
  lib_cell_array lib = [] -> lib_rawcell_array lib = [] ->
  write_gds st lib true max_points timestamp now
  = Some (Some (concat (gds_envelope name (default now timestamp)
                          (gdsii_real_from_double
                             (PrimFloat.div (lib_precision lib) (lib_unit lib)))
                          (gdsii_real_from_double (lib_precision lib)))
                ++ framed 4 0 []), []).
Proof.
  intros Hname Hlen Hcells Hraw. unfold write_gds.
  rewrite Hname, Hcells, Hraw. cbn [mbind option_bind for_each fold_left].
  do 2 f_equal. unfold gds_envelope, framed.
  assert (Hpad : length (c_str name ++ (if strlen name mod 2 =? 0 then [] else [0]))
                 = Z.to_nat (if negb (strlen name mod 2 =? 0) then strlen name + 1
                             else strlen name)).
  { rewrite length_app. unfold strlen. destruct (_ mod 2 =? 0); cbn [negb length]; lia. }
  rewrite Hpad.
  assert (H16 : uint16 (4 + (if negb (strlen name mod 2 =? 0) then strlen name + 1
                              else strlen name))
                = 4 + Z.of_nat (Z.to_nat (if negb (strlen name mod 2 =? 0)
                                          then strlen name + 1 else strlen name))).
  { unfold uint16, strlen in *. rewrite Z.mod_small; destruct (_ mod 2 =? 0); cbn [negb]; lia. }
  rewrite H16.
  rewrite !flat_map_app. cbn [flat_map concat length app].
  rewrite !length_app, !tm_words_bytes, !be_bytes_length.
  change (be_bytes 2 6) with [0; 6]. change (be_bytes 2 2) with [0; 2].
  change (be_bytes 2 600) with [2; 88]. change (be_bytes 2 28) with [0; 28].
  change (be_bytes 2 258) with [1; 2]. change (be_bytes 2 518) with [2; 6].
  change (be_bytes 2 20) with [0; 20]. change (be_bytes 2 773) with [3; 5].
  change (be_bytes 2 4) with [0; 4]. change (be_bytes 2 1024) with [4; 0].
  change (be_bytes 2 (4 + Z.of_nat 2)) with [0; 6].
  change (be_bytes 2 (4 + Z.of_nat (12 + 12))) with [0; 28].
  change (be_bytes 2 (4 + Z.of_nat (8 + 8))) with [0; 20].
  change (be_bytes 2 (4 + Z.of_nat 0)) with [0; 4].
  destruct (strlen name mod 2 =? 0); cbn [negb app];
    repeat first [rewrite <- app_assoc | rewrite <- app_comm_cons | rewrite app_nil_r
                 | rewrite app_nil_l]; reflexivity.
Qed.

(** Loading a framed record: the data length and the buffer. *)
Lemma gds_load_framed (type dtype : Z) (payload : bytes) (s : GdsState) :
  exists data_length buf,
    gds_load (framed type dtype payload) s = (data_length, set_buffer buf s) /\
    buf_get buf 2 = type /\
    (GdsiiDataType_of_code dtype = Some AsciiString ->
     data_length = Z.of_nat (length payload) /\
     exists rest, buf = be_bytes 2 (4 + Z.of_nat (length payload)) ++ [type; dtype]
                          ++ payload ++ rest).
Proof.
  unfold gds_load.
  destruct (gds_decode _ _) as [data_length buf] eqn:Hdec.
  exists data_length, buf. split; [reflexivity|].
  assert (Hload : exists rest,
            buf_load (framed type dtype payload) (g_buffer s)
            = be_bytes 2 (4 + Z.of_nat (length payload)) ++ [type; dtype] ++ payload ++ rest).
  { unfold buf_load, framed. eexists. rewrite <- !app_assoc. reflexivity. }
  destruct Hload as [rest Hload]. rewrite Hload, be_bytes_2, framed_length in Hdec.
  cbn [app] in Hdec. unfold gds_decode in Hdec.
  change (buf_get (?a :: ?b :: ?c :: ?d :: ?l) 3) with d in Hdec.
  split.
  - destruct (GdsiiDataType_of_code dtype) as [[]|]; injection Hdec as _ <-; reflexivity.
  - intros Hd. rewrite Hd in Hdec. injection Hdec as <- <-.
    split; [lia|]. exists rest. by rewrite be_bytes_2.
Qed.

(** HEADER and BGNLIB change nothing but the buffer. *)
Lemma read_gds_turn_skip (unit tolerance : double) (type dtype : Z) (payload : bytes)
    (s : GdsState) :
  type = GdsiiRecord_code HEADER \/ type = GdsiiRecord_code BGNLIB ->
  exists buf,
    read_gds_turns unit tolerance [framed type dtype payload] s = Some (set_buffer buf s).
Proof.
  intros Hty. cbn [read_gds_turns].
  destruct (gds_load_framed type dtype payload s) as (dl & buf & -> & Hcode & _).
  exists buf. unfold read_gds_record. cbn [g_buffer set_buffer]. rewrite Hcode.
  destruct Hty as [-> | ->]; reflexivity.
Qed.

(** LIBNAME with the name as [write_gds] pads it. *)
Lemma read_gds_turn_libname (unit tolerance : double) (name : bytes) (s : GdsState) :
  1 <= strlen name ->
  exists buf,
    read_gds_turns unit tolerance
      [framed 2 6 (c_str name ++ (if strlen name mod 2 =? 0 then [] else [0]))] s
    = Some (with_library (lib_set_name (Some (c_str name))) (set_buffer buf s)).
Proof.
  intros Hlen. cbn [read_gds_turns].
  set (payload := c_str name ++ (if strlen name mod 2 =? 0 then [] else [0])).
  destruct (gds_load_framed 2 6 payload s) as (dl & buf & -> & Hcode & Hascii).
  destruct (Hascii eq_refl) as (-> & rest & Hbuf). clear Hascii.
  exists buf. unfold read_gds_record. cbn [g_buffer set_buffer]. rewrite Hcode.
  change (fst <$> GdsiiRecord_of_code 2) with (Some LIBNAME). cbn iota.
  assert (Hname : gds_string buf (Z.of_nat (length payload)) = Some (c_str name));
    [|by rewrite Hname].
  unfold gds_string.
  assert (Hpl : (1 <= length payload)%nat).
  { unfold payload, strlen in *. rewrite length_app. lia. }
  destruct (Z.eqb_spec (Z.of_nat (length payload)) 0) as [H0|_]; [lia|].
  assert (Hhead : length (be_bytes 2 (4 + Z.of_nat (length payload)) ++ [2; 6]) = 4%nat)
    by (by rewrite length_app, be_bytes_length).
  assert (Hbuf' : buf = (be_bytes 2 (4 + Z.of_nat (length payload)) ++ [2; 6])
                          ++ payload ++ rest).
  { rewrite Hbuf. by rewrite <- !app_assoc. }
  assert (Hlast : str buf (Z.to_nat (Z.of_nat (length payload) - 1))
                  = buf_get payload (length payload - 1)).
  { unfold str. rewrite Hbuf'. rewrite <- Hhead at 1.
    rewrite buf_get_app_r, buf_get_app_l by lia. f_equal. lia. }
  rewrite Hlast. unfold payload at 1 2.
  destruct (Z.eqb_spec (strlen name mod 2) 0) as [Heven|Hodd].
  - (* no padding: the last byte is a byte of the name *)
    rewrite app_nil_r.
    assert (Hnz : buf_get (c_str name) (length (c_str name) - 1) <> 0).
    { pose proof (c_str_nonzero name) as Hall.
      rewrite Forall_forall in Hall. apply Hall. unfold buf_get.
      apply list_elem_of_In. apply nth_In. unfold strlen in Hlen. lia. }
    destruct (Z.eqb_spec (buf_get (c_str name) (length (c_str name) - 1)) 0); [done|].
    f_equal. rewrite Hbuf', Nat2Z.id, buf_read_payload by (exact Hhead || lia).
    unfold payload. destruct (Z.eqb_spec (strlen name mod 2) 0); [|done].
    by rewrite app_nil_r, take_ge by lia.
  - assert (Hz : buf_get (c_str name ++ [0]) (length (c_str name ++ [0]) - 1) = 0).
    { rewrite length_app. cbn [length].
      replace (length (c_str name) + 1 - 1)%nat with (length (c_str name) + 0)%nat by lia.
      by rewrite buf_get_app_r. }
    rewrite Hz. cbn [Z.eqb]. f_equal. rewrite Hbuf'.
    rewrite buf_read_payload; [|exact Hhead|lia].
    unfold payload. destruct (Z.eqb_spec (strlen name mod 2) 0); [done|].
    rewrite length_app. cbn [length].
    replace (Z.to_nat (Z.of_nat (length (c_str name) + 1) - 1)) with (length (c_str name))
      by lia.
    by rewrite take_app_length.
Qed.

Lemma payload_word_framed (type dtype v0 v1 : Z) :
  0 <= v0 < 2 ^ 64 -> 0 <= v1 < 2 ^ 64 ->
  payload_word (framed type dtype (be_bytes 8 v0 ++ be_bytes 8 v1)) 0 = v0 /\
  payload_word (framed type dtype (be_bytes 8 v0 ++ be_bytes 8 v1)) 1 = v1.
Proof.
  intros H0 H1. unfold payload_word, framed.
  set (head := be_bytes 2 (4 + Z.of_nat (length (be_bytes 8 v0 ++ be_bytes 8 v1)))).
  assert (Hh : length (head ++ [type; dtype]) = 4%nat)
    by (unfold head; by rewrite length_app, be_bytes_length).
  split.
  - replace (head ++ [type; dtype] ++ be_bytes 8 v0 ++ be_bytes 8 v1)
      with ((head ++ [type; dtype]) ++ be_bytes 8 v0 ++ be_bytes 8 v1)
      by (by rewrite <- !app_assoc).
    rewrite buf_read_payload by (rewrite ?be_bytes_length; lia).
    rewrite <- (be_bytes_length 8 v0) at 1. rewrite firstn_all.
    rewrite le_unsigned_be_bytes. apply Z.mod_small. exact H0.
  - replace (head ++ [type; dtype] ++ be_bytes 8 v0 ++ be_bytes 8 v1)
      with (((head ++ [type; dtype]) ++ be_bytes 8 v0) ++ be_bytes 8 v1 ++ [])
      by (by rewrite app_nil_r, <- !app_assoc).
    assert (Hr : buf_read (((head ++ [type; dtype]) ++ be_bytes 8 v0) ++ be_bytes 8 v1 ++ [])
                   (4 + 8 * 1) 8 = be_bytes 8 v1).
    { apply (list_eq_same_length _ _ 8); [apply be_bytes_length|apply buf_read_length|].
      intros i x y Hi Hx Hy.
      apply nth_lookup_Some with (d := 0) in Hx.
      change (buf_get (buf_read (((head ++ [type; dtype]) ++ be_bytes 8 v0)
                                   ++ be_bytes 8 v1 ++ []) (4 + 8 * 1) 8) i = x) in Hx.
      rewrite buf_get_buf_read in Hx by exact Hi.
      replace (4 + 8 * 1 + i)%nat
        with (length ((head ++ [type; dtype]) ++ be_bytes 8 v0) + i)%nat in Hx
        by (rewrite length_app, Hh, be_bytes_length; lia).
      rewrite buf_get_app_r, buf_get_app_l in Hx by (rewrite be_bytes_length; lia).
      apply nth_lookup_Some with (d := 0) in Hy. unfold buf_get in Hx. congruence. }
    rewrite Hr, le_unsigned_be_bytes. apply Z.mod_small. exact H1.
Qed.

(** UNITS with two eight-byte words. *)
Lemma read_gds_turn_units_framed (unit tolerance : double) (v0 v1 : Z) (s : GdsState) :
  0 <= v0 < 2 ^ 64 -> 0 <= v1 < 2 ^ 64 ->
  exists buf,
    read_gds_turns unit tolerance [framed 3 5 (be_bytes 8 v0 ++ be_bytes 8 v1)] s
    = Some (if PrimFloat.ltb 0%float unit
            then with_library (lib_set_units unit (gdsii_real_to_double v1))
                   (set_factor (PrimFloat.div (gdsii_real_to_double v1) unit)
                      (set_buffer buf s))
            else with_library
                   (lib_set_units (PrimFloat.div (gdsii_real_to_double v1)
                                     (gdsii_real_to_double v0))
                      (gdsii_real_to_double v1))
                   (set_factor (gdsii_real_to_double v0) (set_buffer buf s))).
Proof.
  intros H0 H1. cbn [read_gds_turns].
  set (units := framed 3 5 (be_bytes 8 v0 ++ be_bytes 8 v1)).
  assert (Hlen : length units = 20%nat).
  { unfold units. by rewrite framed_length, length_app, !be_bytes_length. }
  assert (Hload :
    gds_load units s
    = (2, set_buffer (take 4 (buf_load units (g_buffer s))
                        ++ big_endian_swap 8 2 (drop 4 (buf_load units (g_buffer s)))) s)).
  { unfold gds_load, gds_decode.
    assert (buf_get (buf_load units (g_buffer s)) 3 = 5) as ->.
    { unfold buf_load. rewrite buf_get_app_l by lia. unfold units, framed.
      by rewrite be_bytes_2. }
    change (GdsiiDataType_of_code 5) with (Some EightByteReal). cbv beta iota zeta.
    rewrite Hlen. reflexivity. }
  rewrite Hload. eexists.
  unfold read_gds_record. cbn [g_buffer set_buffer].
  assert (Hcode : buf_get (take 4 (buf_load units (g_buffer s))
                             ++ big_endian_swap 8 2 (drop 4 (buf_load units (g_buffer s)))) 2
                  = GdsiiRecord_code UNITS).
  { rewrite buf_get_app_l by (rewrite length_take; unfold buf_load; rewrite length_app; lia).
    assert (Hx : forall l : bytes, (4 <= length l)%nat -> buf_get (take 4 l) 2 = buf_get l 2).
    { intros [|a [|b [|c [|d l]]]] Hl; simpl in Hl; try lia. reflexivity. }
    rewrite Hx by (unfold buf_load; rewrite length_app; lia).
    unfold buf_load. rewrite buf_get_app_l by lia. unfold units, framed.
    by rewrite be_bytes_2. }
  rewrite Hcode.
  change (fst <$> GdsiiRecord_of_code (GdsiiRecord_code UNITS)) with (Some UNITS).
  cbv beta iota zeta.
  rewrite !data64_swapped by lia.
  destruct (payload_word_framed 3 5 v0 v1 H0 H1) as [Hw0 Hw1].
  fold units in Hw0, Hw1. rewrite Hw0, Hw1.
  destruct (PrimFloat.ltb 0 unit); reflexivity.
Qed.

(** A library without cells, with a name that is not empty, written by
    [write_gds] and read back by [read_gds]: the library read has the
    name as a C string and the same precision; its unit is the one asked
    for, or else the precision divided by the quotient written,
    [precision / (precision / unit)]; it has no cells and nothing is
    logged.  The two reals have to survive their eight-byte encoding. *)
Theorem write_gds_read_gds (st : Store) (lib : Library) (name : bytes) (max_points : Z)
    (timestamp : option tm) (now : tm) (content buffer : bytes) (stderr : list string)
    (unit tolerance : double) :
  lib_name lib = Some name -> 1 <= strlen name < 65531 ->
  lib_cell_array lib = [] -> lib_rawcell_array lib = [] ->
  let ratio := PrimFloat.div (lib_precision lib) (lib_unit lib) in
  0 <= gdsii_real_from_double ratio < 2 ^ 64 ->
  0 <= gdsii_real_from_double (lib_precision lib) < 2 ^ 64 ->
  gdsii_real_to_double (gdsii_real_from_double ratio) = ratio ->
  gdsii_real_to_double (gdsii_real_from_double (lib_precision lib)) = lib_precision lib ->
  write_gds st lib true max_points timestamp now = Some (Some content, stderr) ->
  read_gds buffer (Some content) unit tolerance
  = Some (mkLibrary (Some (c_str name))
            (if PrimFloat.ltb 0%float unit then unit
             else PrimFloat.div (lib_precision lib) ratio)
            (lib_precision lib) [] [] [],
          Store_empty, []).
Proof.
  intros Hname [Hlen1 Hlen2] Hcells Hraw ratio Hr0 Hr1 Hrt0 Hrt1 Hwrite.
  subst ratio.
  rewrite (write_gds_envelope st lib name max_points timestamp now Hname Hlen2 Hcells Hraw)
    in Hwrite.
  assert (Hcontent : content
                     = concat (gds_envelope name (default now timestamp)
                                 (gdsii_real_from_double
                                    (PrimFloat.div (lib_precision lib) (lib_unit lib)))
                                 (gdsii_real_from_double (lib_precision lib)))
                         ++ framed 4 0 []) by congruence.
  clear Hwrite. subst content. unfold read_gds.
  set (v0 := gdsii_real_from_double (PrimFloat.div (lib_precision lib) (lib_unit lib))) in *.
  set (v1 := gdsii_real_from_double (lib_precision lib)) in *.
  assert (Hpad : 4 + Z.of_nat (length (c_str name ++ (if strlen name mod 2 =? 0 then []
                                                       else [0]))) < 65536).
  { rewrite length_app. unfold strlen in *. destruct (_ mod 2 =? 0); cbn [length]; lia. }
  assert (Hrecords :
    gdsii_records (concat (gds_envelope name (default now timestamp) v0 v1) ++ framed 4 0 [])
    = gds_envelope name (default now timestamp) v0 v1 ++ framed 4 0 [] :: []).
  { unfold gds_envelope. cbn [concat]. rewrite <- !app_assoc, app_nil_l.
    rewrite gdsii_records_framed by (cbn [length]; lia).
    rewrite gdsii_records_framed
      by (rewrite flat_map_app, length_app, !tm_words_bytes; lia).
    rewrite gdsii_records_framed by exact Hpad.
    rewrite gdsii_records_framed by (rewrite length_app, !be_bytes_length; lia).
    rewrite <- (app_nil_r (framed 4 0 [])) at 1.
    rewrite gdsii_records_framed by (cbn [length]; lia). reflexivity. }
  rewrite Hrecords.
  rewrite read_gds_loop_ENDLIB.
  2:{ apply Forall_app. split; [|by repeat constructor].
      unfold gds_envelope. repeat (apply Forall_cons; split; [rewrite framed_length; lia|]).
      constructor. }
  2:{ unfold gds_envelope, record_type, framed.
      repeat (apply Forall_cons; split; [rewrite be_bytes_2; discriminate|]). constructor. }
  2:{ reflexivity. }
  unfold gds_envelope.
  change [?a; ?b; ?c; ?d] with ([a] ++ [b] ++ [c] ++ [d]).
  rewrite read_gds_turns_app.
  destruct (read_gds_turn_skip unit tolerance 0 2 [2; 88] (GdsState_init buffer)
              ltac:(by left)) as [b1 ->].
  cbn [mbind option_bind]. rewrite read_gds_turns_app.
  destruct (read_gds_turn_skip unit tolerance 1 2
              (flat_map (be_bytes 2)
                 (tm_words (default now timestamp) ++ tm_words (default now timestamp)))
              (set_buffer b1 (GdsState_init buffer)) ltac:(by right)) as [b2 ->].
  cbn [mbind option_bind]. rewrite read_gds_turns_app.
  destruct (read_gds_turn_libname unit tolerance name
              (set_buffer b2 (set_buffer b1 (GdsState_init buffer))) Hlen1) as [b3 ->].
  cbn [mbind option_bind].
  destruct (read_gds_turn_units_framed unit tolerance v0 v1
              (with_library (lib_set_name (Some (c_str name)))
                 (set_buffer b3 (set_buffer b2 (set_buffer b1 (GdsState_init buffer)))))
              Hr0 Hr1) as [b4 ->].
  cbn [mbind option_bind].
  match goal with
  | |- read_gds_endlib (gds_load ?r ?s).2 = _ =>
      pose proof (gds_load_state r s) as [_ Hst];
      pose proof (gds_load_library r s) as [Hlib Herr];
      destruct (gds_load r s) as [dl s5]
  end.
  cbn [snd] in *. unfold read_gds_endlib. rewrite Hlib, Hst, Herr.
  unfold v0, v1 in *.
  destruct (PrimFloat.ltb 0 unit);
    cbn [g_library g_store g_stderr with_library set_factor set_buffer GdsState_init
           lib_set_units lib_set_name lib_cell_array Library_zero lib_name lib_unit
           lib_precision lib_rawcell_array lib_properties gds_cell_map for_each
           mbind option_bind];
    rewrite ?Hrt0, ?Hrt1; reflexivity.
Qed.

(** The loop up to a point that ENDLIB does not precede. *)
Lemma read_gds_loop_turns (unit tolerance : double) (pre rest : list bytes) :
  Forall (fun record => (4 <= length record)%nat) pre ->
  Forall (fun record => record_type record <> GdsiiRecord_code ENDLIB) pre ->
  forall s,
    read_gds_loop unit tolerance (pre ++ rest) s
    = read_gds_turns unit tolerance pre s ≫= read_gds_loop unit tolerance rest.
Proof.
  intros Hlen Hno. induction pre as [|record pre IH]; intros s; [reflexivity|].
  apply Forall_cons in Hlen as [Hlen1 Hlen]. apply Forall_cons in Hno as [Hno1 Hno].
  cbn [app read_gds_loop read_gds_turns].
  pose proof (gds_load_header record s 2 Hlen1 ltac:(lia)) as Hty.
  destruct (gds_load record s) as [data_length s1]. simpl in Hty.
  destruct (is_ENDLIB (g_buffer s1)) eqn:Hc.
  - apply is_ENDLIB_spec in Hc. unfold record_type in Hno1. congruence.
  - destruct (read_gds_record unit tolerance data_length s1) as [s2|];
      cbn [mbind option_bind]; [by apply IH|reflexivity].
Qed.

(** A library with the empty name makes a LIBNAME record without payload,
    which [read_gds] reads through [str[data_length - 1]] with
    [data_length] 0: the read has no defined result. *)
Theorem write_gds_read_gds_empty_name (st : Store) (lib : Library) (name : bytes)
    (max_points : Z) (timestamp : option tm) (now : tm) (content buffer : bytes)
    (stderr : list string) (unit tolerance : double) :
  lib_name lib = Some name -> strlen name = 0 ->
  lib_cell_array lib = [] -> lib_rawcell_array lib = [] ->
  write_gds st lib true max_points timestamp now = Some (Some content, stderr) ->
  read_gds buffer (Some content) unit tolerance = None.
Proof.
  intros Hname Hlen Hcells Hraw Hwrite.
  rewrite (write_gds_envelope st lib name max_points timestamp now Hname ltac:(lia)
             Hcells Hraw) in Hwrite.
  assert (Hcontent : content
                     = concat (gds_envelope name (default now timestamp)
                                 (gdsii_real_from_double
                                    (PrimFloat.div (lib_precision lib) (lib_unit lib)))
                                 (gdsii_real_from_double (lib_precision lib)))
                         ++ framed 4 0 []) by congruence.
  clear Hwrite. subst content. unfold read_gds.
  assert (Hc : c_str name = []).
  { unfold strlen in Hlen. destruct (c_str name); [reflexivity|simpl in Hlen; lia]. }
  unfold gds_envelope. rewrite Hlen, Hc. change (0 mod 2 =? 0) with true.
  cbn iota. cbn [app concat].
  rewrite <- !app_assoc.
  rewrite gdsii_records_framed by (cbn [length]; lia).
  rewrite gdsii_records_framed
    by (rewrite flat_map_app, length_app, !tm_words_bytes; lia).
  rewrite gdsii_records_framed by (cbn [length]; lia).
  match goal with
  | |- read_gds_loop _ _ (?h :: ?b :: ?l :: ?rest) _ = _ =>
      change (h :: b :: l :: rest) with ([h; b; l] ++ rest);
      rewrite (read_gds_loop_turns unit tolerance [h; b; l] rest);
      [change [h; b; l] with ([h] ++ [b] ++ [l])| |]
  end.
  2:{ repeat (apply Forall_cons; split; [rewrite framed_length; lia|]). constructor. }
  2:{ unfold record_type, framed.
      repeat (apply Forall_cons; split; [rewrite be_bytes_2; discriminate|]). constructor. }
  rewrite read_gds_turns_app.
  destruct (read_gds_turn_skip unit tolerance 0 2 [2; 88] (GdsState_init buffer)
              ltac:(by left)) as [b1 ->].
  cbn [mbind option_bind]. rewrite read_gds_turns_app.
  destruct (read_gds_turn_skip unit tolerance 1 2
              (flat_map (be_bytes 2)
                 (tm_words (default now timestamp) ++ tm_words (default now timestamp)))
              (set_buffer b1 (GdsState_init buffer)) ltac:(by right)) as [b2 ->].
  cbn [mbind option_bind read_gds_turns].
  destruct (gds_load_framed 2 6 [] (set_buffer b2 (set_buffer b1 (GdsState_init buffer))))
    as (d3 & b3 & -> & Hc3 & Hascii).
  destruct (Hascii eq_refl) as (-> & _).
  unfold read_gds_record. cbn [g_buffer set_buffer]. rewrite Hc3.
  reflexivity.
Qed.

End Write_then_read_gds.

Section Placement_round_trip.
Context {E : Externals} {R : ReadExternals}.

(** The info byte of a PLACEMENT without repetition, bit by bit. *)
Lemma reference_info_placement (ref : Reference) (m : Z) :
  placement_quadrant ref = Some m ->
  (1 <? Repetition_get_size (ref_repetition ref)) = false ->
  let info := reference_info ref in
  bit_set info 128 = true /\ bit_set info 64 = true /\ bit_set info 32 = true /\
  bit_set info 16 = true /\ bit_set info 8 = false /\
  bit_set info 1 = ref_x_reflection ref /\
  Z.land info 6 = 2 * (m mod 4).
Proof.
  intros Hq Hrep. unfold reference_info. rewrite Hq.
  rewrite placement_rotation_bits_spec. unfold reference_info_base. rewrite Hrep.
  pose proof (Z.mod_pos_bound m 4 ltac:(lia)) as Hm.
  assert (Hk : m mod 4 ∈ [0; 1; 2; 3]) by (set_unfold; lia).
  revert Hk. generalize (m mod 4). clear. intros k Hk. set_unfold.
  destruct Hk as [->|[->|[->|[->|[]]]]], (ref_x_reflection ref); repeat split.
Qed.

(** What [write_oas] writes as a PLACEMENT, [read_oas] reads as a
    reference with magnification 1, the same reflection, and the rotation
    of [m mod 4] quarter turns, [m] being the multiple of π/2 that the
    writer found in the rotation.  The reference is by number, at the
    position read, and is appended to the open cell. *)
Theorem placement_written_and_read (ref : Reference) (m : Z) (s : OasState) (c : ptr)
    (n x y : Z) (i1 i2 i3 i4 : OasisInput) :
  placement_quadrant ref = Some m ->
  (1 <? Repetition_get_size (ref_repetition ref)) = false ->
  o_cell s = Some c ->
  oasis_read_byte (o_in s) = Some (reference_info ref, i1) ->
  oasis_read_unsigned_integer i1 = Some (n, i2) ->
  oasis_read_integer i2 = Some (x, i3) ->
  oasis_read_integer i3 = Some (y, i4) ->
  let r := length (references (o_store s)) in
  let position :=
    mkVec2 (modal_move (modal_absolute_pos (o_modal s))
              (vx (modal_placement_pos (o_modal s))) (scaled (o_factor s) x))
           (modal_move (modal_absolute_pos (o_modal s))
              (vy (modal_placement_pos (o_modal s))) (scaled (o_factor s) y)) in
  exists s',
    read_oas_record (OasisRecord_code PLACEMENT) s = Ok s' /\
    o_in s' = i4 /\
    references (o_store s') !! r
    = Some (mkReference ReferenceType_Cell (RU_number n) position
              (quarter_turns (m mod 4)) 1%float (ref_x_reflection ref)
              Repetition_zero []) /\
    modal_placement_pos (o_modal s') = position /\
    (forall cell, cells (o_store s) !! c = Some cell ->
                  cells (o_store s') !! c = Some (cell_append_reference r cell)).
Proof.
  intros Hq Hrep Hcell H1 H2 H3 H4 r position. subst r position.
  destruct (reference_info_placement ref m Hq Hrep)
    as (B128 & B64 & B32 & B16 & B8 & B1 & Hrot).
  change (read_oas_record (OasisRecord_code PLACEMENT) s) with (read_oas_placement PLACEMENT s).
  unfold read_oas_placement. rewrite Hcell. cbn [deref mbind Run_mbind Run_bind].
  unfold new_reference, read_position, read_coordinate, reading. cbv zeta.
  cbn [o_in o_with_store o_set_next_property]. rewrite H1.
  cbn [mbind Run_mbind Run_bind]. rewrite B128, B64.
  cbn [o_in o_with_in o_with_store]. rewrite H2.
  cbn [mbind Run_mbind Run_bind].
  destruct (decide (PLACEMENT = PLACEMENT)) as [_|Hne]; [|done].
  cbn [mbind Run_mbind Run_bind]. rewrite B32, B16, B8, B1, Hrot.
  clear Hrot B128 B64 B32 B16 B8 B1 H1.
  pose proof (Z.mod_pos_bound m 4 ltac:(lia)) as Hm.
  assert (Hk : m mod 4 ∈ [0; 1; 2; 3]) by (set_unfold; lia).
  revert Hk. generalize (m mod 4). intros k Hk. set_unfold.
  destruct Hk as [->|[->|[->|[->|[]]]]].
  all: match goal with
       | |- context [2 * ?k] => let v := eval vm_compute in (2 * k) in change (2 * k) with v
       end; cbn iota.
  all: cbn [o_in o_with_in o_with_store o_with_modal]; rewrite H3.
  all: cbn [mbind Run_mbind Run_bind o_in o_with_in o_with_store o_with_modal]; rewrite H4.
  all: cbn [mbind Run_mbind Run_bind].
  all: eexists; split; [reflexivity|].
  all: cbn [o_in o_with_in o_with_store o_with_modal o_store o_modal o_factor
              o_set_next_property o_set_cell
              modal_placement_pos modal_set_placement_pos modal_set_placement_cell
              modal_absolute_pos Vec2_set_x Vec2_set_y vx vy
              alter_reference alter_cell references cells].
  all: split; [reflexivity|].
  all: split; [|split; [reflexivity|]].
  all: try (rewrite !list_lookup_alter_eq, list_lookup_middle by reflexivity; reflexivity).
  all: intros cell Hc; by rewrite list_lookup_alter_eq, Hc.
Qed.

End Placement_round_trip.

(** ** The start of an OASIS file, written and read back *)

(** Reads from the file itself, at a position where its bytes are known. *)
Lemma oasis_read_at (content : bytes) (pos : Z) (l rest : bytes) :
  drop (Z.to_nat pos) content = l ++ rest ->
  oasis_read (length l) (mkOasisInput content pos None)
  = Some (l, mkOasisInput content (pos + Z.of_nat (length l)) None).
Proof.
  intros Hd. unfold oasis_read, fread. cbn [in_data in_pos in_file].
  by rewrite Hd, take_app_length.
Qed.

Lemma oasis_read_unsigned_integer_at (content : bytes) (pos b : Z) (rest : bytes) :
  drop (Z.to_nat pos) content = b :: rest ->
  0 <= b < 128 ->
  oasis_read_unsigned_integer (mkOasisInput content pos None)
  = Some (b, mkOasisInput content (pos + 1) None).
Proof.
  intros Hd Hb. unfold oasis_read_unsigned_integer, read_varint, oasis_read_byte.
  pose proof (oasis_read_at content pos [b] rest Hd) as Hr.
  cbn [length] in Hr. rewrite Hr. cbn [mbind option_bind].
  assert (Z.land b 128 = 0) as ->.
  { change 128 with (2 ^ 7). apply Z.bits_inj'. intros k Hk.
    rewrite Z.land_spec, Z.bits_0, Z.pow2_bits_eqb by lia.
    destruct (Z.eqb_spec 7 k) as [<-|Hne]; [|by rewrite andb_false_r].
    rewrite andb_true_r. apply Z.bits_above_log2; [lia|].
    destruct (Z.eq_dec b 0) as [->|Hnz]; [reflexivity|].
    apply Z.log2_lt_pow2; lia. }
  cbn [Z.eqb mbind option_bind]. unfold uint64. rewrite Z.mod_small by lia. reflexivity.
Qed.

(** The magic bytes and the version string, read from a file that starts
    with the header that [write_oas] writes. *)
Lemma oasis_header_read (content rest : bytes) :
  content = oasis_header ++ rest ->
  take 14 (drop (Z.to_nat 0) content) = oasis_magic /\
  oasis_read_string (mkOasisInput content 14 None)
  = Some ([49; 46; 48], mkOasisInput content 18 None).
Proof.
  intros Hcontent. split; [rewrite Hcontent; reflexivity|].
  unfold oasis_read_string.
  rewrite (oasis_read_unsigned_integer_at content 14 3 (49 :: 46 :: 48 :: rest))
    by (lia || (rewrite Hcontent; reflexivity)).
  cbn [mbind option_bind].
  change (Z.to_nat 3) with (length [49; 46; 48]).
  rewrite (oasis_read_at content (14 + 1) [49; 46; 48] rest)
    by (rewrite Hcontent; reflexivity).
  reflexivity.
Qed.

Section Oasis_start.
Context {E : Externals} {R : ReadExternals}.

#[local] Existing Instance file_grows_preorder.

Lemma grows_cell (st : Store) (m : gmap bytes Z) (use_cblock : bool)
    (deflate_level : Z) (c : ptr) (w w' : Writer) :
  write_oas_cell st m use_cblock deflate_level c w = Some w' -> file_grows w w'.
Proof.
  unfold write_oas_cell. intros Hw.
  apply bind_Some in Hw as (cell & Hcell & Hw).
  apply bind_Some in Hw as (name & Hname & Hw).
  apply bind_Some in Hw as (w1 & H1 & Hw).
  apply bind_Some in Hw as (w2 & H2 & Hw).
  apply bind_Some in Hw as (w3 & H3 & Hw).
  apply bind_Some in Hw as (w4 & H4 & Hw).
  etrans; [apply (grows_fwrite [uint8 (OasisRecord_code CELL_REF_NUM)])|].
  etrans; [apply (grows_oasis_write
                    (oasis_write_unsigned_integer (Map_get_uint64 m name)))|].
  etrans; [|etrans; [exact (grows_cell_body st m cell _ _ _ _ H1 H2 H3)|]].
  { unfold file_grows. by destruct use_cblock. }
  etrans; [exact (grows_cell_labels st cell _ _ H4)|].
  destruct use_cblock; [by eapply grows_cblock|injection Hw as <-; reflexivity].
Qed.

(** Every file that [write_oas] writes starts with the magic bytes, the
    START record with the version, the unit and the flag 1 that announces
    the table of offsets at the end. *)
Lemma write_oas_start_file (st : Store) (lib : Library) (tolerance : double)
    (deflate_level flags : Z) (content : bytes) (stderr : list string) :
  write_oas st lib true tolerance deflate_level flags = Some (Some content, stderr) ->
  exists rest,
    content = oasis_header
                ++ oasis_write_real (PrimFloat.div micro (lib_precision lib)) ++ 1 :: rest.
Proof.
  unfold write_oas. intros Hw.
  apply bind_Some in Hw as ([w t] & Hbody & Hw).
  assert (Hcontent : file (write_oas_end t (w_out w)) = content) by congruence.
  clear Hw.
  pose proof (write_oas_body_to_file _ _ _ _ _ _ Hbody) as Hf.
  rewrite (write_oas_end_file t _ Hf) in Hcontent.
  unfold write_oas_body in Hbody.
  apply bind_Some in Hbody as ([cell_name_map cell_property_map] & _ & Hbody).
  apply bind_Some in Hbody as (w1 & H1 & Hbody).
  apply bind_Some in Hbody as (w2 & H2 & Hbody).
  set (w0 := with_out (fputc 1) _) in H1.
  assert (H0 : file (w_out w0)
               = oasis_header
                   ++ oasis_write_real (PrimFloat.div micro (lib_precision lib)) ++ [1]).
  { unfold w0. cbn [w_out with_out fputc fwrite file oasis_write cursor app].
    by rewrite <- app_assoc. }
  assert (G : file (w_out w0) `prefix_of` file (w_out w)).
  { etrans; [apply (grows_call (properties_to_oas (lib_properties lib)))|].
    etrans; [revert H1; apply grows_for_each; intros c s s'; apply grows_cell|].
    etrans; [revert H2; apply grows_for_each; intros c s s' Hs;
             destruct (grows_cellname _ _ _ _ _ Hs) as [r Hr]; unfold file_grows;
             rewrite Hr; by apply prefix_app_r|].
    injection Hbody as <- _. cbn [w_out with_out].
    etrans; [|apply fold_left_stream_prefix; intros a out;
              destruct (write_oas_propstring_file a out) as [r ->]; by apply prefix_app_r].
    etrans; [|apply fold_left_stream_prefix; intros a out;
              destruct (write_oas_name_item_file PROPNAME a out) as [r ->];
              by apply prefix_app_r].
    apply fold_left_stream_prefix. intros a out.
    destruct (write_oas_name_item_file TEXTSTRING a out) as [r ->]. by apply prefix_app_r. }
  destruct G as [rest1 Hrest]. rewrite Hrest, H0 in Hcontent.
  eexists. rewrite <- Hcontent. rewrite <- !app_assoc. cbn [app]. reflexivity.
Qed.

(** What [write_oas] puts at the start of a file, [read_oas] accepts
    without a message: the header and the version pass, the unit is read,
    and the flag tells it not to look for a table of offsets there.  The
    precision it computes is [1e-6 * (1 / (1e-6 / precision))], and the
    reader stands right after the flag.  The real has to be read back as
    it was written. *)
Theorem write_oas_read_oas_start (st : Store) (lib : Library) (tolerance : double)
    (deflate_level flags : Z) (content : bytes) (stderr : list string) (unit : double) :
  let real := PrimFloat.div micro (lib_precision lib) in
  let after_real := 18 + Z.of_nat (length (oasis_write_real real)) in
  write_oas st lib true tolerance deflate_level flags = Some (Some content, stderr) ->
  oasis_read_real (mkOasisInput content 18 None)
  = Some (real, mkOasisInput content after_real None) ->
  exists s,
    read_oas_start content unit = inl (Ok s) /\
    o_stderr s = [] /\
    o_in s = mkOasisInput content (after_real + 1) None /\
    lib_precision (o_library s) = PrimFloat.mul micro (PrimFloat.div 1 real) /\
    lib_unit (o_library s) = (if PrimFloat.ltb 0 unit then unit else micro) /\
    lib_cell_array (o_library s) = [] /\ o_modal s = Modal_init.
Proof.
  intros real after_real Hwrite Hreal.
  destruct (write_oas_start_file _ _ _ _ _ _ _ Hwrite) as [rest Hcontent].
  fold real in Hcontent.
  destruct (oasis_header_read content _ Hcontent) as [F1 F2].
  assert (F3 : oasis_read_unsigned_integer (mkOasisInput content after_real None)
               = Some (1, mkOasisInput content (after_real + 1) None)).
  { apply (oasis_read_unsigned_integer_at content after_real 1 rest); [|lia].
    rewrite Hcontent, app_assoc.
    replace (Z.to_nat after_real) with (length (oasis_header ++ oasis_write_real real))
      by (unfold after_real; rewrite length_app; cbn [oasis_header length]; lia).
    by rewrite drop_app_length. }
  unfold read_oas_start, fread. cbn [in_file in_pos in_data]. rewrite F1.
  destruct (decide (oasis_magic = oasis_magic)) as [_|Hne]; [|done].
  unfold reading. cbn [o_in]. 
  change (mkOasisInput content (0 + Z.of_nat (length oasis_magic)) None)
    with (mkOasisInput content 14 None).
  rewrite F2. cbn [mbind Run_mbind Run_bind length Nat.ltb Nat.leb].
  destruct (decide (take 3 [49; 46; 48] = [49; 46; 48])) as [_|Hne]; [|done].
  cbn [mbind Run_mbind Run_bind o_in o_with_in]. rewrite Hreal.
  cbn [mbind Run_mbind Run_bind o_in o_with_in]. fold real.
  destruct (PrimFloat.ltb 0 unit);
    cbn [o_in o_with_in]; rewrite F3; cbn [mbind Run_mbind Run_bind Z.eqb];
    eexists; (split; [reflexivity|]); repeat split.
Qed.

(** [oas_precision] on a file that [write_oas] wrote: it returns 0,
    prints nothing and leaves [1e-6 / (1e-6 / precision)] in its
    argument, whatever the argument held.  The real has to be read back
    as it was written. *)
Theorem write_oas_oas_precision (st : Store) (lib : Library) (tolerance : double)
    (deflate_level flags : Z) (content : bytes) (stderr : list string)
    (precision0 : double) :
  let real := PrimFloat.div micro (lib_precision lib) in
  let after_real := 18 + Z.of_nat (length (oasis_write_real real)) in
  write_oas st lib true tolerance deflate_level flags = Some (Some content, stderr) ->
  oasis_read_real (mkOasisInput content 18 None)
  = Some (real, mkOasisInput content after_real None) ->
  oas_precision (Some content) precision0 = Ok (0, PrimFloat.div micro real, []).
Proof.
  intros real after_real Hwrite Hreal.
  destruct (write_oas_start_file _ _ _ _ _ _ _ Hwrite) as [rest Hcontent].
  fold real in Hcontent.
  destruct (oasis_header_read content _ Hcontent) as [F1 F2].
  unfold oas_precision, fread. cbn [in_file in_pos in_data]. rewrite F1.
  destruct (decide (oasis_magic = oasis_magic)) as [_|Hne]; [|done].
  change (mkOasisInput content (0 + Z.of_nat (length oasis_magic)) None)
    with (mkOasisInput content 14 None).
  rewrite F2. cbn [length Nat.ltb Nat.leb].
  destruct (decide (take 3 [49; 46; 48] = [49; 46; 48])) as [_|Hne]; [|done].
  rewrite Hreal. reflexivity.
Qed.

End Oasis_start.

(** ** The records of the cells in the file that [write_oas] writes *)






Section Write_oas_cell_records.
Context {E : Externals}.

#[local] Existing Instance file_grows_preorder.














End Write_oas_cell_records.

Section More_examples_gds.

#[local] Existing Instance example_externals.

Lemma S3_records_no_ENDLIB :
  Forall (fun record => record_type record <> GdsiiRecord_code ENDLIB) S3_records.
Proof.
  unfold S3_records.
  repeat (apply Forall_cons; split; [intros H; vm_compute in H; discriminate H|]).
  apply Forall_nil_2.
Qed.

(** A cell name after the ENDLIB of scenario S3 changes nothing. *)
Lemma read_gds_ignores_after_ENDLIB_S3 :
  read_gds [] (Some S3_file) 0 0
  = read_gds [] (Some (S3_file ++ gds_record 6 6 [90; 0])) 0 0.
Proof.
  apply (read_gds_ignores_after_ENDLIB [] S3_file (S3_file ++ gds_record 6 6 [90; 0]) 0 0
           S3_records (gds_record 4 0 []) [] [gds_record 6 6 [90; 0]]).
  - vm_compute. reflexivity.
  - vm_compute. reflexivity.
  - exact S3_records_no_ENDLIB.
  - reflexivity.
Defined.

(** With two cells named [X], the reference of [TOP] points to the second
    one, the third cell of the library. *)
Lemma read_gds_resolves_to_last_cell_two_X :
  exists lib st stderr,
    read_gds [] (Some two_X_file) 0 0 = Some (lib, st, stderr) /\
    lib_cell_array lib = [0; 1; 2]%nat /\
    (ref_union <$> references st !! 0%nat) = Some (RU_cell 2%nat).
Proof.
  destruct (read_gds [] (Some two_X_file) 0 0) as [[[lib st] stderr]|] eqn:Hrun;
    [|vm_compute in Hrun; discriminate Hrun].
  destruct (read_gds_turns 0 0 two_X_records (GdsState_init [])) as [s0|] eqn:Hturns;
    [|vm_compute in Hturns; discriminate Hturns].
  destruct (references (g_store s0) !! 0%nat) as [ref|] eqn:Href;
    [|vm_compute in Hturns; injection Hturns as <-; vm_compute in Href; discriminate Href].
  destruct (cells st !! 0%nat) as [cell|] eqn:Hcell;
    [|vm_compute in Hrun; injection Hrun as _ <- _; vm_compute in Hcell; discriminate Hcell].
  assert (Hrecords : gdsii_records two_X_file = two_X_records ++ gds_record 4 0 [] :: [])
    by (vm_compute; reflexivity).
  assert (Hpre : Forall (fun record => record_type record <> GdsiiRecord_code ENDLIB)
                   two_X_records).
  { unfold two_X_records. apply Forall_app. split; [exact S3_records_no_ENDLIB|].
    repeat (apply Forall_cons; split; [intros H; vm_compute in H; discriminate H|]).
    apply Forall_nil_2. }
  assert (Harray : lib_cell_array lib = [0; 1; 2]%nat).
  { vm_compute in Hrun. injection Hrun as <- _ _. reflexivity. }
  assert (Hr : 0%nat ∈ cell_reference_array cell).
  { vm_compute in Hrun. injection Hrun as _ <- _. vm_compute in Hcell.
    injection Hcell as <-. apply list_elem_of_here. }
  assert (Hn : ref_union ref = RU_name [88]).
  { vm_compute in Hturns. injection Hturns as <-. vm_compute in Href.
    injection Href as <-. reflexivity. }
  assert (Hlast : last_cell_named st (lib_cell_array lib) (c_str [88]) 2%nat).
  { rewrite Harray. exists [0; 1]%nat, []. split; [reflexivity|]. split.
    - vm_compute in Hrun. injection Hrun as _ <- _. eexists. split; reflexivity.
    - intros c cell' Hin. inversion Hin. }
  assert (Hc : 0%nat ∈ lib_cell_array lib) by (rewrite Harray; apply list_elem_of_here).
  pose proof (read_gds_resolves_to_last_cell [] two_X_file 0 0 two_X_records
                (gds_record 4 0 []) [] lib st stderr 0%nat 0%nat 2%nat cell [88] s0 ref
                Hrecords Hpre eq_refl Hrun Hturns Hc Hcell Hr Href Hn Hlast) as Hres.
  exists lib, st, stderr. split; [reflexivity|]. split; [exact Harray|].
  rewrite Hres. reflexivity.
Defined.

(** Scenario S3: the cells [TOP] and [X], in the order of their names in
    the file. *)
Lemma read_gds_cell_array_S3 :
  exists lib st stderr,
    read_gds [] (Some S3_file) 0 0 = Some (lib, st, stderr) /\
    lib_cell_array lib = registered S3_records None 0 /\
    registered S3_records None 0 = [0; 1]%nat.
Proof.
  destruct (read_gds [] (Some S3_file) 0 0) as [[[lib st] stderr]|] eqn:Hrun;
    [|vm_compute in Hrun; discriminate Hrun].
  assert (Hrecords : gdsii_records S3_file = S3_records ++ gds_record 4 0 [] :: [])
    by (vm_compute; reflexivity).
  pose proof (read_gds_cell_array [] S3_file 0 0 S3_records (gds_record 4 0 []) []
                lib st stderr Hrecords S3_records_no_ENDLIB eq_refl Hrun) as Harray.
  exists lib, st, stderr. split; [reflexivity|]. split; [exact Harray|].
  vm_compute. reflexivity.
Defined.

(** A BOUNDARY record after the name of the cell [A]: the polygon, the
    first of the heap, is put in [A], the cell 0. *)
Lemma read_gds_polygon_cell_A :
  exists s0 s1 cell,
    read_gds_turns 0 0 cell_A_records (GdsState_init []) = Some s0 /\
    read_gds_turns 0 0 [gds_record 8 0 []] s0 = Some s1 /\
    g_polygon s1 = Some 0%nat /\
    cells (g_store s0) !! 0%nat = Some cell /\
    cells (g_store s1) !! 0%nat = Some (cell_append_polygon 0%nat cell).
Proof.
  destruct (read_gds_turns 0 0 cell_A_records (GdsState_init [])) as [s0|] eqn:H0;
    [|vm_compute in H0; discriminate H0].
  destruct (read_gds_turns 0 0 [gds_record 8 0 []] s0) as [s1|] eqn:H1;
    [|vm_compute in H0; injection H0 as <-; vm_compute in H1; discriminate H1].
  assert (Hpre : Forall (fun record => (4 <= length record)%nat) cell_A_records).
  { unfold cell_A_records.
    repeat (apply Forall_cons; split; [vm_compute; lia|]). apply Forall_nil_2. }
  assert (Hlen : (4 <= length (gds_record 8 0 []))%nat) by (vm_compute; lia).
  destruct (read_gds_polygon_cell [] 0 0 cell_A_records (gds_record 8 0 []) s0 s1
              Hpre Hlen (or_introl eq_refl) H0 H1) as [Hp Hcell].
  assert (Hopen : open_cell cell_A_records None 0 = Some 0%nat) by (vm_compute; reflexivity).
  rewrite Hopen in Hcell. destruct Hcell as (cell & Hc0 & Hc1 & _).
  assert (Hnone : length (polygons (g_store s0)) = 0%nat).
  { vm_compute in H0. injection H0 as <-. reflexivity. }
  rewrite Hnone in Hp, Hc1.
  exists s0, s1, cell. split; [reflexivity|]. split; [exact H1|].
  split; [exact Hp|]. split; [exact Hc0|exact Hc1].
Defined.

(** A polygon with two XY records of one point each: two points are
    counted, and the array holds the first coordinate of the first record
    and the two of the second, three numbers for two points. *)
Lemma read_gds_polygon_second_xy_two_points :
  exists s' poly,
    read_gds_turns 0 0 [gds_record 8 0 []; xy_1_2; xy_3_4] in_cell_A = Some s' /\
    polygons (g_store s') !! 0%nat = Some poly /\
    pa_size (poly_point_array poly) = 2 /\
    length (pa_items (poly_point_array poly)) = 3%nat.
Proof.
  destruct (read_gds_turns 0 0 [gds_record 8 0 []; xy_1_2; xy_3_4] in_cell_A)
    as [s'|] eqn:Hrun; [|vm_compute in Hrun; discriminate Hrun].
  assert (Hopening : (4 <= length (gds_record 8 0 []))%nat) by (vm_compute; lia).
  assert (Hxy1 : (4 <= length xy_1_2)%nat) by (vm_compute; lia).
  assert (Hxy2 : (4 <= length xy_3_4)%nat) by (vm_compute; lia).
  assert (Hn : 1 <= 1 <= 2 * 1) by lia.
  assert (Hsum : 1 + 1 < 2 ^ 64) by lia.
  destruct (read_gds_polygon_second_xy 0 0 in_cell_A s' (gds_record 8 0 []) xy_1_2 xy_3_4
              1 1 Hopening (or_introl eq_refl) Hxy1 eq_refl eq_refl Hxy2 eq_refl eq_refl
              Hn Hsum Hrun)
    as (s1 & first & poly & vals & _ & _ & _ & Hfirst & Hpoly & Hsize & Hvals & Hitems & _).
  assert (Hnone : length (polygons (g_store in_cell_A)) = 0%nat) by (vm_compute; reflexivity).
  rewrite Hnone in Hpoly.
  exists s', poly. split; [reflexivity|]. split; [exact Hpoly|]. split; [exact Hsize|].
  rewrite Hitems, length_app, length_take, length_map, Hvals, Hfirst. reflexivity.
Defined.

(** Scenario S3: [gds_units] gives the unit and the precision that
    [read_gds] puts in the library. *)
Lemma gds_units_agrees_S3 :
  exists lib st stderr,
    read_gds [] (Some S3_file) 0 0 = Some (lib, st, stderr) /\
    gds_units [] (Some S3_file) 0 0 = (0, lib_unit lib, lib_precision lib, []).
Proof.
  destruct (read_gds [] (Some S3_file) 0 0) as [[[lib st] stderr]|] eqn:Hrun;
    [|vm_compute in Hrun; discriminate Hrun].
  exists lib, st, stderr. split; [reflexivity|].
  apply (gds_units_agrees [] S3_file 0 0 0 0 (take 3 S3_records)
           (gds_record 3 5 [62; 65; 137; 55; 75; 198; 167; 240;
                            57; 68; 184; 47; 160; 155; 90; 84])
           (drop 4 S3_records) (gds_record 4 0 []) [] lib st stderr).
  - vm_compute. reflexivity.
  - cbn [take drop S3_records app].
    repeat (apply Forall_cons; split;
            [split; intros H; vm_compute in H; discriminate H|]).
    apply Forall_nil_2.
  - reflexivity.
  - reflexivity.
  - vm_compute. lia.
  - reflexivity.
  - reflexivity.
  - exact Hrun.
Defined.

(** A file with a HEADER record and nothing else has no units. *)
Lemma gds_units_missing_header_only :
  gds_units [] (Some (gds_record 0 2 [2; 88])) 1 2
  = (-1, 1%float, 2%float, ["[GDSTK] GDSII file missing units definition."%string]).
Proof.
  apply (gds_units_missing [] (gds_record 0 2 [2; 88]) 1 2).
  assert (Hrecords : gdsii_records (gds_record 0 2 [2; 88]) = [gds_record 0 2 [2; 88]])
    by (vm_compute; reflexivity).
  rewrite Hrecords.
  apply Forall_cons. split; [intros H; vm_compute in H; discriminate H|apply Forall_nil_2].
Defined.

End More_examples_gds.

Section More_examples_gds_written.

#[local] Existing Instance example_externals_gds.

(** The empty library written and read: the name, the unit and the
    precision come back. *)
Lemma write_gds_read_gds_empty_library :
  exists content,
    write_gds Store_empty empty_library true 199 None example_tm = Some (Some content, []) /\
    read_gds [] (Some content) 0 0
    = Some (mkLibrary (Some [76; 73; 66])
              (PrimFloat.div (lib_precision empty_library)
                 (PrimFloat.div (lib_precision empty_library) (lib_unit empty_library)))
              (lib_precision empty_library) [] [] [],
            Store_empty, []).
Proof.
  destruct (write_gds Store_empty empty_library true 199 None example_tm)
    as [[[content|] stderr]|] eqn:Hw; [|vm_compute in Hw; discriminate Hw..].
  assert (Hstderr : stderr = []) by (vm_compute in Hw; congruence).
  subst stderr. exists content. split; [reflexivity|].
  assert (Hlen : 1 <= strlen [76; 73; 66; 0] < 65531) by (vm_compute; split; congruence).
  assert (H1 : 0 <= gdsii_real_from_double
                      (PrimFloat.div (lib_precision empty_library) (lib_unit empty_library))
               < 2 ^ 64) by (vm_compute; split; congruence).
  assert (H2 : 0 <= gdsii_real_from_double (lib_precision empty_library) < 2 ^ 64)
    by (vm_compute; split; congruence).
  assert (H3 : gdsii_real_to_double
                 (gdsii_real_from_double
                    (PrimFloat.div (lib_precision empty_library) (lib_unit empty_library)))
               = PrimFloat.div (lib_precision empty_library) (lib_unit empty_library))
    by (vm_compute; reflexivity).
  assert (H4 : gdsii_real_to_double (gdsii_real_from_double (lib_precision empty_library))
               = lib_precision empty_library) by (vm_compute; reflexivity).
  exact (write_gds_read_gds Store_empty empty_library [76; 73; 66; 0] 199 None example_tm
           content [] [] 0 0 eq_refl Hlen eq_refl eq_refl H1 H2 H3 H4 Hw).
Defined.

(** A library whose name is the empty string is written, and the file is
    not one that [read_gds] can read. *)
Lemma write_gds_read_gds_empty_name_nameless :
  exists content,
    write_gds Store_empty nameless_library true 199 None example_tm
    = Some (Some content, []) /\
    read_gds [] (Some content) 0 0 = None.
Proof.
  destruct (write_gds Store_empty nameless_library true 199 None example_tm)
    as [[[content|] stderr]|] eqn:Hw; [|vm_compute in Hw; discriminate Hw..].
  assert (Hstderr : stderr = []) by (vm_compute in Hw; congruence).
  subst stderr. exists content. split; [reflexivity|].
  exact (write_gds_read_gds_empty_name Store_empty nameless_library [0] 199 None example_tm
           content [] [] 0 0 eq_refl eq_refl eq_refl eq_refl Hw).
Defined.

End More_examples_gds_written.

Section More_examples_oas.

#[local] Existing Instance example_externals.
#[local] Existing Instance example_read_externals_ieee.

(** The library with the label, written: the offsets of the cell names
    and of the text strings point to their first records. *)
Lemma write_oas_table_offsets_labelled :
  exists content w t,
    write_oas labelled_store labelled_library true 0 0 0 = Some (Some content, []) /\
    write_oas_body labelled_store labelled_library 0 0 = Some (w, t) /\
    byte_at content (cell_name_offset t) = Some (OasisRecord_code CELLNAME_IMPLICIT) /\
    byte_at content (text_string_offset t) = Some (OasisRecord_code TEXTSTRING) /\
    prop_name_offset t = 0 /\ prop_string_offset t = 0.
Proof.
  destruct (write_oas labelled_store labelled_library true 0 0 0)
    as [[[content|] stderr]|] eqn:Hw; [|vm_compute in Hw; discriminate Hw..].
  assert (Hstderr : stderr = []) by (vm_compute in Hw; congruence).
  subst stderr.
  destruct (write_oas_body labelled_store labelled_library 0 0) as [[w t]|] eqn:Hbody;
    [|vm_compute in Hbody; discriminate Hbody].
  assert (Hlen : Z.of_nat (length content) < 2 ^ 64).
  { vm_compute in Hw. injection Hw as <-. vm_compute. reflexivity. }
  destruct (write_oas_table_offsets labelled_store labelled_library 0 0 0 content [] w t
              Hw Hbody Hlen) as (Hcells & Htexts & Hnames & Hstrings).
  exists content, w, t. split; [reflexivity|]. split; [reflexivity|].
  destruct (decide (lib_cell_array labelled_library = [])) as [Hno|_]; [discriminate Hno|].
  split; [exact Hcells|].
  destruct (decide (size (w_text_string_map w) = 0%nat)) as [Hno|_].
  { vm_compute in Hbody. injection Hbody as <- _. vm_compute in Hno. discriminate Hno. }
  split; [exact Htexts|].
  destruct (decide (property_name_map (w_state w) = [])) as [_|Hsome].
  2: { vm_compute in Hbody. injection Hbody as <- _. exfalso. apply Hsome. reflexivity. }
  split; [exact Hnames|].
  destruct (decide (property_value_array (w_state w) = [])) as [_|Hsome].
  2: { vm_compute in Hbody. injection Hbody as <- _. exfalso. apply Hsome. reflexivity. }
  exact Hstrings.
Defined.

(** The library with the label: its text is in the table of the text
    strings when the cells are written. *)
Lemma write_oas_text_strings_labelled :
  exists w t,
    write_oas_body labelled_store labelled_library 0 0 = Some (w, t) /\
    text_numbers_ok (w_text_string_map w) /\
    is_Some (w_text_string_map w !! c_str [116]).
Proof.
  destruct (write_oas_body labelled_store labelled_library 0 0) as [[w t]|] eqn:Hbody;
    [|vm_compute in Hbody; discriminate Hbody].
  destruct (write_oas_text_strings labelled_store labelled_library 0 0 w t Hbody)
    as [Hok Hall].
  exists w, t. split; [reflexivity|]. split; [exact Hok|].
  apply (Hall 0%nat (mkCell (Some [80]) [] [] [] [] [0%nat] [] 0) 0%nat S2_label [116]).
  - apply list_elem_of_here.
  - reflexivity.
  - apply list_elem_of_here.
  - reflexivity.
  - reflexivity.
Defined.

(** The PLACEMENT record of scenario S2 read back: a reference to the
    cell number 1, a quarter turn, at (3000, 4000) database units. *)
Lemma placement_written_and_read_S2 :
  exists s',
    read_oas_record (OasisRecord_code PLACEMENT) at_placement = Ok s' /\
    (ref_union <$> references (o_store s') !! 0%nat) = Some (RU_number 1) /\
    (ref_rotation <$> references (o_store s') !! 0%nat) = Some (quarter_turns 1) /\
    cells (o_store s') !! 0%nat = Some (mkCell (Some [80]) [] [] [] [0%nat] [] [] 0).
Proof.
  assert (Hq : placement_quadrant S2_reference = Some 1) by (vm_compute; reflexivity).
  assert (Hrep : (1 <? Repetition_get_size (ref_repetition S2_reference)) = false)
    by reflexivity.
  assert (H1 : oasis_read_byte (o_in at_placement)
               = Some (reference_info S2_reference, mkOasisInput placement_input 1 None))
    by (vm_compute; reflexivity).
  assert (H2 : oasis_read_unsigned_integer (mkOasisInput placement_input 1 None)
               = Some (1, mkOasisInput placement_input 2 None))
    by (vm_compute; reflexivity).
  assert (H3 : oasis_read_integer (mkOasisInput placement_input 2 None)
               = Some (3000, mkOasisInput placement_input 4 None))
    by (vm_compute; reflexivity).
  assert (H4 : oasis_read_integer (mkOasisInput placement_input 4 None)
               = Some (4000, mkOasisInput placement_input 6 None))
    by (vm_compute; reflexivity).
  destruct (placement_written_and_read S2_reference 1 at_placement 0%nat 1 3000 4000
              _ _ _ _ Hq Hrep eq_refl H1 H2 H3 H4) as (s' & Hrun & _ & Href & _ & Hcell).
  exists s'. split; [exact Hrun|].
  change (length (references (o_store at_placement))) with 0%nat in Href, Hcell.
  rewrite Href. split; [reflexivity|]. split; [reflexivity|].
  exact (Hcell _ eq_refl).
Defined.

(** The library of scenario S2 written and its start read: no message, a
    thousand database units to the micrometre, and the reader at the
    offset 28, after the flag. *)
Lemma write_oas_read_oas_start_S2 :
  exists content s,
    write_oas S2_store S2_library true 0 0 0 = Some (Some content, []) /\
    read_oas_start content 0 = inl (Ok s) /\
    o_stderr s = [] /\ in_pos (o_in s) = 28.
Proof.
  destruct (write_oas S2_store S2_library true 0 0 0) as [[[content|] stderr]|] eqn:Hw;
    [|vm_compute in Hw; discriminate Hw..].
  assert (Hstderr : stderr = []) by (vm_compute in Hw; congruence).
  subst stderr.
  assert (Hreal : oasis_read_real (mkOasisInput content 18 None)
                  = Some (PrimFloat.div micro (lib_precision S2_library),
                          mkOasisInput content
                            (18 + Z.of_nat (length (oasis_write_real
                                                      (PrimFloat.div micro
                                                         (lib_precision S2_library)))))
                            None)).
  { vm_compute in Hw. injection Hw as <-. vm_compute. reflexivity. }
  destruct (write_oas_read_oas_start S2_store S2_library 0 0 0 content [] 0 Hw Hreal)
    as (s & Hrun & Hstderr & Hin & _).
  exists content, s. split; [reflexivity|]. split; [exact Hrun|]. split; [exact Hstderr|].
  rewrite Hin. reflexivity.
Defined.

(** The same file given to [oas_precision]. *)
Lemma write_oas_oas_precision_S2 :
  exists content,
    write_oas S2_store S2_library true 0 0 0 = Some (Some content, []) /\
    oas_precision (Some content) 0
    = Ok (0, PrimFloat.div micro (PrimFloat.div micro (lib_precision S2_library)), []).
Proof.
  destruct (write_oas S2_store S2_library true 0 0 0) as [[[content|] stderr]|] eqn:Hw;
    [|vm_compute in Hw; discriminate Hw..].
  assert (Hstderr : stderr = []) by (vm_compute in Hw; congruence).
  subst stderr.
  assert (Hreal : oasis_read_real (mkOasisInput content 18 None)
                  = Some (PrimFloat.div micro (lib_precision S2_library),
                          mkOasisInput content
                            (18 + Z.of_nat (length (oasis_write_real
                                                      (PrimFloat.div micro
                                                         (lib_precision S2_library)))))
                            None)).
  { vm_compute in Hw. injection Hw as <-. vm_compute. reflexivity. }
  exists content. split; [reflexivity|].
  exact (write_oas_oas_precision S2_store S2_library 0 0 0 content [] 0 Hw Hreal).
Defined.




End More_examples_oas.
